(** * MISP to STIX conversion engines: a shallow embedding

    This development embeds the two conversion engines of the repository,

    - [misp_stix_converter/stix_export/misp_to_stix1.py]
      (class [MISPtoSTIX1Parser], nested incident/package target), and
    - [misp_stix_converter/misp2stix/misp_to_stix2.py]
      (classes [MISPtoSTIX2Parser], [MISPtoSTIX20Parser], flat bundle target),

    and states the properties of the specification over them.

    Python objects become records, the parser instance becomes an explicit
    state record, and a method becomes a computation in a state-and-exception
    monad in which a raised exception keeps every mutation made before it
    (as in Python, where nothing is rolled back).  Dictionaries are
    insertion-ordered association lists, since the code iterates over
    [.values()]; the [warnings] set is a [gset string]. *)

From Stdlib Require Import Ascii String.
From stdpp Require Import gmap strings list.

Set Warnings "-register-all".

Open Scope string_scope.
Open Scope list_scope.

(* ===================================================================== *)
(** * Python runtime pieces used by the engines *)
(* ===================================================================== *)

Module Py.

(** The exceptions the engines can meet; all are subclasses of [Exception],
    so an [except Exception] clause catches every one of them. *)
Inductive exn : Type :=
| KeyError (key : string)
| ValueError (msg : string)
| TypeError (msg : string)
| AttributeError (name : string)
| NameError (name : string)
| UnboundLocalError (name : string)
(** raised by the stix2 library, not a [ValueError] *)
| TLPMarkingDefinitionError (msg : string)
(** any other error of the object-model library *)
| STIXError (name : string).

(** [s.split(sep)] for a one-character separator: never empty. *)
Fixpoint split (sep : ascii) (s : string) : list string :=
  match s with
  | EmptyString => [EmptyString]
  | String c s' =>
      if Ascii.eqb c sep then EmptyString :: split sep s'
      else match split sep s' with
           | w :: ws => String c w :: ws
           | [] => [String c EmptyString]
           end
  end.

(** [l[-1]] on a list that [split] returned. *)
Definition last_item (l : list string) : string := List.last l EmptyString.

Definition upper_ascii (c : ascii) : ascii :=
  let n := nat_of_ascii c in
  if (97 <=? n)%nat && (n <=? 122)%nat then ascii_of_nat (n - 32) else c.

(** [s.upper()] on ASCII text. *)
Fixpoint upper (s : string) : string :=
  match s with
  | EmptyString => EmptyString
  | String c s' => String (upper_ascii c) (upper s')
  end.

(** [s.startswith(p)]. *)
Definition startswith (p s : string) : bool := String.prefix p s.

(** [sub in s] on strings. *)
Fixpoint contains (sub s : string) : bool :=
  String.prefix sub s ||
  match s with
  | EmptyString => false
  | String _ s' => contains sub s'
  end.

Definition is_space (c : ascii) : bool :=
  let n := nat_of_ascii c in
  (n =? 32)%nat || ((9 <=? n)%nat && (n <=? 13)%nat).

Fixpoint lstrip (s : string) : string :=
  match s with
  | String c s' => if is_space c then lstrip s' else s
  | EmptyString => EmptyString
  end.

Fixpoint rstrip (s : string) : string :=
  match s with
  | EmptyString => EmptyString
  | String c s' =>
      match rstrip s' with
      | EmptyString => if is_space c then EmptyString else String c EmptyString
      | r => String c r
      end
  end.

(** [s.strip()]. *)
Definition strip (s : string) : string := rstrip (lstrip s).

(** The one-character string holding a double quote. *)
Definition dquote : string := String (ascii_of_nat 34) EmptyString.

(** [str(x)] of an optional string: [None] prints as ['None']. *)
Definition str (o : option string) : string :=
  match o with Some s => s | None => "None" end.

(** [a, b = l]: unpacking into exactly two names. *)
Definition unpack2 (l : list string) : exn + (string * string) :=
  match l with
  | [a; b] => inr (a, b)
  | [] | [_] => inl (ValueError "not enough values to unpack (expected 2)")
  | _ => inl (ValueError "too many values to unpack (expected 2)")
  end.

(** [s.replace(old, new)] for a one-character [old]. *)
Fixpoint replace (old : ascii) (new s : string) : string :=
  match s with
  | EmptyString => EmptyString
  | String c s' =>
      if Ascii.eqb c old then new +:+ replace old new s'
      else String c (replace old new s')
  end.

(** Truth value of an optional string ([None] and [''] are false). *)
Definition truthy (o : option string) : bool :=
  match o with
  | Some (String _ _) => true
  | _ => false
  end.

End Py.

(** ** Insertion-ordered dictionaries with string keys *)

Module Dict.

Abbreviation t V := (list (string * V)).

Section Ops.
Context {V : Type}.

Fixpoint get (k : string) (d : t V) : option V :=
  match d with
  | [] => None
  | (k', v) :: d' => if decide (k = k') then Some v else get k d'
  end.

(** [k in d] *)
Definition mem (k : string) (d : t V) : bool :=
  match get k d with Some _ => true | None => false end.

(** [d[k] = v]: an existing key keeps its position. *)
Fixpoint set (k : string) (v : V) (d : t V) : t V :=
  match d with
  | [] => [(k, v)]
  | (k', v') :: d' =>
      if decide (k = k') then (k, v) :: d' else (k', v') :: set k v d'
  end.

(** [d.pop(k)]: the dictionary without the key. *)
Fixpoint remove (k : string) (d : t V) : t V :=
  match d with
  | [] => []
  | (k', v') :: d' =>
      if decide (k = k') then d' else (k', v') :: remove k d'
  end.

Definition keys (d : t V) : list string := d.*1.

(** [d.values()], in insertion order. *)
Definition values (d : t V) : list V := d.*2.

End Ops.

End Dict.

(** ** The state-and-exception monad

    A computation takes the state and returns the new state together with
    either the raised exception or the returned value.  The state returned
    with an exception is the state at the moment it was raised. *)

Definition M (S A : Type) : Type := S -> S * (Py.exn + A).

Definition ret {S A} (a : A) : M S A := fun s => (s, inr a).

Definition raise {S A} (e : Py.exn) : M S A := fun s => (s, inl e).

Definition bind {S A B} (m : M S A) (k : A -> M S B) : M S B :=
  fun s =>
    match m s with
    | (s', inl e) => (s', inl e)
    | (s', inr a) => k a s'
    end.

Definition get_state {S} : M S S := fun s => (s, inr s).

Definition modify {S} (f : S -> S) : M S unit := fun s => (f s, inr tt).

(** [try: m  except Exception: h] *)
Definition try_except {S A} (m : M S A) (h : Py.exn -> M S A) : M S A :=
  fun s =>
    match m s with
    | (s', inl e) => h e s'
    | r => r
    end.

(** [for x in l: body x] *)
Fixpoint for_each {S X} (l : list X) (body : X -> M S unit) : M S unit :=
  match l with
  | [] => ret tt
  | x :: l' => bind (body x) (fun _ => for_each l' body)
  end.

(** Lifting of a pure computation that may raise. *)
Definition lift {S A} (r : Py.exn + A) : M S A := fun s => (s, r).

(** Sequencing of pure computations that may raise. *)
Definition bind_exn {A B} (r : Py.exn + A) (k : A -> Py.exn + B)
  : Py.exn + B :=
  match r with
  | inl e => inl e
  | inr a => k a
  end.

Declare Scope monad_scope.
Delimit Scope monad_scope with monad.
Notation "x <- m ;; k" := (bind m (fun x => k))
  (at level 100, m at next level, k at level 200, right associativity)
  : monad_scope.
Notation "m ;; k" := (bind m (fun _ => k))
  (at level 100, k at level 200, right associativity) : monad_scope.
Notation "x <~ r ;; k" := (bind_exn r (fun x => k))
  (at level 100, r at next level, k at level 200, right associativity)
  : monad_scope.
Open Scope monad_scope.

(** [d[k]] on a table: [KeyError] when the key is missing. *)
Definition index {V} (k : string) (d : Dict.t V) : Py.exn + V :=
  match Dict.get k d with
  | Some v => inr v
  | None => inl (Py.KeyError k)
  end.

(** [for x in l] threading the local variables [a] of the loop body. *)
Fixpoint fold_each {S X A} (l : list X) (a : A) (body : A -> X -> M S A)
  : M S A :=
  match l with
  | [] => ret a
  | x :: l' => a' <- body a x ;; fold_each l' a' body
  end.

(** The same loop for a body that touches no state. *)
Fixpoint fold_pure {X A} (l : list X) (a : A) (body : A -> X -> Py.exn + A)
  : Py.exn + A :=
  match l with
  | [] => inr a
  | x :: l' =>
      match body a x with
      | inl e => inl e
      | inr a' => fold_pure l' a' body
      end
  end.


(* ===================================================================== *)
(** * The source event (pymisp objects, read-only input) *)
(* ===================================================================== *)

(** [cluster['meta']]: the entries the engines read. *)
Record ClusterMeta : Type := {
  meta_external_id : list string;
  meta_synonyms : list string;
  meta_aliases : list string;
  meta_refs : list string;
  (** ['cfr-type-of-incident']: a string or a list of strings *)
  meta_cfr_type_of_incident : option (string + list string)
}.

(** A galaxy cluster is a dictionary; a key the document may omit is an
    [option] here, and indexing it when absent raises [KeyError]. *)
Record Cluster : Type := {
  c_uuid : string;
  c_value : string;
  c_description : option string;
  c_meta : option ClusterMeta
}.

Record Galaxy : Type := {
  g_type : string;
  g_name : string;
  g_GalaxyCluster : list Cluster
}.

Record MISPAttribute : Type := {
  a_uuid : string;
  a_type : string;
  a_category : string;
  a_value : string;
  a_comment : option string;
  a_to_ids : bool;
  a_data : option string;
  a_timestamp : string;
  a_object_relation : string;
  (** names of the tags, [tag.name for tag in attribute.tags] *)
  a_tags : list string;
  a_Galaxy : list Galaxy
}.

Record MISPObject : Type := {
  o_uuid : string;
  o_name : string;
  o_meta_category : option string;
  o_description : option string;
  o_comment : option string;
  o_timestamp : string;
  o_attributes : list MISPAttribute
}.

(** [Orgc] and [Org] of an event. *)
Record Organisation : Type := { org_uuid : string; org_name : string }.

Record MISPEvent : Type := {
  e_uuid : string;
  e_info : string;
  e_date : string;
  e_timestamp : string;
  e_published : bool;
  e_publish_timestamp : string;
  e_threat_level_id : option string;
  e_id : option string;
  e_analysis : option string;
  e_orgc : option Organisation;
  e_org : option Organisation;
  e_tags : list string;
  e_Galaxy : list Galaxy;
  e_attributes : list MISPAttribute;
  e_objects : list MISPObject
}.

(* ===================================================================== *)
(** * The nested target: [MISPtoSTIX1Parser] *)
(* ===================================================================== *)

Module Stix1.

(** ** Objects of the object-model libraries (cybox, stix)

    The payload objects of cybox are kept as generic values: a class name
    and the fields the engine assigns.  The entities the engine wires
    together (observables, indicators, descriptors, relationships,
    markings, incident, package) are records. *)

Inductive Val : Type :=
| VStr (s : string)
| VBool (b : bool)
| VList (l : list Val)
| VObj (cls : string) (fields : list (string * Val)).

(** [obj.name = value] on an object built before. *)
Definition with_field (name : string) (value : Val) (obj : Val) : Val :=
  match obj with
  | VObj cls fields => VObj cls (fields ++ [(name, value)])
  | v => v
  end.

(** A typed field holding [value] whose [condition] was then assigned. *)
Definition with_condition (value condition : string) : Val :=
  VObj "Property" [("value", VStr value); ("condition", VStr condition)].

(** [Observable(stix_object)] with [stix_object.parent.id_] and [id_]. *)
Record CyboxObservable : Type := {
  so_id : string;
  so_title : option string;
  so_object_id : string;
  so_object : Val
}.

Inductive Observable : Type :=
| ObsObject (o : CyboxObservable)
| ObsComposition (id : string) (operator : string)
                 (observables : list CyboxObservable).

Definition observable_id (o : Observable) : string :=
  match o with
  | ObsObject o => so_id o
  | ObsComposition id _ _ => id
  end.

Inductive MarkingStructure : Type :=
| TLPMarkingStructure (color : string)
| SimpleMarkingStructure (statement : string).

Record MarkingSpecification : Type := {
  marking_structures : list MarkingStructure
}.

(** [Marking]: the list of its marking specifications. *)
Record Marking : Type := { markings : list MarkingSpecification }.

(** [RelatedTTP(TTP(idref=..), relationship=..)], and likewise below. *)
Record RelatedTTP : Type := {
  rttp_idref : string; rttp_timestamp : option string;
  rttp_relationship : string }.
Record RelatedCOA : Type := {
  rcoa_idref : string; rcoa_timestamp : option string;
  rcoa_relationship : string }.
Record RelatedThreatActor : Type := {
  rta_idref : string; rta_timestamp : option string;
  rta_relationship : string }.
Record COATaken : Type := {
  coat_idref : string; coat_timestamp : option string }.

Record Confidence : Type := {
  conf_value : string; conf_description : string; conf_timestamp : string }.

Record Indicator : Type := {
  ind_id : string;
  ind_timestamp : string;
  ind_producer : string;
  ind_title : string;
  ind_description : string;
  ind_confidence : Confidence;
  ind_indicator_types : list string;
  ind_valid_time_positions : nat;
  ind_observables : list Observable;
  ind_test_mechanisms : list Val;
  ind_handling : option Marking;
  ind_indicated_ttps : list RelatedTTP;
  ind_suggested_coas : list RelatedCOA
}.

Record RelatedIndicator : Type := {
  ri_indicator : Indicator; ri_relationship : option string }.

Record RelatedObservable : Type := {
  ro_observable : Observable; ro_relationship : option string }.

Record TTP : Type := {
  ttp_id : string;
  ttp_timestamp : option string;
  ttp_title : string;
  ttp_handling : option Marking;
  ttp_behavior : option Val;
  ttp_resources : option Val;
  ttp_exploit_targets : list Val
}.

Record CourseOfAction : Type := {
  coa_id : string; coa_title : string; coa_description : string }.

Record ThreatActor : Type := {
  ta_id : string; ta_title : string; ta_description : option string;
  ta_intended_effects : list string }.

Record Incident : Type := {
  inc_id : string;
  inc_title : string;
  inc_timestamp : string;
  inc_discovery : string;
  inc_reported : option string;
  inc_handling : option Marking;
  inc_external_ids : list (string * string);
  inc_status : option string;
  inc_information_source : option string;
  inc_reporter : option string;
  (** [None] until the first journal entry creates the [History] *)
  inc_history : option (list string);
  inc_related_indicators : list RelatedIndicator;
  inc_related_observables : list RelatedObservable;
  inc_victims : list Val;
  inc_affected_assets : list string;
  inc_coa_taken : list COATaken;
  inc_attributed_threat_actors : option (list RelatedThreatActor);
  inc_leveraged_ttps : list RelatedTTP
}.

Record STIXHeader : Type := {
  header_title : string; header_description : option string }.

Record STIXPackage : Type := {
  pkg_id : string;
  pkg_timestamp : string;
  pkg_version : string;
  pkg_courses_of_action : list CourseOfAction;
  pkg_threat_actors : list ThreatActor;
  pkg_ttps : list TTP;
  pkg_incidents : list Incident;
  pkg_stix_header : option STIXHeader
}.

(** Field updates of the entities the engine mutates after creation. *)

Definition set_ind_indicator_types v (r : Indicator) : Indicator :=
  {| ind_id := ind_id r; ind_timestamp := ind_timestamp r;
     ind_producer := ind_producer r; ind_title := ind_title r;
     ind_description := ind_description r;
     ind_confidence := ind_confidence r; ind_indicator_types := v;
     ind_valid_time_positions := ind_valid_time_positions r;
     ind_observables := ind_observables r;
     ind_test_mechanisms := ind_test_mechanisms r;
     ind_handling := ind_handling r;
     ind_indicated_ttps := ind_indicated_ttps r;
     ind_suggested_coas := ind_suggested_coas r |}.
Definition set_ind_valid_time_positions v (r : Indicator) : Indicator :=
  {| ind_id := ind_id r; ind_timestamp := ind_timestamp r;
     ind_producer := ind_producer r; ind_title := ind_title r;
     ind_description := ind_description r;
     ind_confidence := ind_confidence r;
     ind_indicator_types := ind_indicator_types r;
     ind_valid_time_positions := v; ind_observables := ind_observables r;
     ind_test_mechanisms := ind_test_mechanisms r;
     ind_handling := ind_handling r;
     ind_indicated_ttps := ind_indicated_ttps r;
     ind_suggested_coas := ind_suggested_coas r |}.
Definition set_ind_observables v (r : Indicator) : Indicator :=
  {| ind_id := ind_id r; ind_timestamp := ind_timestamp r;
     ind_producer := ind_producer r; ind_title := ind_title r;
     ind_description := ind_description r;
     ind_confidence := ind_confidence r;
     ind_indicator_types := ind_indicator_types r;
     ind_valid_time_positions := ind_valid_time_positions r;
     ind_observables := v; ind_test_mechanisms := ind_test_mechanisms r;
     ind_handling := ind_handling r;
     ind_indicated_ttps := ind_indicated_ttps r;
     ind_suggested_coas := ind_suggested_coas r |}.
Definition set_ind_test_mechanisms v (r : Indicator) : Indicator :=
  {| ind_id := ind_id r; ind_timestamp := ind_timestamp r;
     ind_producer := ind_producer r; ind_title := ind_title r;
     ind_description := ind_description r;
     ind_confidence := ind_confidence r;
     ind_indicator_types := ind_indicator_types r;
     ind_valid_time_positions := ind_valid_time_positions r;
     ind_observables := ind_observables r; ind_test_mechanisms := v;
     ind_handling := ind_handling r;
     ind_indicated_ttps := ind_indicated_ttps r;
     ind_suggested_coas := ind_suggested_coas r |}.
Definition set_ind_handling v (r : Indicator) : Indicator :=
  {| ind_id := ind_id r; ind_timestamp := ind_timestamp r;
     ind_producer := ind_producer r; ind_title := ind_title r;
     ind_description := ind_description r;
     ind_confidence := ind_confidence r;
     ind_indicator_types := ind_indicator_types r;
     ind_valid_time_positions := ind_valid_time_positions r;
     ind_observables := ind_observables r;
     ind_test_mechanisms := ind_test_mechanisms r; ind_handling := v;
     ind_indicated_ttps := ind_indicated_ttps r;
     ind_suggested_coas := ind_suggested_coas r |}.
Definition set_ind_indicated_ttps v (r : Indicator) : Indicator :=
  {| ind_id := ind_id r; ind_timestamp := ind_timestamp r;
     ind_producer := ind_producer r; ind_title := ind_title r;
     ind_description := ind_description r;
     ind_confidence := ind_confidence r;
     ind_indicator_types := ind_indicator_types r;
     ind_valid_time_positions := ind_valid_time_positions r;
     ind_observables := ind_observables r;
     ind_test_mechanisms := ind_test_mechanisms r;
     ind_handling := ind_handling r; ind_indicated_ttps := v;
     ind_suggested_coas := ind_suggested_coas r |}.
Definition set_ind_suggested_coas v (r : Indicator) : Indicator :=
  {| ind_id := ind_id r; ind_timestamp := ind_timestamp r;
     ind_producer := ind_producer r; ind_title := ind_title r;
     ind_description := ind_description r;
     ind_confidence := ind_confidence r;
     ind_indicator_types := ind_indicator_types r;
     ind_valid_time_positions := ind_valid_time_positions r;
     ind_observables := ind_observables r;
     ind_test_mechanisms := ind_test_mechanisms r;
     ind_handling := ind_handling r;
     ind_indicated_ttps := ind_indicated_ttps r; ind_suggested_coas := v |}.

Definition set_ttp_handling v (r : TTP) : TTP :=
  {| ttp_id := ttp_id r; ttp_timestamp := ttp_timestamp r;
     ttp_title := ttp_title r; ttp_handling := v;
     ttp_behavior := ttp_behavior r; ttp_resources := ttp_resources r;
     ttp_exploit_targets := ttp_exploit_targets r |}.
Definition set_ttp_behavior v (r : TTP) : TTP :=
  {| ttp_id := ttp_id r; ttp_timestamp := ttp_timestamp r;
     ttp_title := ttp_title r; ttp_handling := ttp_handling r;
     ttp_behavior := v; ttp_resources := ttp_resources r;
     ttp_exploit_targets := ttp_exploit_targets r |}.
Definition set_ttp_resources v (r : TTP) : TTP :=
  {| ttp_id := ttp_id r; ttp_timestamp := ttp_timestamp r;
     ttp_title := ttp_title r; ttp_handling := ttp_handling r;
     ttp_behavior := ttp_behavior r; ttp_resources := v;
     ttp_exploit_targets := ttp_exploit_targets r |}.
Definition set_ttp_exploit_targets v (r : TTP) : TTP :=
  {| ttp_id := ttp_id r; ttp_timestamp := ttp_timestamp r;
     ttp_title := ttp_title r; ttp_handling := ttp_handling r;
     ttp_behavior := ttp_behavior r; ttp_resources := ttp_resources r;
     ttp_exploit_targets := v |}.

Definition set_inc_reported v (r : Incident) : Incident :=
  {| inc_id := inc_id r; inc_title := inc_title r;
     inc_timestamp := inc_timestamp r; inc_discovery := inc_discovery r;
     inc_reported := v; inc_handling := inc_handling r;
     inc_external_ids := inc_external_ids r; inc_status := inc_status r;
     inc_information_source := inc_information_source r;
     inc_reporter := inc_reporter r; inc_history := inc_history r;
     inc_related_indicators := inc_related_indicators r;
     inc_related_observables := inc_related_observables r;
     inc_victims := inc_victims r;
     inc_affected_assets := inc_affected_assets r;
     inc_coa_taken := inc_coa_taken r;
     inc_attributed_threat_actors := inc_attributed_threat_actors r;
     inc_leveraged_ttps := inc_leveraged_ttps r |}.
Definition set_inc_handling v (r : Incident) : Incident :=
  {| inc_id := inc_id r; inc_title := inc_title r;
     inc_timestamp := inc_timestamp r; inc_discovery := inc_discovery r;
     inc_reported := inc_reported r; inc_handling := v;
     inc_external_ids := inc_external_ids r; inc_status := inc_status r;
     inc_information_source := inc_information_source r;
     inc_reporter := inc_reporter r; inc_history := inc_history r;
     inc_related_indicators := inc_related_indicators r;
     inc_related_observables := inc_related_observables r;
     inc_victims := inc_victims r;
     inc_affected_assets := inc_affected_assets r;
     inc_coa_taken := inc_coa_taken r;
     inc_attributed_threat_actors := inc_attributed_threat_actors r;
     inc_leveraged_ttps := inc_leveraged_ttps r |}.
Definition set_inc_external_ids v (r : Incident) : Incident :=
  {| inc_id := inc_id r; inc_title := inc_title r;
     inc_timestamp := inc_timestamp r; inc_discovery := inc_discovery r;
     inc_reported := inc_reported r; inc_handling := inc_handling r;
     inc_external_ids := v; inc_status := inc_status r;
     inc_information_source := inc_information_source r;
     inc_reporter := inc_reporter r; inc_history := inc_history r;
     inc_related_indicators := inc_related_indicators r;
     inc_related_observables := inc_related_observables r;
     inc_victims := inc_victims r;
     inc_affected_assets := inc_affected_assets r;
     inc_coa_taken := inc_coa_taken r;
     inc_attributed_threat_actors := inc_attributed_threat_actors r;
     inc_leveraged_ttps := inc_leveraged_ttps r |}.
Definition set_inc_status v (r : Incident) : Incident :=
  {| inc_id := inc_id r; inc_title := inc_title r;
     inc_timestamp := inc_timestamp r; inc_discovery := inc_discovery r;
     inc_reported := inc_reported r; inc_handling := inc_handling r;
     inc_external_ids := inc_external_ids r; inc_status := v;
     inc_information_source := inc_information_source r;
     inc_reporter := inc_reporter r; inc_history := inc_history r;
     inc_related_indicators := inc_related_indicators r;
     inc_related_observables := inc_related_observables r;
     inc_victims := inc_victims r;
     inc_affected_assets := inc_affected_assets r;
     inc_coa_taken := inc_coa_taken r;
     inc_attributed_threat_actors := inc_attributed_threat_actors r;
     inc_leveraged_ttps := inc_leveraged_ttps r |}.
Definition set_inc_information_source v (r : Incident) : Incident :=
  {| inc_id := inc_id r; inc_title := inc_title r;
     inc_timestamp := inc_timestamp r; inc_discovery := inc_discovery r;
     inc_reported := inc_reported r; inc_handling := inc_handling r;
     inc_external_ids := inc_external_ids r; inc_status := inc_status r;
     inc_information_source := v; inc_reporter := inc_reporter r;
     inc_history := inc_history r;
     inc_related_indicators := inc_related_indicators r;
     inc_related_observables := inc_related_observables r;
     inc_victims := inc_victims r;
     inc_affected_assets := inc_affected_assets r;
     inc_coa_taken := inc_coa_taken r;
     inc_attributed_threat_actors := inc_attributed_threat_actors r;
     inc_leveraged_ttps := inc_leveraged_ttps r |}.
Definition set_inc_reporter v (r : Incident) : Incident :=
  {| inc_id := inc_id r; inc_title := inc_title r;
     inc_timestamp := inc_timestamp r; inc_discovery := inc_discovery r;
     inc_reported := inc_reported r; inc_handling := inc_handling r;
     inc_external_ids := inc_external_ids r; inc_status := inc_status r;
     inc_information_source := inc_information_source r; inc_reporter := v;
     inc_history := inc_history r;
     inc_related_indicators := inc_related_indicators r;
     inc_related_observables := inc_related_observables r;
     inc_victims := inc_victims r;
     inc_affected_assets := inc_affected_assets r;
     inc_coa_taken := inc_coa_taken r;
     inc_attributed_threat_actors := inc_attributed_threat_actors r;
     inc_leveraged_ttps := inc_leveraged_ttps r |}.
Definition set_inc_history v (r : Incident) : Incident :=
  {| inc_id := inc_id r; inc_title := inc_title r;
     inc_timestamp := inc_timestamp r; inc_discovery := inc_discovery r;
     inc_reported := inc_reported r; inc_handling := inc_handling r;
     inc_external_ids := inc_external_ids r; inc_status := inc_status r;
     inc_information_source := inc_information_source r;
     inc_reporter := inc_reporter r; inc_history := v;
     inc_related_indicators := inc_related_indicators r;
     inc_related_observables := inc_related_observables r;
     inc_victims := inc_victims r;
     inc_affected_assets := inc_affected_assets r;
     inc_coa_taken := inc_coa_taken r;
     inc_attributed_threat_actors := inc_attributed_threat_actors r;
     inc_leveraged_ttps := inc_leveraged_ttps r |}.
Definition set_inc_related_indicators v (r : Incident) : Incident :=
  {| inc_id := inc_id r; inc_title := inc_title r;
     inc_timestamp := inc_timestamp r; inc_discovery := inc_discovery r;
     inc_reported := inc_reported r; inc_handling := inc_handling r;
     inc_external_ids := inc_external_ids r; inc_status := inc_status r;
     inc_information_source := inc_information_source r;
     inc_reporter := inc_reporter r; inc_history := inc_history r;
     inc_related_indicators := v;
     inc_related_observables := inc_related_observables r;
     inc_victims := inc_victims r;
     inc_affected_assets := inc_affected_assets r;
     inc_coa_taken := inc_coa_taken r;
     inc_attributed_threat_actors := inc_attributed_threat_actors r;
     inc_leveraged_ttps := inc_leveraged_ttps r |}.
Definition set_inc_related_observables v (r : Incident) : Incident :=
  {| inc_id := inc_id r; inc_title := inc_title r;
     inc_timestamp := inc_timestamp r; inc_discovery := inc_discovery r;
     inc_reported := inc_reported r; inc_handling := inc_handling r;
     inc_external_ids := inc_external_ids r; inc_status := inc_status r;
     inc_information_source := inc_information_source r;
     inc_reporter := inc_reporter r; inc_history := inc_history r;
     inc_related_indicators := inc_related_indicators r;
     inc_related_observables := v; inc_victims := inc_victims r;
     inc_affected_assets := inc_affected_assets r;
     inc_coa_taken := inc_coa_taken r;
     inc_attributed_threat_actors := inc_attributed_threat_actors r;
     inc_leveraged_ttps := inc_leveraged_ttps r |}.
Definition set_inc_victims v (r : Incident) : Incident :=
  {| inc_id := inc_id r; inc_title := inc_title r;
     inc_timestamp := inc_timestamp r; inc_discovery := inc_discovery r;
     inc_reported := inc_reported r; inc_handling := inc_handling r;
     inc_external_ids := inc_external_ids r; inc_status := inc_status r;
     inc_information_source := inc_information_source r;
     inc_reporter := inc_reporter r; inc_history := inc_history r;
     inc_related_indicators := inc_related_indicators r;
     inc_related_observables := inc_related_observables r; inc_victims := v;
     inc_affected_assets := inc_affected_assets r;
     inc_coa_taken := inc_coa_taken r;
     inc_attributed_threat_actors := inc_attributed_threat_actors r;
     inc_leveraged_ttps := inc_leveraged_ttps r |}.
Definition set_inc_affected_assets v (r : Incident) : Incident :=
  {| inc_id := inc_id r; inc_title := inc_title r;
     inc_timestamp := inc_timestamp r; inc_discovery := inc_discovery r;
     inc_reported := inc_reported r; inc_handling := inc_handling r;
     inc_external_ids := inc_external_ids r; inc_status := inc_status r;
     inc_information_source := inc_information_source r;
     inc_reporter := inc_reporter r; inc_history := inc_history r;
     inc_related_indicators := inc_related_indicators r;
     inc_related_observables := inc_related_observables r;
     inc_victims := inc_victims r; inc_affected_assets := v;
     inc_coa_taken := inc_coa_taken r;
     inc_attributed_threat_actors := inc_attributed_threat_actors r;
     inc_leveraged_ttps := inc_leveraged_ttps r |}.
Definition set_inc_coa_taken v (r : Incident) : Incident :=
  {| inc_id := inc_id r; inc_title := inc_title r;
     inc_timestamp := inc_timestamp r; inc_discovery := inc_discovery r;
     inc_reported := inc_reported r; inc_handling := inc_handling r;
     inc_external_ids := inc_external_ids r; inc_status := inc_status r;
     inc_information_source := inc_information_source r;
     inc_reporter := inc_reporter r; inc_history := inc_history r;
     inc_related_indicators := inc_related_indicators r;
     inc_related_observables := inc_related_observables r;
     inc_victims := inc_victims r;
     inc_affected_assets := inc_affected_assets r; inc_coa_taken := v;
     inc_attributed_threat_actors := inc_attributed_threat_actors r;
     inc_leveraged_ttps := inc_leveraged_ttps r |}.
Definition set_inc_attributed_threat_actors v (r : Incident) : Incident :=
  {| inc_id := inc_id r; inc_title := inc_title r;
     inc_timestamp := inc_timestamp r; inc_discovery := inc_discovery r;
     inc_reported := inc_reported r; inc_handling := inc_handling r;
     inc_external_ids := inc_external_ids r; inc_status := inc_status r;
     inc_information_source := inc_information_source r;
     inc_reporter := inc_reporter r; inc_history := inc_history r;
     inc_related_indicators := inc_related_indicators r;
     inc_related_observables := inc_related_observables r;
     inc_victims := inc_victims r;
     inc_affected_assets := inc_affected_assets r;
     inc_coa_taken := inc_coa_taken r; inc_attributed_threat_actors := v;
     inc_leveraged_ttps := inc_leveraged_ttps r |}.
Definition set_inc_leveraged_ttps v (r : Incident) : Incident :=
  {| inc_id := inc_id r; inc_title := inc_title r;
     inc_timestamp := inc_timestamp r; inc_discovery := inc_discovery r;
     inc_reported := inc_reported r; inc_handling := inc_handling r;
     inc_external_ids := inc_external_ids r; inc_status := inc_status r;
     inc_information_source := inc_information_source r;
     inc_reporter := inc_reporter r; inc_history := inc_history r;
     inc_related_indicators := inc_related_indicators r;
     inc_related_observables := inc_related_observables r;
     inc_victims := inc_victims r;
     inc_affected_assets := inc_affected_assets r;
     inc_coa_taken := inc_coa_taken r;
     inc_attributed_threat_actors := inc_attributed_threat_actors r;
     inc_leveraged_ttps := v |}.

Definition set_pkg_courses_of_action v (r : STIXPackage) : STIXPackage :=
  {| pkg_id := pkg_id r; pkg_timestamp := pkg_timestamp r;
     pkg_version := pkg_version r; pkg_courses_of_action := v;
     pkg_threat_actors := pkg_threat_actors r; pkg_ttps := pkg_ttps r;
     pkg_incidents := pkg_incidents r;
     pkg_stix_header := pkg_stix_header r |}.
Definition set_pkg_threat_actors v (r : STIXPackage) : STIXPackage :=
  {| pkg_id := pkg_id r; pkg_timestamp := pkg_timestamp r;
     pkg_version := pkg_version r;
     pkg_courses_of_action := pkg_courses_of_action r;
     pkg_threat_actors := v; pkg_ttps := pkg_ttps r;
     pkg_incidents := pkg_incidents r;
     pkg_stix_header := pkg_stix_header r |}.
Definition set_pkg_ttps v (r : STIXPackage) : STIXPackage :=
  {| pkg_id := pkg_id r; pkg_timestamp := pkg_timestamp r;
     pkg_version := pkg_version r;
     pkg_courses_of_action := pkg_courses_of_action r;
     pkg_threat_actors := pkg_threat_actors r; pkg_ttps := v;
     pkg_incidents := pkg_incidents r;
     pkg_stix_header := pkg_stix_header r |}.
Definition set_pkg_incidents v (r : STIXPackage) : STIXPackage :=
  {| pkg_id := pkg_id r; pkg_timestamp := pkg_timestamp r;
     pkg_version := pkg_version r;
     pkg_courses_of_action := pkg_courses_of_action r;
     pkg_threat_actors := pkg_threat_actors r; pkg_ttps := pkg_ttps r;
     pkg_incidents := v; pkg_stix_header := pkg_stix_header r |}.
Definition set_pkg_stix_header v (r : STIXPackage) : STIXPackage :=
  {| pkg_id := pkg_id r; pkg_timestamp := pkg_timestamp r;
     pkg_version := pkg_version r;
     pkg_courses_of_action := pkg_courses_of_action r;
     pkg_threat_actors := pkg_threat_actors r; pkg_ttps := pkg_ttps r;
     pkg_incidents := pkg_incidents r; pkg_stix_header := v |}.

(** ** The mapping tables and library functions the engine consults

    [stix1_mapping] is imported by the module but is not among the sources:
    its tables are a parameter of the engine.  A table that names a method
    of the parser holds the method itself, so every entry names a method
    the class defines. *)

(** The methods [attribute_types_mapping] can name. *)
Inductive AttributeMethod : Type :=
| AM_attachment | AM_autonomous_system_attribute | AM_custom_attribute
| AM_domain_attribute | AM_domain_ip_attribute | AM_email_attachment
| AM_email_attribute | AM_file_attribute | AM_hash_attribute
| AM_hash_composite_attribute | AM_hostname_attribute
| AM_hostname_port_attribute | AM_http_method_attribute | AM_ip_attribute
| AM_ip_port_attribute | AM_mac_address | AM_malware_sample
| AM_mutex_attribute | AM_named_pipe | AM_pattern_attribute
| AM_port_attribute | AM_regkey_attribute | AM_regkey_value_attribute
| AM_snort_attribute | AM_target_email | AM_target_external
| AM_target_location | AM_target_machine | AM_target_org | AM_target_user
| AM_undefined_attribute | AM_url_attribute | AM_user_agent_attribute
| AM_vulnerability_attribute | AM_windows_service_attribute
| AM_x509_fingerprint_attribute | AM_yara_attribute.

(** A [galaxy_types_mapping] entry: ['_parse_<feature>_{}_galaxy'] for one
    of the four features that produce a TTP,
    ['_parse_course_of_action_{}_galaxy'], both to be formatted with the
    scope, or ['_parse_threat_actor_galaxy'], the one galaxy method without
    a scope in its name. *)
Inductive TTPFeature : Type :=
| attack_pattern | malware | tool | vulnerability.

Inductive GalaxyMethod : Type :=
| GM_ttp (feature : TTPFeature)
| GM_course_of_action
| GM_threat_actor.

(** The methods [objects_mapping] can name. *)
Inductive ObjectMethod : Type :=
| OM_asn_object | OM_credential_object | OM_custom_object.

Record Mapping : Type := {
  attribute_types_mapping : Dict.t AttributeMethod;
  galaxy_types_mapping : Dict.t GalaxyMethod;
  objects_mapping : Dict.t ObjectMethod;
  email_attribute_mapping : Dict.t string;
  misp_indicator_type : Dict.t string;
  threat_level_mapping : Dict.t string;
  status_mapping : Dict.t string;
  TLP_order : Dict.t Z;
  confidence_value : string;
  confidence_description : string
}.

(** Functions of the standard and object-model libraries whose results
    the engine stores without looking inside. *)
Record Library : Type := {
  (** [socket.inet_aton(value)] returns rather than raising *)
  inet_aton_ok : string -> bool;
  b64encode : string -> string;
  (** [getattr(Hash, 'TYPE_' + name)] when [hasattr] holds *)
  Hash_TYPE : string -> option string;
  (** the type [_set_hash_type] deduces from a hash value *)
  set_hash_type : string -> string;
  (** [date.strftime("%Y-%m-%dT%H:%M:%S+00:00")] *)
  strftime : string -> string
}.

(** ** The parser instance *)

Record Parser : Type := {
  namespace : string;
  orgname : string;
  errors : list string;
  warnings : gset string;
  header_comment : list string;
  misp_event : MISPEvent;
  (** [contextualised_data], a [defaultdict(dict)]: one field per key the
      engine uses; a key is present exactly when its dictionary has been
      touched, and every touch inserts, so present means non-empty *)
  ctx_course_of_action : Dict.t COATaken;
  ctx_threat_actor : Dict.t RelatedThreatActor;
  ctx_ttp : Dict.t RelatedTTP;
  courses_of_action : Dict.t CourseOfAction;
  threat_actors : Dict.t ThreatActor;
  ttps : Dict.t TTP;
  (** assigned by [parse_misp_event] before any use *)
  orgc_name : string;
  incident : Incident;
  stix_package : STIXPackage
}.

Definition set_errors v (r : Parser) : Parser :=
  {| namespace := namespace r; orgname := orgname r; errors := v;
     warnings := warnings r; header_comment := header_comment r;
     misp_event := misp_event r;
     ctx_course_of_action := ctx_course_of_action r;
     ctx_threat_actor := ctx_threat_actor r; ctx_ttp := ctx_ttp r;
     courses_of_action := courses_of_action r;
     threat_actors := threat_actors r; ttps := ttps r;
     orgc_name := orgc_name r; incident := incident r;
     stix_package := stix_package r |}.
Definition set_warnings v (r : Parser) : Parser :=
  {| namespace := namespace r; orgname := orgname r; errors := errors r;
     warnings := v; header_comment := header_comment r;
     misp_event := misp_event r;
     ctx_course_of_action := ctx_course_of_action r;
     ctx_threat_actor := ctx_threat_actor r; ctx_ttp := ctx_ttp r;
     courses_of_action := courses_of_action r;
     threat_actors := threat_actors r; ttps := ttps r;
     orgc_name := orgc_name r; incident := incident r;
     stix_package := stix_package r |}.
Definition set_header_comment v (r : Parser) : Parser :=
  {| namespace := namespace r; orgname := orgname r; errors := errors r;
     warnings := warnings r; header_comment := v;
     misp_event := misp_event r;
     ctx_course_of_action := ctx_course_of_action r;
     ctx_threat_actor := ctx_threat_actor r; ctx_ttp := ctx_ttp r;
     courses_of_action := courses_of_action r;
     threat_actors := threat_actors r; ttps := ttps r;
     orgc_name := orgc_name r; incident := incident r;
     stix_package := stix_package r |}.
Definition set_misp_event v (r : Parser) : Parser :=
  {| namespace := namespace r; orgname := orgname r; errors := errors r;
     warnings := warnings r; header_comment := header_comment r;
     misp_event := v; ctx_course_of_action := ctx_course_of_action r;
     ctx_threat_actor := ctx_threat_actor r; ctx_ttp := ctx_ttp r;
     courses_of_action := courses_of_action r;
     threat_actors := threat_actors r; ttps := ttps r;
     orgc_name := orgc_name r; incident := incident r;
     stix_package := stix_package r |}.
Definition set_ctx_course_of_action v (r : Parser) : Parser :=
  {| namespace := namespace r; orgname := orgname r; errors := errors r;
     warnings := warnings r; header_comment := header_comment r;
     misp_event := misp_event r; ctx_course_of_action := v;
     ctx_threat_actor := ctx_threat_actor r; ctx_ttp := ctx_ttp r;
     courses_of_action := courses_of_action r;
     threat_actors := threat_actors r; ttps := ttps r;
     orgc_name := orgc_name r; incident := incident r;
     stix_package := stix_package r |}.
Definition set_ctx_threat_actor v (r : Parser) : Parser :=
  {| namespace := namespace r; orgname := orgname r; errors := errors r;
     warnings := warnings r; header_comment := header_comment r;
     misp_event := misp_event r;
     ctx_course_of_action := ctx_course_of_action r; ctx_threat_actor := v;
     ctx_ttp := ctx_ttp r; courses_of_action := courses_of_action r;
     threat_actors := threat_actors r; ttps := ttps r;
     orgc_name := orgc_name r; incident := incident r;
     stix_package := stix_package r |}.
Definition set_ctx_ttp v (r : Parser) : Parser :=
  {| namespace := namespace r; orgname := orgname r; errors := errors r;
     warnings := warnings r; header_comment := header_comment r;
     misp_event := misp_event r;
     ctx_course_of_action := ctx_course_of_action r;
     ctx_threat_actor := ctx_threat_actor r; ctx_ttp := v;
     courses_of_action := courses_of_action r;
     threat_actors := threat_actors r; ttps := ttps r;
     orgc_name := orgc_name r; incident := incident r;
     stix_package := stix_package r |}.
Definition set_courses_of_action v (r : Parser) : Parser :=
  {| namespace := namespace r; orgname := orgname r; errors := errors r;
     warnings := warnings r; header_comment := header_comment r;
     misp_event := misp_event r;
     ctx_course_of_action := ctx_course_of_action r;
     ctx_threat_actor := ctx_threat_actor r; ctx_ttp := ctx_ttp r;
     courses_of_action := v; threat_actors := threat_actors r;
     ttps := ttps r; orgc_name := orgc_name r; incident := incident r;
     stix_package := stix_package r |}.
Definition set_threat_actors v (r : Parser) : Parser :=
  {| namespace := namespace r; orgname := orgname r; errors := errors r;
     warnings := warnings r; header_comment := header_comment r;
     misp_event := misp_event r;
     ctx_course_of_action := ctx_course_of_action r;
     ctx_threat_actor := ctx_threat_actor r; ctx_ttp := ctx_ttp r;
     courses_of_action := courses_of_action r; threat_actors := v;
     ttps := ttps r; orgc_name := orgc_name r; incident := incident r;
     stix_package := stix_package r |}.
Definition set_ttps v (r : Parser) : Parser :=
  {| namespace := namespace r; orgname := orgname r; errors := errors r;
     warnings := warnings r; header_comment := header_comment r;
     misp_event := misp_event r;
     ctx_course_of_action := ctx_course_of_action r;
     ctx_threat_actor := ctx_threat_actor r; ctx_ttp := ctx_ttp r;
     courses_of_action := courses_of_action r;
     threat_actors := threat_actors r; ttps := v; orgc_name := orgc_name r;
     incident := incident r; stix_package := stix_package r |}.
Definition set_orgc_name v (r : Parser) : Parser :=
  {| namespace := namespace r; orgname := orgname r; errors := errors r;
     warnings := warnings r; header_comment := header_comment r;
     misp_event := misp_event r;
     ctx_course_of_action := ctx_course_of_action r;
     ctx_threat_actor := ctx_threat_actor r; ctx_ttp := ctx_ttp r;
     courses_of_action := courses_of_action r;
     threat_actors := threat_actors r; ttps := ttps r; orgc_name := v;
     incident := incident r; stix_package := stix_package r |}.
Definition set_incident v (r : Parser) : Parser :=
  {| namespace := namespace r; orgname := orgname r; errors := errors r;
     warnings := warnings r; header_comment := header_comment r;
     misp_event := misp_event r;
     ctx_course_of_action := ctx_course_of_action r;
     ctx_threat_actor := ctx_threat_actor r; ctx_ttp := ctx_ttp r;
     courses_of_action := courses_of_action r;
     threat_actors := threat_actors r; ttps := ttps r;
     orgc_name := orgc_name r; incident := v;
     stix_package := stix_package r |}.
Definition set_stix_package v (r : Parser) : Parser :=
  {| namespace := namespace r; orgname := orgname r; errors := errors r;
     warnings := warnings r; header_comment := header_comment r;
     misp_event := misp_event r;
     ctx_course_of_action := ctx_course_of_action r;
     ctx_threat_actor := ctx_threat_actor r; ctx_ttp := ctx_ttp r;
     courses_of_action := courses_of_action r;
     threat_actors := threat_actors r; ttps := ttps r;
     orgc_name := orgc_name r; incident := incident r; stix_package := v |}.

Definition __init__ (namespace orgname : string) : Parser :=
  {| namespace := namespace; orgname := orgname;
     errors := []; warnings := ∅; header_comment := [];
     misp_event :=
       {| e_uuid := EmptyString; e_info := EmptyString;
          e_date := EmptyString; e_timestamp := EmptyString;
          e_published := false; e_publish_timestamp := EmptyString;
          e_threat_level_id := None; e_id := None; e_analysis := None;
          e_orgc := None; e_org := None; e_tags := [];
          e_Galaxy := []; e_attributes := []; e_objects := [] |};
     ctx_course_of_action := []; ctx_threat_actor := []; ctx_ttp := [];
     courses_of_action := []; threat_actors := []; ttps := [];
     orgc_name := EmptyString;
     incident :=
       {| inc_id := EmptyString; inc_title := EmptyString;
          inc_timestamp := EmptyString; inc_discovery := EmptyString;
          inc_reported := None; inc_handling := None;
          inc_external_ids := []; inc_status := None;
          inc_information_source := None; inc_reporter := None;
          inc_history := None; inc_related_indicators := [];
          inc_related_observables := []; inc_victims := [];
          inc_affected_assets := []; inc_coa_taken := [];
          inc_attributed_threat_actors := None;
          inc_leveraged_ttps := [] |};
     stix_package :=
       {| pkg_id := EmptyString; pkg_timestamp := EmptyString;
          pkg_version := EmptyString; pkg_courses_of_action := [];
          pkg_threat_actors := []; pkg_ttps := []; pkg_incidents := [];
          pkg_stix_header := None |} |}.

Section Engine.

Variable stix1_mapping : Mapping.
Variable lib : Library.

(** ** Objects creation helper functions *)

Definition _add_journal_entry (entryline : string) : M Parser unit :=
  modify (fun self =>
    let history :=
      match inc_history (incident self) with
      | Some h => h ++ [entryline]
      | None => [entryline]
      end in
    set_incident (set_inc_history (Some history) (incident self)) self).

Definition _create_address_object (attribute_type attribute_value : string)
  : Val :=
  let '(category, condition) :=
    if Py.contains "/" attribute_value then ("cidr", "Contains")
    else (if inet_aton_ok lib attribute_value
          then "ipv4-addr" else "ipv6-addr", "Equals") in
  let is_source := Py.contains "src" attribute_type in
  VObj "Address"
    [("category", VStr category);
     ("is_source", VBool is_source);
     ("is_destination", VBool (negb is_source));
     ("address_value", with_condition attribute_value condition)].

Definition _create_artifact_object (data : string) : Val :=
  VObj "Artifact" [("raw_artifact", with_condition data "Equals")].

Definition _create_autonomous_system_object (AS : string) : Val :=
  let feature := if Py.startswith "AS" AS then "handle" else "number" in
  VObj "AutonomousSystem" [(feature, with_condition AS "Equals")].

Definition _create_coa_taken (coa_id : string) (timestamp : option string)
  : COATaken :=
  {| coat_idref := coa_id; coat_timestamp := timestamp |}.

Definition _create_course_of_action_from_galaxy (self : Parser)
  (cluster : Cluster) : Py.exn + CourseOfAction :=
  match c_description cluster with
  | None => inl (Py.KeyError "description")
  | Some description =>
      inr {| coa_id := namespace self +:+ ":CourseOfAction-"
                       +:+ c_uuid cluster;
             coa_title := c_value cluster;
             coa_description := description |}
  end.

Definition _create_domain_object (domain : string) : Val :=
  VObj "DomainName" [("value", with_condition domain "Equals")].

Definition _create_file_object (filename : string) : Val :=
  VObj "File" [("file_name", with_condition filename "Equals")].

Definition _create_hostname_object (hostname : string) : Val :=
  VObj "Hostname" [("hostname_value", with_condition hostname "Equals")].

Definition _set_producer (self : Parser) : string := orgc_name self.

Definition _create_indicator_from_attribute (self : Parser)
  (attribute : MISPAttribute) : Indicator :=
  let title := a_category attribute +:+ ": " +:+ a_value attribute
               +:+ " (MISP Attribute)" in
  {| ind_id := namespace self +:+ ":Indicator-" +:+ a_uuid attribute;
     ind_timestamp := a_timestamp attribute;
     ind_producer := _set_producer self;
     ind_title := title;
     ind_description :=
       match a_comment attribute with
       | Some (String c s) => String c s
       | _ => title
       end;
     ind_confidence :=
       {| conf_value := confidence_value stix1_mapping;
          conf_description := confidence_description stix1_mapping;
          conf_timestamp := a_timestamp attribute |};
     ind_indicator_types := []; ind_valid_time_positions := 0;
     ind_observables := []; ind_test_mechanisms := [];
     ind_handling := None; ind_indicated_ttps := [];
     ind_suggested_coas := [] |}.

Definition _create_indicator_from_object (self : Parser)
  (misp_object : MISPObject) : Py.exn + Indicator :=
  description <~
    (if Py.truthy (o_comment misp_object)
     then inr (Py.str (o_comment misp_object))
     else match o_description misp_object with
          | Some d => inr d
          | None => inl (Py.AttributeError "description")
          end) ;;
  inr {| ind_id := namespace self +:+ ":Indicator-" +:+ o_uuid misp_object;
         ind_timestamp := o_timestamp misp_object;
         ind_producer := _set_producer self;
         ind_title := Py.str (o_meta_category misp_object) +:+ ": "
                      +:+ o_name misp_object +:+ " (MISP Object)";
         ind_description := description;
         ind_confidence :=
           {| conf_value := confidence_value stix1_mapping;
              conf_description := confidence_description stix1_mapping;
              conf_timestamp := o_timestamp misp_object |};
         ind_indicator_types := []; ind_valid_time_positions := 0;
         ind_observables := []; ind_test_mechanisms := [];
         ind_handling := None; ind_indicated_ttps := [];
         ind_suggested_coas := [] |}.

Definition _create_mutex_object (name : string) : Val :=
  VObj "Mutex" [("name", with_condition name "Equals")].

Definition _create_observable (self : Parser) (stix_object : Val)
  (attribute_uuid feature : string) : CyboxObservable :=
  {| so_id := namespace self +:+ ":Observable-" +:+ attribute_uuid;
     so_title := None;
     so_object_id := namespace self +:+ ":" +:+ feature +:+ "-"
                     +:+ attribute_uuid;
     so_object := stix_object |}.

Definition _create_port_object (port : string) : Val :=
  VObj "Port" [("port_value", with_condition port "Equals")].

Definition _create_registry_key_object (regkey : string) : Val :=
  VObj "WinRegistryKey" [("key", with_condition (Py.strip regkey) "Equals")].

Definition _create_related_coa (coa_id category : string)
  (timestamp : option string) : RelatedCOA :=
  {| rcoa_idref := coa_id; rcoa_timestamp := timestamp;
     rcoa_relationship := category |}.

Definition _create_related_threat_actor (ta_id category : string)
  (timestamp : option string) : RelatedThreatActor :=
  {| rta_idref := ta_id; rta_timestamp := timestamp;
     rta_relationship := category |}.

Definition _create_related_ttp (ttp_id category : string)
  (timestamp : option string) : RelatedTTP :=
  {| rttp_idref := ttp_id; rttp_timestamp := timestamp;
     rttp_relationship := category |}.

Definition _create_socket_address_object (attribute : MISPAttribute)
  : Py.exn + (string * Val) :=
  parts <~ Py.unpack2 (Py.split "|" (a_value attribute)) ;;
  let '(value, port) := parts in
  inr (value, VObj "SocketAddress" [("port", _create_port_object port)]).

Definition _create_threat_actor_from_galaxy (self : Parser)
  (cluster : Cluster) : Py.exn + ThreatActor :=
  let description :=
    if Py.truthy (c_description cluster) then c_description cluster
    else None in
  match c_meta cluster with
  | None => inl (Py.KeyError "meta")
  | Some meta =>
      let intended_effects :=
        match meta_cfr_type_of_incident meta with
        | Some (inr (effect :: effects)) => effect :: effects
        | Some (inl (String c s)) => [String c s]
        | _ => []
        end in
      inr {| ta_id := namespace self +:+ ":ThreatActor-" +:+ c_uuid cluster;
             ta_title := c_value cluster;
             ta_description := description;
             ta_intended_effects := intended_effects |}
  end.

Definition _create_ttp_from_galaxy (self : Parser)
  (galaxy_name uuid : string) : TTP :=
  {| ttp_id := namespace self +:+ ":TTP-" +:+ uuid;
     ttp_timestamp := None;
     ttp_title := galaxy_name +:+ " (MISP Galaxy)";
     ttp_handling := None; ttp_behavior := None; ttp_resources := None;
     ttp_exploit_targets := [] |}.

Definition _create_uri_object (url : string) : Val :=
  VObj "URI" [("value", with_condition url "Equals"); ("type_", VStr "URL")].

Definition _fetch_colors (tags : list string) : list string :=
  (fun tag => Py.upper (Py.last_item (Py.split ":" tag))) <$> tags.

(** The loop of [_set_color] over the local variables [tlp_color] and
    [color_value]; the latter is unbound until its first assignment. *)
Definition _set_color_loop (colors : list string)
  : Py.exn + (Z * option string) :=
  fold_pure colors (0%Z, None) (fun '(tlp_color, color_value) color =>
    color_num <~ index color (TLP_order stix1_mapping) ;;
    if (tlp_color <? color_num)%Z then inr (color_num, Some color)
    else inr (tlp_color, color_value)).

Definition _set_color (colors : list string) : Py.exn + string :=
  locals <~ _set_color_loop colors ;;
  match locals.2 with
  | Some c => inr c
  | None => inl (Py.UnboundLocalError "color_value")
  end.

Definition _set_creator (self : Parser) : string :=
  match e_orgc (misp_event self) with
  | Some orgc => org_name orgc
  | None => orgname self
  end.

Definition _set_handling (tags : list string) : Py.exn + Marking :=
  let sorted_tags :=
    foldl (fun '(tlp_tags, simple_tags) tag =>
             if Py.startswith "tlp:" tag then (tlp_tags ++ [tag], simple_tags)
             else (tlp_tags, simple_tags ++ [tag]))
          ([], []) tags in
  let '(tlp_tags, simple_tags) := sorted_tags in
  tlp_marking <~
    (match tlp_tags with
     | [] => inr []
     | _ => color <~ _set_color (_fetch_colors tlp_tags) ;;
            inr [TLPMarkingStructure color]
     end) ;;
  inr {| markings :=
           [ {| marking_structures :=
                  tlp_marking ++ (SimpleMarkingStructure <$> simple_tags) |} ]
      |}.

Definition _set_indicator_type (attribute_type : string) : string :=
  match Dict.get attribute_type (misp_indicator_type stix1_mapping) with
  | Some t => t
  | None => "Malware Artifacts"
  end.

Definition _set_reporter (self : Parser) : string :=
  match e_org (misp_event self) with
  | Some org => org_name org
  | None => orgname self
  end.

Definition _set_source (self : Parser) : string := orgc_name self.

Definition _create_ttp (self : Parser) (attribute : MISPAttribute)
  : Py.exn + TTP :=
  handling <~
    (match a_tags attribute with
     | [] => inr None
     | tags => h <~ _set_handling tags ;; inr (Some h)
     end) ;;
  inr {| ttp_id := namespace self +:+ ":TTP-" +:+ a_uuid attribute;
         ttp_timestamp := Some (a_timestamp attribute);
         ttp_title := a_category attribute +:+ ": " +:+ a_value attribute
                      +:+ " (MISP Attribute)";
         ttp_handling := handling; ttp_behavior := None;
         ttp_resources := None; ttp_exploit_targets := [] |}.

(** ** Utility functions *)

Definition _get_b64encoded (data : string) : string := b64encode lib data.

Definition _from_datetime_to_str (date : string) : string :=
  strftime lib date.

Definition _quick_fetch_tag_names (galaxy : Galaxy) : list string :=
  (fun cluster => "misp-galaxy:" +:+ g_type galaxy +:+ "=" +:+ Py.dquote
                  +:+ c_value cluster +:+ Py.dquote)
    <$> g_GalaxyCluster galaxy.

(** ** Galaxies parsing functions *)

Definition _parse_attack_pattern_galaxy (self : Parser) (cluster : Cluster)
  (ttp : TTP) : Py.exn + TTP :=
  description <~
    (match c_description cluster with
     | Some d => inr d
     | None => inl (Py.KeyError "description")
     end) ;;
  meta <~
    (match c_meta cluster with
     | Some m => inr m
     | None => inl (Py.KeyError "meta")
     end) ;;
  let capec_id :=
    match meta_external_id meta with
    | external_id :: _ =>
        if Py.startswith "CAPEC" external_id
        then [("capec_id", VStr external_id)] else []
    | [] => []
    end in
  let attack_pattern :=
    VObj "AttackPattern"
      ([("id_", VStr (namespace self +:+ ":AttackPattern-"
                      +:+ c_uuid cluster));
        ("title", VStr (c_value cluster));
        ("description", VStr description)] ++ capec_id) in
  inr (set_ttp_behavior
         (Some (VObj "Behavior"
                  [("attack_patterns", VList [attack_pattern])])) ttp).

Definition _parse_malware_galaxy (self : Parser) (cluster : Cluster)
  (ttp : TTP) : Py.exn + TTP :=
  let description :=
    match c_description cluster with
    | Some (String c s) => [("description", VStr (String c s))]
    | _ => []
    end in
  meta <~
    (match c_meta cluster with
     | Some m => inr m
     | None => inl (Py.KeyError "meta")
     end) ;;
  let malware :=
    VObj "MalwareInstance"
      ([("id_", VStr (namespace self +:+ ":MalwareInstance-"
                      +:+ c_uuid cluster));
        ("title", VStr (c_value cluster))] ++ description
       ++ [("names", VList (VStr <$> meta_synonyms meta))]) in
  inr (set_ttp_behavior
         (Some (VObj "Behavior" [("malware_instances", VList [malware])]))
         ttp).

Definition _parse_tool_galaxy (self : Parser) (cluster : Cluster)
  (ttp : TTP) : Py.exn + TTP :=
  let description :=
    match c_description cluster with
    | Some (String c s) => [("description", VStr (String c s))]
    | _ => []
    end in
  let tool :=
    VObj "ToolInformation"
      ([("id_", VStr (namespace self +:+ ":ToolInformation-"
                      +:+ c_uuid cluster));
        ("name", VStr (c_value cluster))] ++ description) in
  inr (set_ttp_resources
         (Some (VObj "Resource" [("tools", VList [tool])])) ttp).

Definition _parse_vulnerability_galaxy (self : Parser) (cluster : Cluster)
  (ttp : TTP) : Py.exn + TTP :=
  description <~
    (match c_description cluster with
     | Some d => inr d
     | None => inl (Py.KeyError "description")
     end) ;;
  meta <~
    (match c_meta cluster with
     | Some m => inr m
     | None => inl (Py.KeyError "meta")
     end) ;;
  let cve_id :=
    match meta_aliases meta with
    | alias :: _ => [("cve_id", VStr alias)]
    | [] => []
    end in
  let vulnerability :=
    VObj "Vulnerability"
      ([("id_", VStr (namespace self +:+ ":Vulnerability-"
                      +:+ c_uuid cluster));
        ("title", VStr (c_value cluster));
        ("description", VStr description)] ++ cve_id
       ++ [("references", VList (VStr <$> meta_refs meta))]) in
  let exploit_target :=
    VObj "ExploitTarget"
      [("id_", VStr (namespace self +:+ ":ExploitTarget-"
                     +:+ c_uuid cluster));
       ("vulnerabilities", VList [vulnerability])] in
  inr (set_ttp_exploit_targets
         (ttp_exploit_targets ttp ++ [exploit_target]) ttp).

(** [getattr(self, f'_parse_{feature}_galaxy')]. *)
Definition _parse_feature_galaxy (feature : TTPFeature) (self : Parser)
  (cluster : Cluster) (ttp : TTP) : Py.exn + TTP :=
  match feature with
  | attack_pattern => _parse_attack_pattern_galaxy self cluster ttp
  | malware => _parse_malware_galaxy self cluster ttp
  | tool => _parse_tool_galaxy self cluster ttp
  | vulnerability => _parse_vulnerability_galaxy self cluster ttp
  end.

Definition _get_related_ttps (galaxy : Galaxy) (feature : TTPFeature)
  : M Parser (Dict.t RelatedTTP) :=
  fold_each (g_GalaxyCluster galaxy) [] (fun related_ttps cluster =>
    let cluster_uuid := c_uuid cluster in
    self <- get_state ;;
    match Dict.get cluster_uuid (ttps self) with
    | Some registered =>
        ret (Dict.set cluster_uuid
               (_create_related_ttp (ttp_id registered) (g_name galaxy) None)
               related_ttps)
    | None =>
        let ttp := _create_ttp_from_galaxy self (g_name galaxy)
                     cluster_uuid in
        ttp <- lift (_parse_feature_galaxy feature self cluster ttp) ;;
        let related_ttps :=
          Dict.set cluster_uuid
            (_create_related_ttp (ttp_id ttp) (g_name galaxy) None)
            related_ttps in
        modify (fun self => set_ttps (Dict.set cluster_uuid ttp (ttps self))
                              self) ;;
        ret related_ttps
    end).

Definition _handle_related_ttps (related_ttps : Dict.t RelatedTTP)
  : M Parser unit :=
  for_each related_ttps (fun '(uuid, related_ttp) =>
    modify (fun self =>
      if Dict.mem uuid (ctx_ttp self) then self
      else set_ctx_ttp (Dict.set uuid related_ttp (ctx_ttp self)) self)).

(** [_parse_attack_pattern_attribute_galaxy], and the methods of the same
    shape for malware, tool and vulnerability galaxies: the indicator is
    returned with the relationships added. *)
Definition _parse_ttp_attribute_galaxy (feature : TTPFeature)
  (galaxy : Galaxy) (indicator : Indicator) : M Parser Indicator :=
  related_ttps <- _get_related_ttps galaxy feature ;;
  ret (set_ind_indicated_ttps
         (ind_indicated_ttps indicator ++ Dict.values related_ttps)
         indicator).

(** [_parse_attack_pattern_event_galaxy] and the like. *)
Definition _parse_ttp_event_galaxy (feature : TTPFeature)
  (galaxy : Galaxy) : M Parser unit :=
  related_ttps <- _get_related_ttps galaxy feature ;;
  _handle_related_ttps related_ttps.

Definition _parse_course_of_action_attribute_galaxy (galaxy : Galaxy)
  (indicator : Indicator) : M Parser Indicator :=
  fold_each (g_GalaxyCluster galaxy) indicator (fun indicator cluster =>
    let cluster_uuid := c_uuid cluster in
    self <- get_state ;;
    match Dict.get cluster_uuid (courses_of_action self) with
    | Some registered =>
        let related_coa :=
          _create_related_coa (coa_id registered) (g_name galaxy) None in
        ret (set_ind_suggested_coas
               (ind_suggested_coas indicator ++ [related_coa]) indicator)
    | None =>
        course_of_action <-
          lift (_create_course_of_action_from_galaxy self cluster) ;;
        let related_coa :=
          _create_related_coa (coa_id course_of_action) (g_name galaxy)
            None in
        let indicator :=
          set_ind_suggested_coas
            (ind_suggested_coas indicator ++ [related_coa]) indicator in
        modify (fun self =>
          set_courses_of_action
            (Dict.set cluster_uuid course_of_action
               (courses_of_action self)) self) ;;
        ret indicator
    end).

Definition _parse_course_of_action_event_galaxy (galaxy : Galaxy)
  : M Parser unit :=
  for_each (g_GalaxyCluster galaxy) (fun cluster =>
    let cluster_uuid := c_uuid cluster in
    self <- get_state ;;
    match Dict.get cluster_uuid (courses_of_action self) with
    | Some registered =>
        let coa_taken := _create_coa_taken (coa_id registered) None in
        modify (fun self =>
          set_ctx_course_of_action
            (Dict.set cluster_uuid coa_taken (ctx_course_of_action self))
            self)
    | None =>
        course_of_action <-
          lift (_create_course_of_action_from_galaxy self cluster) ;;
        let coa_taken :=
          _create_coa_taken (coa_id course_of_action) None in
        modify (fun self =>
          set_ctx_course_of_action
            (Dict.set cluster_uuid coa_taken (ctx_course_of_action self))
            self) ;;
        modify (fun self =>
          set_courses_of_action
            (Dict.set cluster_uuid course_of_action
               (courses_of_action self)) self)
    end).

Definition _parse_threat_actor_galaxy (galaxy : Galaxy) : M Parser unit :=
  for_each (g_GalaxyCluster galaxy) (fun cluster =>
    let cluster_uuid := c_uuid cluster in
    self <- get_state ;;
    if Dict.mem cluster_uuid (ctx_threat_actor self) then ret tt
    else
      match Dict.get cluster_uuid (threat_actors self) with
      | Some registered =>
          let related_threat_actor :=
            _create_related_threat_actor (ta_id registered)
              (g_name galaxy) None in
          modify (fun self =>
            set_ctx_threat_actor
              (Dict.set cluster_uuid related_threat_actor
                 (ctx_threat_actor self)) self)
      | None =>
          threat_actor <-
            lift (_create_threat_actor_from_galaxy self cluster) ;;
          let related_threat_actor :=
            _create_related_threat_actor (ta_id threat_actor)
              (g_name galaxy) None in
          modify (fun self =>
            set_ctx_threat_actor
              (Dict.set cluster_uuid related_threat_actor
                 (ctx_threat_actor self)) self) ;;
          modify (fun self =>
            set_threat_actors
              (Dict.set cluster_uuid threat_actor (threat_actors self))
              self)
      end).

(** [getattr(self, to_call.format('attribute'))(galaxy, indicator)].
    [_parse_threat_actor_galaxy] takes the galaxy alone, so the call
    with two arguments is a [TypeError]. *)
Definition call_attribute_galaxy (to_call : GalaxyMethod) (galaxy : Galaxy)
  (indicator : Indicator) : M Parser Indicator :=
  match to_call with
  | GM_ttp feature => _parse_ttp_attribute_galaxy feature galaxy indicator
  | GM_course_of_action =>
      _parse_course_of_action_attribute_galaxy galaxy indicator
  | GM_threat_actor =>
      raise (Py.TypeError
               "_parse_threat_actor_galaxy() takes 2 positional arguments but 3 were given")
  end.

(** [getattr(self, to_call.format('event'))(galaxy)]. *)
Definition call_event_galaxy (to_call : GalaxyMethod) (galaxy : Galaxy)
  : M Parser unit :=
  match to_call with
  | GM_ttp feature => _parse_ttp_event_galaxy feature galaxy
  | GM_course_of_action => _parse_course_of_action_event_galaxy galaxy
  | GM_threat_actor => _parse_threat_actor_galaxy galaxy
  end.

(** ** Attributes parsing functions *)

Definition add_warning (message : string) : M Parser unit :=
  modify (fun self => set_warnings ({[ message ]} ∪ warnings self) self).

Definition _handle_attribute_tags_and_galaxies (attribute : MISPAttribute)
  (indicator : Indicator) : M Parser (list string * Indicator) :=
  match a_Galaxy attribute with
  | [] => ret (a_tags attribute, indicator)
  | galaxies =>
      locals <-
        fold_each galaxies ([], indicator) (fun locals galaxy =>
          let '(tag_names, indicator) := locals in
          let galaxy_type := g_type galaxy in
          match Dict.get galaxy_type (galaxy_types_mapping stix1_mapping)
          with
          | Some to_call =>
              indicator <- call_attribute_galaxy to_call galaxy indicator ;;
              ret (tag_names ++ _quick_fetch_tag_names galaxy, indicator)
          | None =>
              add_warning (galaxy_type +:+ " galaxy in "
                           +:+ a_type attribute
                           +:+ " attribute not mapped.") ;;
              ret (tag_names, indicator)
          end) ;;
      let '(tag_names, indicator) := locals in
      ret (filter (fun name => name ∉ tag_names) (a_tags attribute),
           indicator)
  end.

Definition add_related_indicator (related_indicator : RelatedIndicator)
  : M Parser unit :=
  modify (fun self =>
    set_incident
      (set_inc_related_indicators
         (inc_related_indicators (incident self) ++ [related_indicator])
         (incident self)) self).

Definition add_related_observable (related_observable : RelatedObservable)
  : M Parser unit :=
  modify (fun self =>
    set_incident
      (set_inc_related_observables
         (inc_related_observables (incident self) ++ [related_observable])
         (incident self)) self).

(** [if tags: indicator.handling = self._set_handling(tags)] *)
Definition set_handling_if_tags (tags : list string) (indicator : Indicator)
  : Py.exn + Indicator :=
  match tags with
  | [] => inr indicator
  | _ => handling <~ _set_handling tags ;;
         inr (set_ind_handling (Some handling) indicator)
  end.

Definition _handle_attribute (attribute : MISPAttribute)
  (observable : Observable) : M Parser unit :=
  if a_to_ids attribute then
    self <- get_state ;;
    let indicator := _create_indicator_from_attribute self attribute in
    let indicator :=
      set_ind_indicator_types
        (ind_indicator_types indicator
         ++ [_set_indicator_type (a_type attribute)]) indicator in
    let indicator :=
      set_ind_valid_time_positions
        (S (ind_valid_time_positions indicator)) indicator in
    let indicator :=
      set_ind_observables (ind_observables indicator ++ [observable])
        indicator in
    locals <- _handle_attribute_tags_and_galaxies attribute indicator ;;
    let '(tags, indicator) := locals in
    indicator <- lift (set_handling_if_tags tags indicator) ;;
    add_related_indicator
      {| ri_indicator := indicator;
         ri_relationship := Some (a_category attribute) |}
  else
    add_related_observable
      {| ro_observable := observable;
         ro_relationship := Some (a_category attribute) |}.

(** The common ending of the handlers that build one cybox object. *)
Definition observe (attribute : MISPAttribute) (stix_object : Val)
  (feature : string) (title : option string) : M Parser unit :=
  self <- get_state ;;
  let observable :=
    _create_observable self stix_object (a_uuid attribute) feature in
  let observable :=
    match title with
    | Some t => {| so_id := so_id observable; so_title := Some t;
                   so_object_id := so_object_id observable;
                   so_object := so_object observable |}
    | None => observable
    end in
  _handle_attribute attribute (ObsObject observable).

Definition _parse_file_attribute (attribute : MISPAttribute)
  : M Parser unit :=
  observe attribute (_create_file_object (a_value attribute)) "File" None.

Definition _parse_attachment (attribute : MISPAttribute) : M Parser unit :=
  match a_data attribute with
  | Some data =>
      observe attribute (_create_artifact_object (_get_b64encoded data))
        "Artifact" (Some (a_value attribute))
  | None => _parse_file_attribute attribute
  end.

Definition _parse_autonomous_system_attribute (attribute : MISPAttribute)
  : M Parser unit :=
  observe attribute (_create_autonomous_system_object (a_value attribute))
    "AS" None.

Definition _parse_custom_attribute (attribute : MISPAttribute)
  : M Parser unit :=
  let property :=
    VObj "Property" [("name", VStr (a_type attribute));
                     ("value", VStr (a_value attribute))] in
  let custom_object :=
    VObj "Custom" [("custom_properties", VList [property])] in
  observe attribute custom_object "Custom" None.

Definition _parse_domain_attribute (attribute : MISPAttribute)
  : M Parser unit :=
  observe attribute (_create_domain_object (a_value attribute))
    "DomainName" None.

Definition _parse_domain_ip_attribute (attribute : MISPAttribute)
  : M Parser unit :=
  parts <- lift (Py.unpack2 (Py.split "|" (a_value attribute))) ;;
  let '(domain, ip) := parts in
  self <- get_state ;;
  let domain_observable :=
    _create_observable self (_create_domain_object domain)
      (a_uuid attribute) "DomainName" in
  let address_observable :=
    _create_observable self
      (_create_address_object (a_type attribute) ip)
      (a_uuid attribute) "Address" in
  _handle_attribute attribute
    (ObsComposition
       (namespace self +:+ ":ObservableComposition-" +:+ a_uuid attribute)
       "AND" [domain_observable; address_observable]).

Definition _parse_email_attachment (attribute : MISPAttribute)
  : M Parser unit :=
  self <- get_state ;;
  let file_id := namespace self +:+ ":File-" +:+ a_uuid attribute in
  let file_object :=
    VObj "File" [("file_name", with_condition (a_value attribute) "Equals");
                 ("id_", VStr file_id)] in
  let email :=
    VObj "EmailMessage"
      [("attachments", VList [VStr file_id]);
       ("related_objects",
        VList [VObj "RelatedObject"
                 [("object", file_object);
                  ("relationship", VStr "Contains");
                  ("id_", VStr file_id)]])] in
  observe attribute email "EmailMessage" None.

Definition _parse_email_attribute (attribute : MISPAttribute)
  : M Parser unit :=
  feature <- lift (index (a_type attribute)
                     (email_attribute_mapping stix1_mapping)) ;;
  let email_header :=
    VObj "EmailHeader"
      [(feature, with_condition (a_value attribute) "Equals")] in
  observe attribute (VObj "EmailMessage" [("header", email_header)])
    "EmailMessage" None.

Definition _parse_hash_value (attribute_type attribute_value : string)
  : Val :=
  let type_ :=
    match Hash_TYPE lib (Py.upper attribute_type) with
    | Some t => t
    | None => set_hash_type lib attribute_value
    end in
  VObj "Hash" [("hash_value", VStr attribute_value);
               ("exact", VBool true); ("type_", VStr type_)].

Definition _parse_hash_attribute (attribute : MISPAttribute)
  : M Parser unit :=
  let hash := _parse_hash_value (a_type attribute) (a_value attribute) in
  observe attribute (VObj "File" [("hashes", VList [hash])]) "File" None.

Definition _parse_hash_composite_attribute (attribute : MISPAttribute)
  : M Parser unit :=
  parts <- lift (Py.unpack2 (Py.split "|" (a_value attribute))) ;;
  let '(filename, hash_value) := parts in
  let attribute_type :=
    if Py.contains "|" (a_type attribute)
    then nth 1 (Py.split "|" (a_type attribute)) EmptyString
    else "filename|md5" in
  let hash := _parse_hash_value attribute_type hash_value in
  observe attribute
    (VObj "File" [("file_name", with_condition filename "Equals");
                  ("hashes", VList [hash])])
    "File" None.

Definition _parse_hostname_attribute (attribute : MISPAttribute)
  : M Parser unit :=
  observe attribute (_create_hostname_object (a_value attribute))
    "Hostname" None.

Definition _parse_hostname_port_attribute (attribute : MISPAttribute)
  : M Parser unit :=
  r <- lift (_create_socket_address_object attribute) ;;
  let '(hostname, socket_address) := r in
  observe attribute
    (with_field "hostname" (_create_hostname_object hostname)
       socket_address)
    "SocketAddress" None.

Definition _parse_http_session (attribute : MISPAttribute)
  (http_client_request : Val) : M Parser unit :=
  let http_request_response :=
    VObj "HTTPRequestResponse"
      [("http_client_request", http_client_request)] in
  observe attribute
    (VObj "HTTPSession"
       [("http_request_response", http_request_response)])
    "HTTPSession" None.

Definition _parse_http_method_attribute (attribute : MISPAttribute)
  : M Parser unit :=
  let http_request_line :=
    VObj "HTTPRequestLine"
      [("http_method", with_condition (a_value attribute) "Equals")] in
  _parse_http_session attribute
    (VObj "HTTPClientRequest" [("http_request_line", http_request_line)]).

Definition _parse_ip_attribute (attribute : MISPAttribute)
  : M Parser unit :=
  observe attribute
    (_create_address_object (a_type attribute) (a_value attribute))
    "Address" None.

Definition _parse_ip_port_attribute (attribute : MISPAttribute)
  : M Parser unit :=
  r <- lift (_create_socket_address_object attribute) ;;
  let '(ip, socket_address) := r in
  let address_type := nth 0 (Py.split "|" (a_type attribute)) EmptyString in
  observe attribute
    (with_field "ip_address" (_create_address_object address_type ip)
       socket_address)
    "SocketAddress" None.

Definition _parse_mac_address (attribute : MISPAttribute)
  : M Parser unit :=
  let network_interface :=
    VObj "NetworkInterface" [("mac", VStr (a_value attribute))] in
  observe attribute
    (VObj "System"
       [("network_interface_list", VList [network_interface])])
    "System" None.

Definition _parse_malware_sample (attribute : MISPAttribute)
  : M Parser unit :=
  match a_data attribute with
  | Some data =>
      parts <- lift (Py.unpack2 (Py.split "|" (a_value attribute))) ;;
      let '(filename, hash_value) := parts in
      let artifact_object :=
        VObj "Artifact"
          [("raw_artifact",
            with_condition (_get_b64encoded data) "Equals");
           ("hashes", VList [_parse_hash_value "md5" hash_value])] in
      observe attribute artifact_object "Artifact" (Some filename)
  | None => _parse_hash_composite_attribute attribute
  end.

Definition _parse_mutex_attribute (attribute : MISPAttribute)
  : M Parser unit :=
  observe attribute (_create_mutex_object (a_value attribute)) "Mutex" None.

Definition _parse_named_pipe (attribute : MISPAttribute) : M Parser unit :=
  observe attribute
    (VObj "Pipe" [("named", VBool true);
                  ("name", with_condition (a_value attribute) "Equals")])
    "Pipe" None.

Definition _parse_pattern_attribute (attribute : MISPAttribute)
  : M Parser unit :=
  let byte_run :=
    VObj "ByteRun" [("byte_run_data", VStr (a_value attribute))] in
  observe attribute (VObj "File" [("byte_runs", VList [byte_run])])
    "File" None.

Definition _parse_port_attribute (attribute : MISPAttribute)
  : M Parser unit :=
  observe attribute (_create_port_object (a_value attribute)) "Port" None.

Definition _parse_regkey_attribute (attribute : MISPAttribute)
  : M Parser unit :=
  observe attribute (_create_registry_key_object (a_value attribute))
    "WindowsRegistryKey" None.

Definition _parse_regkey_value_attribute (attribute : MISPAttribute)
  : M Parser unit :=
  parts <- lift (Py.unpack2 (Py.split "|" (a_value attribute))) ;;
  let '(regkey, value) := parts in
  let registry_value :=
    VObj "RegistryValue"
      [("data", with_condition (Py.strip value) "Equals")] in
  observe attribute
    (with_field "values" (VList [registry_value])
       (_create_registry_key_object regkey))
    "WindowsRegistryKey" None.

Definition _parse_test_mechanism (attribute : MISPAttribute)
  (test_mechanism : Val) : M Parser unit :=
  self <- get_state ;;
  let indicator := _create_indicator_from_attribute self attribute in
  locals <- _handle_attribute_tags_and_galaxies attribute indicator ;;
  let '(tags, indicator) := locals in
  indicator <- lift (set_handling_if_tags tags indicator) ;;
  let indicator :=
    set_ind_indicator_types
      (ind_indicator_types indicator ++ ["Malware Artifacts"]) indicator in
  let indicator :=
    set_ind_valid_time_positions
      (S (ind_valid_time_positions indicator)) indicator in
  let indicator :=
    set_ind_test_mechanisms
      (ind_test_mechanisms indicator ++ [test_mechanism]) indicator in
  add_related_indicator
    {| ri_indicator := indicator;
       ri_relationship := Some (a_category attribute) |}.

(** [self._parse_custom_attribute(self, attribute)]: the bound method
    receives one argument too many. *)
Definition _parse_custom_attribute_with_self (attribute : MISPAttribute)
  : M Parser unit :=
  raise (Py.TypeError
           "_parse_custom_attribute() takes 2 positional arguments but 3 were given").

Definition _parse_snort_attribute (attribute : MISPAttribute)
  : M Parser unit :=
  if a_to_ids attribute then
    _parse_test_mechanism attribute
      (VObj "SnortTestMechanism"
         [("rules",
           VList [VObj "dict" [("value", VStr (a_value attribute));
                               ("encoded", VBool true)]])])
  else _parse_custom_attribute_with_self attribute.

Definition _parse_target_attribute (attribute : MISPAttribute)
  (identity_spec : Val) : M Parser unit :=
  self <- get_state ;;
  let ciq_identity :=
    VObj "CIQIdentity3_0Instance"
      [("specification", identity_spec);
       ("id_", VStr (namespace self +:+ ":Identity-" +:+ a_uuid attribute));
       ("name", VStr (a_category attribute +:+ ": " +:+ a_value attribute
                      +:+ " (MISP Attribute)"))] in
  modify (fun self =>
    set_incident
      (set_inc_victims (inc_victims (incident self) ++ [ciq_identity])
         (incident self)) self).

Definition _parse_target_email (attribute : MISPAttribute)
  : M Parser unit :=
  _parse_target_attribute attribute
    (VObj "STIXCIQIdentity3_0"
       [("electronic_address_identifiers",
         VList [VObj "ElectronicAddressIdentifier"
                  [("value", VStr (a_value attribute))]])]).

Definition _parse_target_external (attribute : MISPAttribute)
  : M Parser unit :=
  _parse_target_attribute attribute
    (VObj "STIXCIQIdentity3_0"
       [("party_name",
         VObj "PartyName"
           [("name_lines",
             VList [VStr ("External target: " +:+ a_value attribute)])])]).

Definition _parse_target_location (attribute : MISPAttribute)
  : M Parser unit :=
  _parse_target_attribute attribute
    (VObj "STIXCIQIdentity3_0"
       [("addresses",
         VList [VObj "Address"
                  [("free_text_address",
                    VObj "FreeTextAddress"
                      [("address_lines",
                        VList [VStr (a_value attribute)])])]])]).

Definition _parse_target_machine (attribute : MISPAttribute)
  : M Parser unit :=
  let description :=
    match a_comment attribute with
    | Some (String c s) =>
        a_value attribute +:+ " (" +:+ String c s +:+ ")"
    | _ => a_value attribute
    end in
  modify (fun self =>
    set_incident
      (set_inc_affected_assets
         (inc_affected_assets (incident self) ++ [description])
         (incident self)) self).

Definition _parse_target_org (attribute : MISPAttribute)
  : M Parser unit :=
  _parse_target_attribute attribute
    (VObj "STIXCIQIdentity3_0"
       [("party_name",
         VObj "PartyName"
           [("organisation_names", VList [VStr (a_value attribute)])])]).

Definition _parse_target_user (attribute : MISPAttribute)
  : M Parser unit :=
  _parse_target_attribute attribute
    (VObj "STIXCIQIdentity3_0"
       [("party_name",
         VObj "PartyName"
           [("person_names", VList [VStr (a_value attribute)])])]).

Definition _parse_url_attribute (attribute : MISPAttribute)
  : M Parser unit :=
  observe attribute (_create_uri_object (a_value attribute)) "URI" None.

Definition _parse_undefined_attribute (attribute : MISPAttribute)
  : M Parser unit :=
  if bool_decide (a_comment attribute
                  = Some "Imported from STIX header description")
  then modify (fun self =>
         set_header_comment (header_comment self ++ [a_value attribute])
           self)
  else _add_journal_entry
         ("Attribute (" +:+ a_category attribute +:+ " - "
          +:+ a_type attribute +:+ "): " +:+ a_value attribute).

Definition _parse_user_agent_attribute (attribute : MISPAttribute)
  : M Parser unit :=
  let header_fields :=
    VObj "HTTPRequestHeaderFields"
      [("user_agent", with_condition (a_value attribute) "Equals")] in
  let http_request_header :=
    VObj "HTTPRequestHeader" [("parsed_header", header_fields)] in
  _parse_http_session attribute
    (VObj "HTTPClientRequest"
       [("http_request_header", http_request_header)]).

Definition _parse_vulnerability_attribute (attribute : MISPAttribute)
  : M Parser unit :=
  self <- get_state ;;
  ttp <- lift (_create_ttp self attribute) ;;
  let vulnerability :=
    VObj "Vulnerability" [("cve_id", VStr (a_value attribute))] in
  let title :=
    match a_comment attribute with
    | Some comment =>
        if bool_decide (comment <> "Imported via the freetext import.")
        then comment
        else "Vulnerability " +:+ a_value attribute
    | None => "Vulnerability " +:+ a_value attribute
    end in
  let exploit_target :=
    VObj "ExploitTarget"
      [("timestamp", VStr (a_timestamp attribute));
       ("id_", VStr (namespace self +:+ ":ExploitTarget-"
                     +:+ a_uuid attribute));
       ("title", VStr title);
       ("vulnerabilities", VList [vulnerability])] in
  let ttp :=
    set_ttp_exploit_targets (ttp_exploit_targets ttp ++ [exploit_target])
      ttp in
  let related_ttp :=
    _create_related_ttp (ttp_id ttp) (a_type attribute) None in
  _handle_related_ttps [(a_uuid attribute, related_ttp)] ;;
  modify (fun self =>
    set_ttps (Dict.set (a_uuid attribute) ttp (ttps self)) self).

Definition _parse_windows_service_attribute (attribute : MISPAttribute)
  : M Parser unit :=
  let feature :=
    if bool_decide (a_type attribute = "windows-service-name")
    then "service_name" else "display_name" in
  observe attribute
    (VObj "WinService" [(feature, VStr (a_value attribute))])
    "WindowsService" None.

Definition _parse_x509_fingerprint_attribute (attribute : MISPAttribute)
  : M Parser unit :=
  let signature_algorithm :=
    Py.upper (Py.last_item (Py.split "-" (a_type attribute))) in
  let x509_signature :=
    VObj "X509CertificateSignature"
      [("signature", with_condition (a_value attribute) "Equals");
       ("signature_algorithm",
        with_condition signature_algorithm "Equals")] in
  observe attribute
    (VObj "X509Certificate" [("certificate_signature", x509_signature)])
    "X509Certificate" None.

Definition _parse_yara_attribute (attribute : MISPAttribute)
  : M Parser unit :=
  if a_to_ids attribute then
    _parse_test_mechanism attribute
      (VObj "YaraTestMechanism"
         [("rule", VObj "dict" [("value", VStr (a_value attribute));
                                ("encoded", VBool true)])])
  else _parse_custom_attribute_with_self attribute.

(** [getattr(self, stix1_mapping.attribute_types_mapping[type])] *)
Definition getattr_attribute (method : AttributeMethod)
  : MISPAttribute -> M Parser unit :=
  match method with
  | AM_attachment => _parse_attachment
  | AM_autonomous_system_attribute => _parse_autonomous_system_attribute
  | AM_custom_attribute => _parse_custom_attribute
  | AM_domain_attribute => _parse_domain_attribute
  | AM_domain_ip_attribute => _parse_domain_ip_attribute
  | AM_email_attachment => _parse_email_attachment
  | AM_email_attribute => _parse_email_attribute
  | AM_file_attribute => _parse_file_attribute
  | AM_hash_attribute => _parse_hash_attribute
  | AM_hash_composite_attribute => _parse_hash_composite_attribute
  | AM_hostname_attribute => _parse_hostname_attribute
  | AM_hostname_port_attribute => _parse_hostname_port_attribute
  | AM_http_method_attribute => _parse_http_method_attribute
  | AM_ip_attribute => _parse_ip_attribute
  | AM_ip_port_attribute => _parse_ip_port_attribute
  | AM_mac_address => _parse_mac_address
  | AM_malware_sample => _parse_malware_sample
  | AM_mutex_attribute => _parse_mutex_attribute
  | AM_named_pipe => _parse_named_pipe
  | AM_pattern_attribute => _parse_pattern_attribute
  | AM_port_attribute => _parse_port_attribute
  | AM_regkey_attribute => _parse_regkey_attribute
  | AM_regkey_value_attribute => _parse_regkey_value_attribute
  | AM_snort_attribute => _parse_snort_attribute
  | AM_target_email => _parse_target_email
  | AM_target_external => _parse_target_external
  | AM_target_location => _parse_target_location
  | AM_target_machine => _parse_target_machine
  | AM_target_org => _parse_target_org
  | AM_target_user => _parse_target_user
  | AM_undefined_attribute => _parse_undefined_attribute
  | AM_url_attribute => _parse_url_attribute
  | AM_user_agent_attribute => _parse_user_agent_attribute
  | AM_vulnerability_attribute => _parse_vulnerability_attribute
  | AM_windows_service_attribute => _parse_windows_service_attribute
  | AM_x509_fingerprint_attribute => _parse_x509_fingerprint_attribute
  | AM_yara_attribute => _parse_yara_attribute
  end.

(** The body of the loop of [_resolve_attributes]: one attribute inside
    its [try]. *)
Definition convert_attribute (attribute : MISPAttribute) : M Parser unit :=
  let attribute_type := a_type attribute in
  match Dict.get attribute_type (attribute_types_mapping stix1_mapping) with
  | Some method => getattr_attribute method attribute
  | None =>
      _parse_custom_attribute attribute ;;
      add_warning ("MISP Attribute type " +:+ attribute_type
                   +:+ " not mapped.")
  end.

Definition attribute_error_message (attribute : MISPAttribute) : string :=
  "Error with the " +:+ a_type attribute +:+ " attribute: "
  +:+ a_value attribute +:+ ".".

Definition resolve_attribute (attribute : MISPAttribute) : M Parser unit :=
  try_except (convert_attribute attribute) (fun _ =>
    modify (fun self =>
      set_errors (errors self ++ [attribute_error_message attribute])
        self)).

Definition _resolve_attributes : M Parser unit :=
  self <- get_state ;;
  for_each (e_attributes (misp_event self)) resolve_attribute.

(** ** MISP objects parsing functions *)

(** A [defaultdict(list)] from object relation to the values, in order. *)
Definition _extract_multiple_object_attributes
  (attributes : list MISPAttribute) : Dict.t (list string) :=
  foldl (fun attributes_dict attribute =>
           let relation := a_object_relation attribute in
           Dict.set relation
             (default [] (Dict.get relation attributes_dict)
              ++ [a_value attribute])
             attributes_dict)
        [] attributes.

(** A dictionary comprehension from object relation to value: a relation
    met again takes the later value. *)
Definition _extract_object_attributes (attributes : list MISPAttribute)
  : Dict.t string :=
  foldl (fun attributes_dict attribute =>
           Dict.set (a_object_relation attribute) (a_value attribute)
             attributes_dict)
        [] attributes.

Fixpoint _fetch_ids_flags (attributes : list MISPAttribute) : bool :=
  match attributes with
  | [] => false
  | attribute :: attributes' =>
      if a_to_ids attribute then true else _fetch_ids_flags attributes'
  end.

Definition _fetch_objects_mapping_function (object_name : string)
  : ObjectMethod :=
  match Dict.get object_name (objects_mapping stix1_mapping) with
  | Some method => method
  | None => OM_custom_object
  end.

Definition _handle_misp_object (observable : Observable)
  (category : option string) : M Parser unit :=
  add_related_observable
    {| ro_observable := observable; ro_relationship := category |}.

(** The loop over the member attributes reads [galaxy] before any
    assignment to it, so a member attribute with a galaxy raises
    [UnboundLocalError]; the [galaxies] dictionary is therefore empty
    whenever the loop ends, and the method returns the collected tag
    names.  They are collected in a [set], whose iteration order is
    that of [elements] here. *)
Definition _handle_object_tags_and_galaxies (misp_object : MISPObject)
  (indicator : Indicator) : M Parser (list string * Indicator) :=
  tags <-
    fold_each (o_attributes misp_object) (∅ : gset string)
      (fun tags attribute =>
         match a_Galaxy attribute with
         | _ :: _ => raise (Py.UnboundLocalError "galaxy")
         | [] => ret tt
         end ;;
         match a_tags attribute with
         | _ :: _ => ret (tags ∪ list_to_set (a_tags attribute))
         | [] => ret tags
         end) ;;
  ret (elements tags, indicator).

Definition _handle_misp_object_with_context (misp_object : MISPObject)
  (observable : Observable) : M Parser unit :=
  self <- get_state ;;
  indicator <- lift (_create_indicator_from_object self misp_object) ;;
  let indicator :=
    set_ind_indicator_types
      (ind_indicator_types indicator
       ++ [_set_indicator_type (o_name misp_object)]) indicator in
  let indicator :=
    set_ind_valid_time_positions
      (S (ind_valid_time_positions indicator)) indicator in
  let indicator :=
    set_ind_observables (ind_observables indicator ++ [observable])
      indicator in
  locals <- _handle_object_tags_and_galaxies misp_object indicator ;;
  let '(tags, indicator) := locals in
  indicator <- lift (set_handling_if_tags tags indicator) ;;
  add_related_indicator
    {| ri_indicator := indicator;
       ri_relationship := o_meta_category misp_object |}.

Definition _parse_asn_object (misp_object : MISPObject)
  : M Parser Observable :=
  let attributes :=
    _extract_multiple_object_attributes (o_attributes misp_object) in
  asn <- lift (index "asn" attributes) ;;
  let attributes := Dict.remove "asn" attributes in
  let as_object :=
    _create_autonomous_system_object (nth 0 asn EmptyString) in
  let '(as_object, attributes) :=
    match Dict.get "description" attributes with
    | Some description =>
        (with_field "name" (VStr (nth 0 description EmptyString))
           as_object,
         Dict.remove "description" attributes)
    | None => (as_object, attributes)
    end in
  let as_object :=
    match attributes with
    | [] => as_object
    | _ =>
        with_field "custom_properties"
          (VList
             (mjoin
                ((fun '(object_relation, values) =>
                    (fun value =>
                       VObj "Property" [("name", VStr object_relation);
                                        ("value", VStr value)])
                      <$> values) <$> attributes)))
          as_object
    end in
  self <- get_state ;;
  ret (ObsObject
         (_create_observable self as_object (o_uuid misp_object) "AS")).

(** The class has no method [_create_account_object]. *)
Definition _parse_credential_object (misp_object : MISPObject)
  : M Parser Observable :=
  raise (Py.AttributeError "_create_account_object").

Definition _parse_custom_object (misp_object : MISPObject)
  : M Parser Observable :=
  let description :=
    match o_description misp_object with
    | Some (String c s) => [("description", VStr (String c s))]
    | _ => []
    end in
  let properties :=
    (fun attribute =>
       VObj "Property" [("name", VStr (a_object_relation attribute));
                        ("value", VStr (a_value attribute))])
      <$> o_attributes misp_object in
  let custom_object :=
    VObj "Custom"
      ([("custom_name", VStr (o_name misp_object))] ++ description
       ++ [("custom_properties", VList properties)]) in
  self <- get_state ;;
  let observable :=
    _create_observable self custom_object (o_uuid misp_object) "Custom" in
  add_warning ("MISP Object name " +:+ o_name misp_object
               +:+ " not mapped.") ;;
  ret (ObsObject observable).

(** [getattr(self, to_call)] for an object. *)
Definition getattr_object (method : ObjectMethod)
  : MISPObject -> M Parser Observable :=
  match method with
  | OM_asn_object => _parse_asn_object
  | OM_credential_object => _parse_credential_object
  | OM_custom_object => _parse_custom_object
  end.

(** The body of the loop of [_resolve_objects]; the [try] around it is
    commented out in the source, so an exception leaves the loop. *)
Definition resolve_object (misp_object : MISPObject) : M Parser unit :=
  let object_name := o_name misp_object in
  if bool_decide (object_name = "original-imported-file") then ret tt
  else
    let to_ids := _fetch_ids_flags (o_attributes misp_object) in
    let to_call := _fetch_objects_mapping_function object_name in
    observable <- getattr_object to_call misp_object ;;
    if to_ids
    then _handle_misp_object_with_context misp_object observable
    else _handle_misp_object observable (o_meta_category misp_object).

Definition _resolve_objects : M Parser unit :=
  self <- get_state ;;
  for_each (e_objects (misp_event self)) resolve_object.

(** ** Main STIX package creation functions *)

Definition _handle_tags_and_galaxies : M Parser (list string) :=
  self <- get_state ;;
  match e_Galaxy (misp_event self) with
  | [] => ret (e_tags (misp_event self))
  | galaxies =>
      tag_names <-
        fold_each galaxies [] (fun tag_names galaxy =>
          let galaxy_type := g_type galaxy in
          match Dict.get galaxy_type (galaxy_types_mapping stix1_mapping)
          with
          | Some to_call =>
              call_event_galaxy to_call galaxy ;;
              ret (tag_names ++ _quick_fetch_tag_names galaxy)
          | None =>
              add_warning (galaxy_type +:+ " galaxy in event not mapped.") ;;
              ret tag_names
          end) ;;
      ret (filter (fun name => name ∉ tag_names) (e_tags (misp_event self)))
  end.

Definition _create_incident (self : Parser) : Incident :=
  {| inc_id := orgname self +:+ ":Incident-" +:+ e_uuid (misp_event self);
     inc_title := e_info (misp_event self);
     inc_timestamp := e_timestamp (misp_event self);
     inc_discovery := _from_datetime_to_str (e_date (misp_event self));
     inc_reported :=
       if e_published (misp_event self)
       then Some (e_publish_timestamp (misp_event self)) else None;
     inc_handling := None; inc_external_ids := []; inc_status := None;
     inc_information_source := None; inc_reporter := None;
     inc_history := None; inc_related_indicators := [];
     inc_related_observables := []; inc_victims := [];
     inc_affected_assets := []; inc_coa_taken := [];
     inc_attributed_threat_actors := None; inc_leveraged_ttps := [] |}.

Definition _create_stix_package (self : Parser) (version : string)
  : STIXPackage :=
  {| pkg_id := orgname self +:+ ":STIXPackage-" +:+ e_uuid (misp_event self);
     pkg_timestamp := e_timestamp (misp_event self);
     pkg_version := version;
     pkg_courses_of_action := []; pkg_threat_actors := [];
     pkg_ttps := []; pkg_incidents := []; pkg_stix_header := None |}.

Definition update_incident (f : Incident -> Incident) : M Parser unit :=
  modify (fun self => set_incident (f (incident self)) self).

Definition _generate_stix_objects : M Parser unit :=
  self <- get_state ;;
  match e_threat_level_id (misp_event self) with
  | Some threat_level_id =>
      threat_level <-
        lift (index threat_level_id (threat_level_mapping stix1_mapping)) ;;
      _add_journal_entry ("Event Threat Level: " +:+ threat_level)
  | None => ret tt
  end ;;
  tags <- _handle_tags_and_galaxies ;;
  match tags with
  | [] => ret tt
  | _ => handling <- lift (_set_handling tags) ;;
         update_incident (set_inc_handling (Some handling))
  end ;;
  match e_id (misp_event self) with
  | Some id =>
      update_incident (fun incident =>
        set_inc_external_ids
          (inc_external_ids incident ++ [(id, "MISP Event")]) incident)
  | None => ret tt
  end ;;
  match e_analysis (misp_event self) with
  | Some analysis =>
      status <- lift (index analysis (status_mapping stix1_mapping)) ;;
      update_incident (set_inc_status (Some status))
  | None => ret tt
  end ;;
  modify (fun self => set_orgc_name (_set_creator self) self) ;;
  self <- get_state ;;
  update_incident (set_inc_information_source (Some (_set_source self))) ;;
  update_incident (set_inc_reporter (Some (_set_reporter self))) ;;
  match e_attributes (misp_event self) with
  | [] => ret tt
  | _ => _resolve_attributes
  end ;;
  match e_objects (misp_event self) with
  | [] => ret tt
  | _ => _resolve_objects
  end.

Definition parse_misp_event (misp_event : MISPEvent) (version : string)
  : M Parser unit :=
  modify (set_misp_event misp_event) ;;
  modify (fun self =>
    set_stix_package (_create_stix_package self version) self) ;;
  modify (fun self => set_incident (_create_incident self) self) ;;
  _generate_stix_objects ;;
  modify (fun self =>
    let incident := incident self in
    let incident :=
      set_inc_coa_taken
        (inc_coa_taken incident ++ Dict.values (ctx_course_of_action self))
        incident in
    let incident :=
      match ctx_threat_actor self with
      | [] => incident
      | threat_actors =>
          set_inc_attributed_threat_actors
            (Some (Dict.values threat_actors)) incident
      end in
    let incident :=
      set_inc_leveraged_ttps
        (inc_leveraged_ttps incident ++ Dict.values (ctx_ttp self))
        incident in
    let stix_package := stix_package self in
    let stix_package :=
      set_pkg_courses_of_action
        (pkg_courses_of_action stix_package
         ++ Dict.values (courses_of_action self)) stix_package in
    let stix_package :=
      set_pkg_threat_actors
        (pkg_threat_actors stix_package
         ++ Dict.values (threat_actors self)) stix_package in
    let stix_package :=
      set_pkg_ttps (pkg_ttps stix_package ++ Dict.values (ttps self))
        stix_package in
    let stix_package :=
      set_pkg_incidents (pkg_incidents stix_package ++ [incident])
        stix_package in
    let stix_header :=
      {| header_title := "Export from " +:+ namespace self +:+ " MISP";
         header_description :=
           match header_comment self with
           | [comment] => Some comment
           | _ => None
           end |} in
    set_stix_package (set_pkg_stix_header (Some stix_header) stix_package)
      (set_incident incident self)).

End Engine.

(** ** A concrete table for the examples *)

(** Modelled from the spec: the tables of [stix1_mapping], which the
    module imports and which is not among the sources.  The spec gives
    them as mappings keyed by plain strings, from an attribute type, an
    object name or a galaxy type to its producer, and gives the marking
    vocabulary as four ordered sensitivity levels; the entries are those
    the examples below use. *)
Definition sample_mapping : Mapping :=
  {| attribute_types_mapping :=
       [("AS", AM_autonomous_system_attribute);
        ("domain", AM_domain_attribute);
        ("ip-src", AM_ip_attribute);
        ("ip-dst", AM_ip_attribute);
        ("vulnerability", AM_vulnerability_attribute)];
     galaxy_types_mapping :=
       [("mitre-attack-pattern", GM_ttp attack_pattern);
        ("mitre-malware", GM_ttp malware);
        ("mitre-tool", GM_ttp tool);
        ("mitre-course-of-action", GM_course_of_action);
        ("threat-actor", GM_threat_actor)];
     objects_mapping :=
       [("asn", OM_asn_object); ("credential", OM_credential_object)];
     email_attribute_mapping := [];
     misp_indicator_type := [("ip-src", "IP Watchlist");
                             ("ip-dst", "IP Watchlist");
                             ("domain", "Domain Watchlist")];
     threat_level_mapping := [("1", "High"); ("2", "Medium");
                              ("3", "Low"); ("4", "Undefined")];
     status_mapping := [("0", "New"); ("1", "Open"); ("2", "Closed")];
     TLP_order := [("WHITE", 1%Z); ("GREEN", 2%Z); ("AMBER", 3%Z);
                   ("RED", 4%Z)];
     confidence_value := "High";
     confidence_description := "Derived from MISP's IDS flag." |}.

(** Modelled from the spec: the same tables with the attribute types of
    the handlers that split a composite value, for the examples about
    them. *)
Definition composite_mapping : Mapping :=
  {| attribute_types_mapping :=
       attribute_types_mapping sample_mapping
       ++ [("domain|ip", AM_domain_ip_attribute);
           ("filename|md5", AM_hash_composite_attribute);
           ("ip-dst|port", AM_ip_port_attribute);
           ("regkey|value", AM_regkey_value_attribute)];
     galaxy_types_mapping := galaxy_types_mapping sample_mapping;
     objects_mapping := objects_mapping sample_mapping;
     email_attribute_mapping := email_attribute_mapping sample_mapping;
     misp_indicator_type := misp_indicator_type sample_mapping;
     threat_level_mapping := threat_level_mapping sample_mapping;
     status_mapping := status_mapping sample_mapping;
     TLP_order := TLP_order sample_mapping;
     confidence_value := confidence_value sample_mapping;
     confidence_description := confidence_description sample_mapping |}.

(** Modelled from the spec: the library functions, for the examples; the
    engine stores their results without looking inside. *)
Definition sample_library : Library :=
  {| inet_aton_ok := fun value => negb (Py.contains ":" value);
     b64encode := fun data => data;
     Hash_TYPE := fun _ => None;
     set_hash_type := fun _ => "Other";
     strftime := fun date => date |}.

Definition sample_attribute (uuid type value : string) (to_ids : bool)
  (tags : list string) (galaxies : list Galaxy) : MISPAttribute :=
  {| a_uuid := uuid; a_type := type; a_category := "Network activity";
     a_value := value; a_comment := None; a_to_ids := to_ids;
     a_data := None; a_timestamp := "1604448000";
     a_object_relation := EmptyString; a_tags := tags;
     a_Galaxy := galaxies |}.

Definition sample_cluster (uuid value : string) : Cluster :=
  {| c_uuid := uuid; c_value := value;
     c_description := Some "Description of the cluster";
     c_meta := Some {| meta_external_id := ["CAPEC-163"];
                       meta_synonyms := []; meta_aliases := [];
                       meta_refs := [];
                       meta_cfr_type_of_incident := None |} |}.

Definition sample_galaxy (type : string) (clusters : list Cluster)
  : Galaxy :=
  {| g_type := type; g_name := "Attack Pattern";
     g_GalaxyCluster := clusters |}.

Definition sample_object (uuid name : string)
  (attributes : list MISPAttribute) : MISPObject :=
  {| o_uuid := uuid; o_name := name; o_meta_category := Some "network";
     o_description := Some "Description of the object";
     o_comment := None; o_timestamp := "1604448000";
     o_attributes := attributes |}.

Definition sample_event (uuid : string) (tags : list string)
  (galaxies : list Galaxy) (attributes : list MISPAttribute)
  (objects : list MISPObject) : MISPEvent :=
  {| e_uuid := uuid; e_info := "Event under test";
     e_date := "2020-11-04"; e_timestamp := "1604448000";
     e_published := false; e_publish_timestamp := "0";
     e_threat_level_id := None; e_id := None; e_analysis := None;
     e_orgc := Some {| org_uuid := "55f6ea5e-2c60-40e5-964f-47a8950d210f";
                       org_name := "CIRCL" |};
     e_org := None; e_tags := tags; e_Galaxy := galaxies;
     e_attributes := attributes; e_objects := objects |}.

End Stix1.

(* ===================================================================== *)
(** * The flat target: [MISPtoSTIX2Parser] and its two versions *)
(* ===================================================================== *)

Module Stix2.

Inductive Version : Type := v2_0 | v2_1.

(** ** Objects of the stix2 library *)

Record Identity : Type := {
  identity_id : string;
  identity_name : string;
  identity_class : string;
  identity_spec : Version
}.

Record MarkingDefinition : Type := {
  md_id : string;
  md_definition_type : string;
  md_definition : string
}.

Record Report : Type := {
  report_id : string;
  report_name : string;
  report_modified : string;
  report_labels : list string;
  report_created_by_ref : string;
  report_published : option string;
  report_object_marking_refs : option (list string);
  report_object_refs : list string
}.

(** An entity a handler inherited from the base class contributes. *)
Record ConvertedItem : Type := {
  item_type : string;
  item_id : string;
  item_properties : list (string * string)
}.

Inductive STIXObject : Type :=
| SDO_identity (identity : Identity)
| SDO_report (report : Report)
| SDO_marking (marking : MarkingDefinition)
| SDO_item (item : ConvertedItem).


(** ** What the module takes from outside

    The module uses [stix1_mapping], [stix2_mapping], [Report], [deepcopy]
    and [TLPMarkingDefinitionError] without importing them, and inherits
    from [MISPtoSTIXParser] of [exportparser], which is not among the
    sources.  They are the collaborators below.  A constructor of the
    stix2 library is the record of its arguments together with the check
    that makes it raise. *)

Record Collaborators : Type := {
  (** [stix1_mapping.attribute_types_mapping]: type to method name *)
  attribute_types_mapping : Dict.t string;
  (** [stix2_mapping.tlp_markings_v20] and [tlp_markings_v21] *)
  tlp_markings : Version -> Dict.t MarkingDefinition;
  (** the constructors [MarkingDefinition_v20] and [MarkingDefinition_v21]
      applied to the arguments: the exception raised, if any *)
  MarkingDefinition_check : Version -> MarkingDefinition -> option Py.exn;
  Identity_check : Identity -> option Py.exn;
  Report_check : Report -> option Py.exn;
  (** the successive results of [uuid4()] *)
  uuid4 : nat -> string;
  (** methods of the base class *)
  _datetime_from_timestamp : string -> string;
  _is_published : MISPEvent -> bool;
  _handle_event_tags_and_galaxies : MISPEvent -> list string;
  _handle_attribute_tags_and_galaxies : MISPAttribute -> string -> list string;
  _create_killchain : string -> list string;
  (** the attribute handlers the base class provides, by name, each with
      the entities it adds to the output or the exception it raises *)
  inherited_handler :
    string -> option (MISPAttribute -> Py.exn + list ConvertedItem)
}.

(** ** The parser instance

    [_errors] and [_warnings] are created by the base class.  The fields
    [_custom_objects], [_galaxies], [_links] and [_relationships] are
    assigned but never read and are left out.  [draws] counts the calls
    of [uuid4()]. *)

Record Parser : Type := {
  _version : Version;
  _errors : list string;
  _warnings : gset string;
  _ids : list string;
  _markings : Dict.t MarkingDefinition;
  _orgs : list string;
  _misp_event : MISPEvent;
  _include_bundle : bool;
  _report_id : string;
  _objects : list STIXObject;
  _object_refs : list string;
  _identity_id : string;
  draws : nat
}.

Definition set__errors v (r : Parser) : Parser :=
  {| _version := _version r; _errors := v; _warnings := _warnings r;
     _ids := _ids r; _markings := _markings r; _orgs := _orgs r;
     _misp_event := _misp_event r; _include_bundle := _include_bundle r;
     _report_id := _report_id r; _objects := _objects r;
     _object_refs := _object_refs r; _identity_id := _identity_id r;
     draws := draws r |}.
Definition set__warnings v (r : Parser) : Parser :=
  {| _version := _version r; _errors := _errors r; _warnings := v;
     _ids := _ids r; _markings := _markings r; _orgs := _orgs r;
     _misp_event := _misp_event r; _include_bundle := _include_bundle r;
     _report_id := _report_id r; _objects := _objects r;
     _object_refs := _object_refs r; _identity_id := _identity_id r;
     draws := draws r |}.
Definition set__ids v (r : Parser) : Parser :=
  {| _version := _version r; _errors := _errors r; _warnings := _warnings r;
     _ids := v; _markings := _markings r; _orgs := _orgs r;
     _misp_event := _misp_event r; _include_bundle := _include_bundle r;
     _report_id := _report_id r; _objects := _objects r;
     _object_refs := _object_refs r; _identity_id := _identity_id r;
     draws := draws r |}.
Definition set__markings v (r : Parser) : Parser :=
  {| _version := _version r; _errors := _errors r; _warnings := _warnings r;
     _ids := _ids r; _markings := v; _orgs := _orgs r;
     _misp_event := _misp_event r; _include_bundle := _include_bundle r;
     _report_id := _report_id r; _objects := _objects r;
     _object_refs := _object_refs r; _identity_id := _identity_id r;
     draws := draws r |}.
Definition set__orgs v (r : Parser) : Parser :=
  {| _version := _version r; _errors := _errors r; _warnings := _warnings r;
     _ids := _ids r; _markings := _markings r; _orgs := v;
     _misp_event := _misp_event r; _include_bundle := _include_bundle r;
     _report_id := _report_id r; _objects := _objects r;
     _object_refs := _object_refs r; _identity_id := _identity_id r;
     draws := draws r |}.
Definition set__misp_event v (r : Parser) : Parser :=
  {| _version := _version r; _errors := _errors r; _warnings := _warnings r;
     _ids := _ids r; _markings := _markings r; _orgs := _orgs r;
     _misp_event := v; _include_bundle := _include_bundle r;
     _report_id := _report_id r; _objects := _objects r;
     _object_refs := _object_refs r; _identity_id := _identity_id r;
     draws := draws r |}.
Definition set__include_bundle v (r : Parser) : Parser :=
  {| _version := _version r; _errors := _errors r; _warnings := _warnings r;
     _ids := _ids r; _markings := _markings r; _orgs := _orgs r;
     _misp_event := _misp_event r; _include_bundle := v;
     _report_id := _report_id r; _objects := _objects r;
     _object_refs := _object_refs r; _identity_id := _identity_id r;
     draws := draws r |}.
Definition set__report_id v (r : Parser) : Parser :=
  {| _version := _version r; _errors := _errors r; _warnings := _warnings r;
     _ids := _ids r; _markings := _markings r; _orgs := _orgs r;
     _misp_event := _misp_event r; _include_bundle := _include_bundle r;
     _report_id := v; _objects := _objects r;
     _object_refs := _object_refs r; _identity_id := _identity_id r;
     draws := draws r |}.
Definition set__objects v (r : Parser) : Parser :=
  {| _version := _version r; _errors := _errors r; _warnings := _warnings r;
     _ids := _ids r; _markings := _markings r; _orgs := _orgs r;
     _misp_event := _misp_event r; _include_bundle := _include_bundle r;
     _report_id := _report_id r; _objects := v;
     _object_refs := _object_refs r; _identity_id := _identity_id r;
     draws := draws r |}.
Definition set__object_refs v (r : Parser) : Parser :=
  {| _version := _version r; _errors := _errors r; _warnings := _warnings r;
     _ids := _ids r; _markings := _markings r; _orgs := _orgs r;
     _misp_event := _misp_event r; _include_bundle := _include_bundle r;
     _report_id := _report_id r; _objects := _objects r; _object_refs := v;
     _identity_id := _identity_id r; draws := draws r |}.
Definition set__identity_id v (r : Parser) : Parser :=
  {| _version := _version r; _errors := _errors r; _warnings := _warnings r;
     _ids := _ids r; _markings := _markings r; _orgs := _orgs r;
     _misp_event := _misp_event r; _include_bundle := _include_bundle r;
     _report_id := _report_id r; _objects := _objects r;
     _object_refs := _object_refs r; _identity_id := v; draws := draws r |}.
Definition set_draws v (r : Parser) : Parser :=
  {| _version := _version r; _errors := _errors r; _warnings := _warnings r;
     _ids := _ids r; _markings := _markings r; _orgs := _orgs r;
     _misp_event := _misp_event r; _include_bundle := _include_bundle r;
     _report_id := _report_id r; _objects := _objects r;
     _object_refs := _object_refs r; _identity_id := _identity_id r;
     draws := v |}.

Definition empty_event : MISPEvent :=
  {| e_uuid := EmptyString; e_info := EmptyString; e_date := EmptyString;
     e_timestamp := EmptyString; e_published := false;
     e_publish_timestamp := EmptyString; e_threat_level_id := None;
     e_id := None; e_analysis := None; e_orgc := None; e_org := None;
     e_tags := []; e_Galaxy := []; e_attributes := []; e_objects := [] |}.

(** [MISPtoSTIX20Parser()] and [MISPtoSTIX21Parser()] *)
Definition __init__ (version : Version) : Parser :=
  {| _version := version; _errors := []; _warnings := ∅; _ids := [];
     _markings := []; _orgs := []; _misp_event := empty_event;
     _include_bundle := true; _report_id := EmptyString; _objects := [];
     _object_refs := []; _identity_id := EmptyString; draws := 0 |}.

(** [l.insert(index, x)] for a non-negative index. *)
Definition list_insert {A} (index : nat) (x : A) (l : list A) : list A :=
  take index l ++ x :: drop index l.

(** [except (TLPMarkingDefinitionError, ValueError)] *)
Definition is_marking_error (e : Py.exn) : bool :=
  match e with
  | Py.TLPMarkingDefinitionError _ | Py.ValueError _ => true
  | _ => false
  end.

Section Engine.

Variable env : Collaborators.

(** ** STIX objects creation helper functions *)

Definition bool_str (b : bool) : string := if b then "True" else "False".

Definition _create_labels (attribute : MISPAttribute) : list string :=
  (fun '(feature, value) =>
     "misp:" +:+ feature +:+ "=" +:+ Py.dquote +:+ value +:+ Py.dquote)
    <$> [("type", a_type attribute); ("category", a_category attribute);
         ("to_ids", bool_str (a_to_ids attribute))].

(** The identifier is [marking-definition--] followed by a fresh
    [uuid4()]; the tag is split before the draw. *)
Definition _create_marking_definition_args (marking : string)
  : M Parser MarkingDefinition :=
  parts <- lift (Py.unpack2 (Py.split ":" marking)) ;;
  let '(definition_type, definition) := parts in
  self <- get_state ;;
  modify (set_draws (S (draws self))) ;;
  ret {| md_id := "marking-definition--" +:+ uuid4 env (draws self);
         md_definition_type := definition_type;
         md_definition := definition |}.

(** [_create_identity_object] of the two versions. *)
Definition _create_identity_object (self : Parser) (orgname : string)
  : Py.exn + Identity :=
  let identity :=
    {| identity_id := _identity_id self; identity_name := orgname;
       identity_class := "organization";
       identity_spec := _version self |} in
  match Identity_check env identity with
  | Some e => inl e
  | None => inr identity
  end.

Definition _set_identity : M Parser nat :=
  self <- get_state ;;
  match e_orgc (_misp_event self) with
  | None => raise (Py.KeyError "Orgc")
  | Some orgc =>
      let orgc_uuid := org_uuid orgc in
      modify (set__identity_id ("identity--" +:+ orgc_uuid)) ;;
      self <- get_state ;;
      if bool_decide (orgc_uuid ∉ _orgs self)
         && bool_decide (_identity_id self ∉ _ids self)
      then
        modify (fun self => set__orgs (_orgs self ++ [orgc_uuid]) self) ;;
        self <- get_state ;;
        identity <- lift (_create_identity_object self (org_name orgc)) ;;
        modify (fun self =>
          set__objects (_objects self ++ [SDO_identity identity]) self) ;;
        ret 1
      else ret 0
  end.

(** [_create_marking] of the two versions: a canonical definition is
    copied from the table; any other tag goes through
    [_create_marking_definition_args], and only the constructor is
    inside the [try]. *)
Definition _create_marking (marking : string) : M Parser (option string) :=
  self <- get_state ;;
  match Dict.get marking (tlp_markings env (_version self)) with
  | Some marking_definition =>
      modify (fun self =>
        set__markings (Dict.set marking marking_definition (_markings self))
          self) ;;
      ret (Some (md_id marking_definition))
  | None =>
      marking_args <- _create_marking_definition_args marking ;;
      match MarkingDefinition_check env (_version self) marking_args with
      | Some e =>
          if is_marking_error e then ret None else raise e
      | None =>
          modify (fun self =>
            set__markings (Dict.set marking marking_args (_markings self))
              self) ;;
          ret (Some (md_id marking_args))
      end
  end.

(** ** Utility functions *)

Definition _handle_value_for_pattern (attribute_value : string) : string :=
  Py.replace (ascii_of_nat 34) "##QUOTE##"
    (Py.replace "'" "##APOSTROPHE##" attribute_value).

(** ** Main parsing functions *)

(** [_append_SDO] is defined without [self]: the call
    [self._append_SDO(stix_object)] passes two arguments to a function
    of one. *)
Definition _append_SDO (stix_object : STIXObject) : M Parser unit :=
  raise (Py.TypeError
           "_append_SDO() takes 1 positional argument but 2 were given").

Definition _handle_markings (markings : list string)
  : M Parser (list string) :=
  fold_each markings [] (fun marking_ids marking =>
    self <- get_state ;;
    match Dict.get marking (_markings self) with
    | Some marking_definition =>
        ret (marking_ids ++ [md_id marking_definition])
    | None =>
        marking_id <- _create_marking marking ;;
        match marking_id with
        | Some id => ret (marking_ids ++ [id])
        | None => ret marking_ids
        end
    end).

Definition _generate_event_report : M Parser Report :=
  self <- get_state ;;
  let event := _misp_event self in
  let published :=
    if _is_published env event
    then Some (_datetime_from_timestamp env (e_publish_timestamp event))
    else None in
  let markings := _handle_event_tags_and_galaxies env event in
  object_marking_refs <-
    match markings with
    | [] => ret None
    | _ => ids <- _handle_markings markings ;; ret (Some ids)
    end ;;
  self <- get_state ;;
  match _markings self with
  | [] => ret tt
  | _ => (* [self._marking] is not an attribute of the parser *)
      raise (Py.AttributeError "_marking")
  end ;;
  let report :=
    {| report_id := _report_id self;
       report_name := e_info event;
       report_modified := _datetime_from_timestamp env (e_timestamp event);
       report_labels :=
         ["Threat-Report";
          "misp:tool=" +:+ Py.dquote +:+ "MISP-STIX-Converter"
          +:+ Py.dquote];
       report_created_by_ref := _identity_id self;
       report_published := published;
       report_object_marking_refs := object_marking_refs;
       report_object_refs := _object_refs self |} in
  match Report_check env report with
  | Some e => raise e
  | None => ret report
  end.

(** ** Attributes parsing functions *)

Definition _parse_AS_value (value : string) : string :=
  if Py.startswith "AS" value
  then String.substring 2 (String.length value - 2) value
  else value.

(** The method stops at [if marking:], a name bound nowhere; what
    follows it in the source (markings, indicator creation and
    [_append_SDO]) is never reached. *)
Definition _handle_attribute_indicator (attribute : MISPAttribute)
  (pattern : string) : M Parser unit :=
  let indicator_id := "indicator--" +:+ a_uuid attribute in
  let labels := _create_labels attribute in
  let kill_chain_phases := _create_killchain env (a_category attribute) in
  let markings :=
    _handle_attribute_tags_and_galaxies env attribute indicator_id in
  raise (Py.NameError "marking").

Definition _parse_autonomous_system_attribute_pattern
  (attribute : MISPAttribute) : M Parser unit :=
  let value := _parse_AS_value (a_value attribute) in
  let pattern :=
    "[autonomous-system:number = '" +:+ value +:+ "']" in
  _handle_attribute_indicator attribute pattern.

(** Both versions build a local dictionary and return. *)
Definition _parse_autonomous_system_attribute_observable
  (attribute : MISPAttribute) : M Parser unit :=
  ret tt.

Definition _parse_autonomous_system_attribute (attribute : MISPAttribute)
  : M Parser unit :=
  if a_to_ids attribute
  then _parse_autonomous_system_attribute_pattern attribute
  else _parse_autonomous_system_attribute_observable attribute.

(** What a handler of the base class contributes is added to the output
    sequence and to the references of the report. *)
Definition call_inherited (name : string) (attribute : MISPAttribute)
  : M Parser unit :=
  match inherited_handler env name with
  | None => raise (Py.AttributeError name)
  | Some handler =>
      items <- lift (handler attribute) ;;
      modify (fun self =>
        set__object_refs (_object_refs self ++ (item_id <$> items))
          (set__objects (_objects self ++ (SDO_item <$> items)) self))
  end.

(** [getattr(self, name)]: the methods the classes define, then those
    of the base class. *)
Definition getattr_attribute (name : string)
  : MISPAttribute -> M Parser unit :=
  if bool_decide (name = "_parse_autonomous_system_attribute")
  then _parse_autonomous_system_attribute
  else call_inherited name.

Definition convert_attribute (attribute : MISPAttribute) : M Parser unit :=
  let attribute_type := a_type attribute in
  match Dict.get attribute_type (attribute_types_mapping env) with
  | Some name => getattr_attribute name attribute
  | None =>
      getattr_attribute "_parse_custom_attribute" attribute ;;
      modify (fun self =>
        set__warnings
          ({[ "MISP Attribute type " +:+ attribute_type +:+ " not mapped." ]}
           ∪ _warnings self) self)
  end.

Definition resolve_attribute (attribute : MISPAttribute) : M Parser unit :=
  try_except (convert_attribute attribute) (fun _ =>
    modify (fun self =>
      set__errors
        (_errors self
         ++ ["Error with the " +:+ a_type attribute +:+ " attribute: "
             +:+ a_value attribute +:+ "."]) self)).

Definition _resolve_attributes : M Parser unit :=
  self <- get_state ;;
  for_each (e_attributes (_misp_event self)) resolve_attribute.

(** ** MISP objects parsing functions *)

(** The loop reads the name of each object and does nothing else. *)
Definition _resolve_objects : M Parser unit :=
  self <- get_state ;;
  for_each (e_objects (_misp_event self)) (fun misp_object =>
    let object_name := o_name misp_object in ret tt).

(** ** The entry point *)

Definition parse_misp_event (misp_event : MISPEvent) (ids : list string)
  (include_bundle : bool) : M Parser unit :=
  modify (fun self =>
    set__object_refs []
      (set__objects []
         (set__report_id ("report--" +:+ e_uuid misp_event)
            (set__include_bundle include_bundle
               (set__ids ids (set__misp_event misp_event self)))))) ;;
  index <- _set_identity ;;
  match e_attributes misp_event with
  | [] => ret tt
  | _ => _resolve_attributes
  end ;;
  match e_objects misp_event with
  | [] => ret tt
  | _ => _resolve_objects
  end ;;
  report <- _generate_event_report ;;
  modify (fun self =>
    set__objects (list_insert index (SDO_report report) (_objects self))
      self).


End Engine.

(** ** Concrete collaborators for the examples *)

(** Modelled from the spec: the custom producer of the base class, which
    is not among the sources.  The spec describes it as the generic
    producer for an unmapped type, which keeps the raw type name and the
    value and joins the output. *)
Definition sample_custom_attribute (attribute : MISPAttribute)
  : Py.exn + list ConvertedItem :=
  inr [ {| item_type := "x-misp-object";
           item_id := "x-misp-object--" +:+ a_uuid attribute;
           item_properties := [("type", a_type attribute);
                               ("value", a_value attribute)] |} ].

(** Modelled from the spec: the check of the marking-definition
    constructor.  The spec has it return a valid entity or a
    schema-validation failure; here a statement is valid, a TLP level
    outside the canonical table and any other definition type are not. *)
Definition sample_marking_check (version : Version)
  (marking : MarkingDefinition) : option Py.exn :=
  if bool_decide (md_definition_type marking = "statement") then None
  else if bool_decide (md_definition_type marking = "tlp")
  then Some (Py.TLPMarkingDefinitionError "not a canonical TLP marking")
  else Some (Py.ValueError "definition_type must be a valid marking type").

(** Modelled from the spec: the collaborators of the module, with the
    source of [uuid4()] left open. *)
Definition sample_collaborators (uuid4 : nat -> string) : Collaborators :=
  {| attribute_types_mapping :=
       [("AS", "_parse_autonomous_system_attribute")];
     tlp_markings := fun _ =>
       [("tlp:white",
         {| md_id := "marking-definition--613f2e26-407d-48c7-9eca-b8e91df99dc9";
            md_definition_type := "tlp"; md_definition := "white" |});
        ("tlp:green",
         {| md_id := "marking-definition--34098fce-860f-48ae-8e50-ebd3cc5e41da";
            md_definition_type := "tlp"; md_definition := "green" |});
        ("tlp:amber",
         {| md_id := "marking-definition--f88d31f6-486f-44da-b317-01333bde0b82";
            md_definition_type := "tlp"; md_definition := "amber" |});
        ("tlp:red",
         {| md_id := "marking-definition--5e57c739-391a-4eb3-b6be-7d15ca92d5ed";
            md_definition_type := "tlp"; md_definition := "red" |})];
     MarkingDefinition_check := sample_marking_check;
     Identity_check := fun _ => None;
     Report_check := fun _ => None;
     uuid4 := uuid4;
     _datetime_from_timestamp := fun timestamp => timestamp;
     _is_published := e_published;
     _handle_event_tags_and_galaxies := e_tags;
     _handle_attribute_tags_and_galaxies := fun attribute _ =>
       a_tags attribute;
     _create_killchain := fun category => [category];
     inherited_handler := fun name =>
       if bool_decide (name = "_parse_custom_attribute")
       then Some sample_custom_attribute else None |}.

Definition sample_attribute (uuid type value : string) (to_ids : bool)
  : MISPAttribute :=
  {| a_uuid := uuid; a_type := type; a_category := "Network activity";
     a_value := value; a_comment := None; a_to_ids := to_ids;
     a_data := None; a_timestamp := "1604448000";
     a_object_relation := EmptyString; a_tags := []; a_Galaxy := [] |}.

Definition sample_event (uuid orgc_uuid : string) (tags : list string)
  (attributes : list MISPAttribute) : MISPEvent :=
  {| e_uuid := uuid; e_info := "Event under test";
     e_date := "2020-11-04"; e_timestamp := "1604448000";
     e_published := false; e_publish_timestamp := "0";
     e_threat_level_id := None; e_id := None; e_analysis := None;
     e_orgc := Some {| org_uuid := orgc_uuid; org_name := "CIRCL" |};
     e_org := None; e_tags := tags; e_Galaxy := [];
     e_attributes := attributes; e_objects := [] |}.

End Stix2.

(* ===================================================================== *)
(** * Vocabulary of the statements *)
(* ===================================================================== *)

(** [preserves R m]: whatever [m] does, and whether it returns or raises,
    the final state is [R]-related to the initial one. *)
Definition preserves {S A} (R : relation S) (m : M S A) : Prop :=
  forall s s' r, m s = (s', r) -> R s s'.


(** The component [f] of the state is the same afterwards. *)
Definition unchanged {S X} (f : S -> X) : relation S :=
  fun s s' => f s' = f s.


(** Every value [m] returns satisfies [P]. *)
Definition returns {S A} (m : M S A) (P : A -> Prop) : Prop :=
  forall s s' a, m s = (s', inr a) -> P a.

(** [wp m Q E s]: run from [s], [m] returns a value and a state that
    satisfy [Q], or raises in a state that satisfies [E]. *)
Definition wp {S A} (m : M S A) (Q : A -> S -> Prop) (E : Py.exn -> S -> Prop)
  (s : S) : Prop :=
  match m s with
  | (s', inr a) => Q a s'
  | (s', inl e) => E e s'
  end.

Module Stix1Spec.
Import Stix1.

(** A tag of the TLP vocabulary, as [_set_handling] recognises it. *)
Definition is_tlp (tag : string) : Prop := Py.startswith "tlp:" tag = true.

(** The colour [_fetch_colors] reads from a tag. *)
Definition color_of (tag : string) : string :=
  Py.upper (Py.last_item (Py.split ":" tag)).

(** The rank of a colour in [TLP_order]. *)
Definition rank (stix1_mapping : Mapping) (color : string) : option Z :=
  Dict.get color (TLP_order stix1_mapping).

(** An indicator without the fields that tag and galaxy resolution
    fill in. *)
Definition indicator_core (indicator : Indicator) : Indicator :=
  set_ind_handling None
    (set_ind_indicated_ttps [] (set_ind_suggested_coas [] indicator)).



(** Every registered behaviour descriptor stays registered, as it is. *)
Definition ttps_grow : relation Parser :=
  fun s s' =>
    forall uuid ttp,
      Dict.get uuid (ttps s) = Some ttp -> Dict.get uuid (ttps s') = Some ttp.

(** Every UUID with a behaviour descriptor keeps one. *)
Definition ttps_keys_grow : relation Parser :=
  fun s s' =>
    forall uuid,
      is_Some (Dict.get uuid (ttps s)) -> is_Some (Dict.get uuid (ttps s')).



(** The keys of the registry of behaviour descriptors stay distinct. *)
Definition ttps_keys_distinct : relation Parser :=
  fun s s' =>
    NoDup (Dict.keys (ttps s)) -> NoDup (Dict.keys (ttps s')).


(** Every registered mitigation descriptor stays registered, as it is. *)
Definition courses_of_action_grow : relation Parser :=
  fun s s' =>
    forall uuid course_of_action,
      Dict.get uuid (courses_of_action s) = Some course_of_action ->
      Dict.get uuid (courses_of_action s') = Some course_of_action.

(** The log of the instance only grows: the errors recorded stay at the
    head of the list and the warnings stay in the set. *)
Definition log_grows : relation Parser :=
  fun s s' => errors s `prefix_of` errors s' /\ warnings s ⊆ warnings s'.

(** What the conversion of the content of an event leaves as
    [parse_misp_event] set it. *)
Definition event_frame (s : Parser)
  : string * string * MISPEvent * STIXPackage * string * string :=
  (namespace s, orgname s, misp_event s, stix_package s,
   inc_id (incident s), inc_title (incident s)).

(** Every registered actor descriptor stays registered, as it is, and
    every relationship of the event to an actor stays as it is. *)
Definition threat_actors_grow : relation Parser :=
  fun s s' =>
    (forall uuid threat_actor,
        Dict.get uuid (threat_actors s) = Some threat_actor ->
        Dict.get uuid (threat_actors s') = Some threat_actor)
    /\ (forall uuid related,
          Dict.get uuid (ctx_threat_actor s) = Some related ->
          Dict.get uuid (ctx_threat_actor s') = Some related).

(** The handlers that split the value of the attribute at its bar. *)
Definition splits_value (method : AttributeMethod) : Prop :=
  method ∈ [AM_domain_ip_attribute; AM_hash_composite_attribute;
            AM_hostname_port_attribute; AM_ip_port_attribute;
            AM_malware_sample; AM_regkey_value_attribute].

(** The tag names the galaxies of a list account for: those of the
    clusters of every galaxy whose type is in the table. *)
Definition galaxy_tag_names (stix1_mapping : Mapping)
  (galaxies : list Galaxy) : list string :=
  galaxies ≫= fun galaxy =>
    if Dict.mem (g_type galaxy) (galaxy_types_mapping stix1_mapping)
    then _quick_fetch_tag_names galaxy else [].

(** The values of the member attributes with a given object relation, in
    the order of the attributes. *)
Definition values_of (relation : string) (attributes : list MISPAttribute)
  : list string :=
  a_value <$> filter (fun attribute =>
                        a_object_relation attribute = relation) attributes.

(** The related items of the incident. *)
Definition related_indicators (s : Parser) : list RelatedIndicator :=
  inc_related_indicators (incident s).

Definition related_observables (s : Parser) : list RelatedObservable :=
  inc_related_observables (incident s).

(** What the conversion of one attribute may add to the incident: nothing,
    one observable or one indicator, each under the UUID of the
    attribute and with its category as relationship. *)
Definition adds_one_item (attribute : MISPAttribute) (s s' : Parser)
  : Prop :=
  (related_indicators s' = related_indicators s
   /\ related_observables s' = related_observables s)
  \/ (exists observable,
        related_indicators s' = related_indicators s
        /\ related_observables s'
           = related_observables s
             ++ [ {| ro_observable := observable;
                     ro_relationship := Some (a_category attribute) |} ]
        /\ observable_id observable
           ∈ [namespace s +:+ ":Observable-" +:+ a_uuid attribute;
              namespace s +:+ ":ObservableComposition-"
              +:+ a_uuid attribute])
  \/ (exists indicator,
        related_observables s' = related_observables s
        /\ related_indicators s'
           = related_indicators s
             ++ [ {| ri_indicator := indicator;
                     ri_relationship := Some (a_category attribute) |} ]
        /\ ind_id indicator
           = namespace s +:+ ":Indicator-" +:+ a_uuid attribute).

End Stix1Spec.

Module Stix2Spec.
Import Stix2.




(** What the conversion of attributes and objects may do to the output:
    add converted items at the end of the sequence, and their
    identifiers at the end of the references. *)
Definition extends_output : relation Parser :=
  fun s s' =>
    exists items,
      _objects s' = _objects s ++ (SDO_item <$> items)
      /\ _object_refs s' = _object_refs s ++ (item_id <$> items).



(** The entry the loop over the attributes adds to the error list. *)
Definition error_message (attribute : MISPAttribute) : string :=
  "Error with the " +:+ a_type attribute +:+ " attribute: "
  +:+ a_value attribute +:+ ".".


End Stix2Spec.

(* ===================================================================== *)
(** * Reasoning about computations *)
(* ===================================================================== *)

(** ** Equations of the monad *)

Lemma bind_eq {S A B} (m : M S A) (k : A -> M S B) s :
  bind m k s =
  match m s with
  | (s', inl e) => (s', inl e)
  | (s', inr a) => k a s'
  end.
Proof. reflexivity. Qed.

Lemma bind_inv {S A B} (m : M S A) (k : A -> M S B) s s' r :
  bind m k s = (s', r) ->
  (exists e, m s = (s', inl e) /\ r = inl e) \/
  (exists s1 a, m s = (s1, inr a) /\ k a s1 = (s', r)).
Proof.
  rewrite bind_eq. destruct (m s) as [s1 [e | a]]; intros H.
  - left. exists e. by inversion H.
  - right. by exists s1, a.
Qed.

Lemma for_each_app {S X} (l1 l2 : list X) (body : X -> M S unit) s :
  for_each (l1 ++ l2) body s =
  match for_each l1 body s with
  | (s1, inr _) => for_each l2 body s1
  | (s1, inl e) => (s1, inl e)
  end.
Proof.
  revert s. induction l1 as [| x l1 IH]; intros s; [done |].
  cbn [for_each app]. rewrite !bind_eq.
  destruct (body x s) as [s1 [e | []]]; [done | apply IH].
Qed.

(** ** Relations every step of a computation respects *)

#[export] Instance unchanged_preorder {S X} (f : S -> X) :
  PreOrder (unchanged f).
Proof.
  split; [by intros s | intros s1 s2 s3 H1 H2].
  unfold unchanged in *. congruence.
Qed.

Section Preservation.

Context {S : Type} (R : relation S) `{!PreOrder R}.

Lemma preserves_ret {A} (a : A) : preserves R (ret a).
Proof. intros s s' r [= <- _]. reflexivity. Qed.

Lemma preserves_raise {A} e : preserves R (raise (A := A) e).
Proof. intros s s' r [= <- _]. reflexivity. Qed.

Lemma preserves_lift {A} (x : Py.exn + A) : preserves R (lift x).
Proof. intros s s' r [= <- _]. reflexivity. Qed.

Lemma preserves_get_state : preserves R get_state.
Proof. intros s s' r [= <- _]. reflexivity. Qed.

Lemma preserves_modify f : (forall s, R s (f s)) -> preserves R (modify f).
Proof. intros H s s' r [= <- _]. apply H. Qed.

Lemma preserves_bind {A B} (m : M S A) (k : A -> M S B) :
  preserves R m -> (forall a, preserves R (k a)) -> preserves R (bind m k).
Proof.
  intros Hm Hk s s' r H.
  apply bind_inv in H as [(e & H & _) | (s1 & a & H1 & H2)].
  - by eapply Hm.
  - transitivity s1; [by eapply Hm | by eapply Hk].
Qed.

Lemma preserves_try_except {A} (m : M S A) h :
  preserves R m -> (forall e, preserves R (h e)) ->
  preserves R (try_except m h).
Proof.
  intros Hm Hh s s' r. unfold try_except.
  destruct (m s) as [s1 [e | a]] eqn:E; intros H.
  - transitivity s1; [by eapply Hm | by eapply Hh].
  - inversion H; subst. by eapply Hm.
Qed.

Lemma preserves_for_each {X} (l : list X) body :
  (forall x, preserves R (body x)) -> preserves R (for_each l body).
Proof.
  intros Hb. induction l as [| x l IH]; cbn [for_each].
  - apply preserves_ret.
  - apply preserves_bind; [apply Hb | intros _; apply IH].
Qed.

Lemma preserves_fold_each {X A} (l : list X) (a : A) body :
  (forall a x, preserves R (body a x)) -> preserves R (fold_each l a body).
Proof.
  intros Hb. revert a. induction l as [| x l IH]; intros a; cbn [fold_each].
  - apply preserves_ret.
  - apply preserves_bind; [apply Hb | intros a'; apply IH].
Qed.






End Preservation.







(** ** Returned values *)

Lemma returns_ret {S A} (a : A) (P : A -> Prop) :
  P a -> returns (S := S) (ret a) P.
Proof. by intros H s s' a' [= _ <-]. Qed.

Lemma returns_raise {S A} e (P : A -> Prop) : returns (S := S) (raise e) P.
Proof. by intros s s' a. Qed.

Lemma returns_lift {S A} (x : Py.exn + A) (P : A -> Prop) :
  (forall a, x = inr a -> P a) -> returns (S := S) (lift x) P.
Proof. intros H s s' a [= _ ->]. by apply H. Qed.

Lemma returns_any {S A} (m : M S A) : returns m (fun _ => True).
Proof. by intros s s' a _. Qed.

Lemma returns_bind {S A B} (m : M S A) (k : A -> M S B)
  (P' : A -> Prop) (P : B -> Prop) :
  returns m P' -> (forall a, P' a -> returns (k a) P) -> returns (bind m k) P.
Proof.
  intros Hm Hk s s' b H.
  apply bind_inv in H as [(e & _ & [=]) | (s1 & a & H1 & H2)].
  eapply Hk; [by eapply Hm | exact H2].
Qed.

Lemma returns_fold_each {S X A} (l : list X) (a : A)
  (body : A -> X -> M S A) (P : A -> Prop) :
  P a -> (forall a x, P a -> returns (body a x) P) ->
  returns (fold_each l a body) P.
Proof.
  intros Ha Hb. revert a Ha.
  induction l as [| x l IH]; intros a Ha; cbn [fold_each].
  - by apply returns_ret.
  - intros s s' b H.
    apply bind_inv in H as [(e & _ & [=]) | (s1 & a1 & H1 & H2)].
    eapply IH; [| exact H2]. by eapply Hb.
Qed.

(** ** Weakest preconditions *)

Lemma wp_ret {S A} (a : A) Q E (s : S) : Q a s -> wp (ret a) Q E s.
Proof. done. Qed.

Lemma wp_raise {S A} e (Q : A -> S -> Prop) E s : E e s -> wp (raise e) Q E s.
Proof. done. Qed.

Lemma wp_get_state {S} Q E (s : S) : Q s s -> wp get_state Q E s.
Proof. done. Qed.

Lemma wp_modify {S} (f : S -> S) Q E s : Q tt (f s) -> wp (modify f) Q E s.
Proof. done. Qed.

Lemma wp_lift {S A} (x : Py.exn + A) Q E (s : S) :
  match x with inr a => Q a s | inl e => E e s end -> wp (lift x) Q E s.
Proof. unfold wp, lift. by destruct x. Qed.

Lemma wp_bind {S A B} (m : M S A) (k : A -> M S B) Q E s :
  wp m (fun a s' => wp (k a) Q E s') E s -> wp (bind m k) Q E s.
Proof. unfold wp. rewrite bind_eq. by destruct (m s) as [s1 [e | a]]. Qed.

Lemma wp_mono {S A} (m : M S A) (Q Q' : A -> S -> Prop)
  (E E' : _ -> _ -> Prop) s :
  wp m Q E s ->
  (forall a s', Q a s' -> Q' a s') -> (forall e s', E e s' -> E' e s') ->
  wp m Q' E' s.
Proof. unfold wp. destruct (m s) as [s1 [e | a]]; eauto. Qed.

Lemma wp_try_except {S A} (m : M S A) h Q E s :
  wp m Q (fun e s' => wp (h e) Q E s') s -> wp (try_except m h) Q E s.
Proof.
  unfold wp, try_except. by destruct (m s) as [s1 [e | a]].
Qed.

(** A loop keeps what each turn keeps. *)
Lemma wp_for_each {S X} (l : list X) (body : X -> M S unit)
  (I : S -> Prop) E s :
  I s -> (forall x s, x ∈ l -> I s -> wp (body x) (fun _ => I) E s) ->
  wp (for_each l body) (fun _ => I) E s.
Proof.
  revert s. induction l as [| x l IH]; intros s Hs Hb; [done |].
  cbn [for_each]. apply wp_bind.
  eapply wp_mono; [apply Hb; [by left | done] | | done].
  intros [] s1 Hs1. apply IH; [done |].
  intros y s2 Hy. apply Hb. by right.
Qed.

Lemma wp_fold_each {S X A} (l : list X) (a : A) (body : A -> X -> M S A)
  (I : A -> S -> Prop) E s :
  I a s -> (forall a x s, x ∈ l -> I a s -> wp (body a x) I E s) ->
  wp (fold_each l a body) I E s.
Proof.
  revert a s. induction l as [| x l IH]; intros a s Hs Hb; [done |].
  cbn [fold_each]. apply wp_bind.
  eapply wp_mono; [apply Hb; [by left | done] | | done].
  intros a1 s1 Hs1. apply IH; [done |].
  intros a2 y s2 Hy. apply Hb. by right.
Qed.

Lemma wp_run {S A} (m : M S A) Q E s s' r :
  wp m Q E s -> m s = (s', r) ->
  match r with inr a => Q a s' | inl e => E e s' end.
Proof. unfold wp. intros H Hm. rewrite Hm in H. by destruct r. Qed.

Lemma wp_preserves {S A} (R : relation S) (m : M S A) s :
  preserves R m -> wp m (fun _ s' => R s s') (fun _ s' => R s s') s.
Proof.
  intros H. unfold wp. destruct (m s) as [s1 [e | a]] eqn:Hm; by eapply H.
Qed.

Lemma wp_conj {S A} (m : M S A) Q1 Q2 E1 E2 s :
  wp m Q1 E1 s -> wp m Q2 E2 s ->
  wp m (fun a s' => Q1 a s' /\ Q2 a s') (fun e s' => E1 e s' /\ E2 e s') s.
Proof. unfold wp. by destruct (m s) as [s1 [e | a]]. Qed.

(** ** Tactics *)

(** The head constant of an application, to unfold it. *)
Ltac head_of t :=
  lazymatch t with
  | ?f _ => head_of f
  | _ => t
  end.

(** One step of a preservation proof: follow the shape of the computation,
    case on what it inspects, and unfold the method it calls. *)
Ltac preserves_step close :=
  lazymatch goal with
  | |- preserves ?R (bind ?m ?k) => apply (preserves_bind R m k); [| intros ?]
  | |- preserves ?R (ret ?a) => apply (preserves_ret R a)
  | |- preserves ?R (raise ?e) => apply (preserves_raise R e)
  | |- preserves ?R (lift ?x) => apply (preserves_lift R x)
  | |- preserves ?R get_state => apply (preserves_get_state R)
  | |- preserves ?R (modify ?f) =>
      apply (preserves_modify R f); intros ?; close
  | |- preserves ?R (for_each ?l ?b) =>
      apply (preserves_for_each R l b); intros ?
  | |- preserves ?R (fold_each ?l ?a ?b) =>
      apply (preserves_fold_each R l a b); intros ? ?
  | |- preserves ?R (try_except ?m ?h) =>
      apply (preserves_try_except R m h); [| intros ?]
  | |- preserves _ (match ?x with _ => _ end) => destruct x
  | |- preserves _ ((match ?x with _ => _ end) _) => destruct x
  | |- preserves _ (let (_, _) := ?x in _) => destruct x
  | |- preserves _ ?m => let h := head_of m in unfold h
  end.

Ltac preserves_tac close := repeat preserves_step close.

(** The state component named in the goal is not the one updated. *)
Ltac close_field := unfold unchanged; cbn; repeat case_match; reflexivity.





(** And for what a computation returns. *)
Ltac returns_step close :=
  lazymatch goal with
  | |- returns (bind ?m ?k) ?P =>
      apply (returns_bind m k (fun _ => True) P);
      [apply returns_any | intros ? _]
  | |- returns (ret ?a) ?P => apply (returns_ret a P); close
  | |- returns (raise ?e) ?P => apply (returns_raise e P)
  | |- returns (lift ?x) ?P => apply (returns_lift x P); intros ? ?; close
  | |- returns (fold_each ?l ?a ?b) ?P =>
      apply (returns_fold_each l a b P); [close | intros ? ? ?]
  | |- returns (match ?x with _ => _ end) _ => destruct x
  | |- returns ((match ?x with _ => _ end) _) _ => destruct x
  | |- returns (let (_, _) := ?x in _) _ => destruct x
  | |- returns ?m _ => let h := head_of m in unfold h
  end.

Ltac returns_tac close := repeat returns_step close.

(** ** Dictionaries *)

Module DictFacts.

Section Facts.

Context {V : Type}.
Implicit Types (d : Dict.t V) (k : string) (v : V).

Lemma get_set_eq d k v : Dict.get k (Dict.set k v d) = Some v.
Proof.
  induction d as [| [k' v'] d IH]; cbn.
  - by rewrite decide_True.
  - destruct (decide (k = k')) as [-> | Hne]; cbn.
    + by rewrite decide_True.
    + by rewrite decide_False.
Qed.

Lemma get_set_ne d k k' v :
  k <> k' -> Dict.get k' (Dict.set k v d) = Dict.get k' d.
Proof.
  intros Hne. induction d as [| [k1 v1] d IH]; cbn.
  - by rewrite decide_False.
  - destruct (decide (k = k1)) as [-> | Hne1]; cbn.
    + by rewrite !decide_False.
    + destruct (decide (k' = k1)); [done | exact IH].
Qed.

Lemma get_set d k k' v :
  Dict.get k' (Dict.set k v d)
  = if decide (k = k') then Some v else Dict.get k' d.
Proof.
  destruct (decide (k = k')) as [-> | Hne];
    [apply get_set_eq | by apply get_set_ne].
Qed.




Lemma get_None_keys d k : Dict.get k d = None <-> k ∉ Dict.keys d.
Proof.
  unfold Dict.keys. induction d as [| [k' v'] d IH]; cbn.
  - split; [intros _; apply not_elem_of_nil | done].
  - destruct (decide (k = k')) as [-> | Hne].
    + split; [done | intros H]. exfalso. apply H. by left.
    + rewrite IH, not_elem_of_cons. tauto.
Qed.



(** With distinct keys, an entry of the list is what [get] finds. *)
Lemma elem_of_get d k v :
  NoDup (Dict.keys d) -> (k, v) ∈ d -> Dict.get k d = Some v.
Proof.
  unfold Dict.keys. induction d as [| [k' v'] d IH]; cbn.
  - intros _ H. by apply elem_of_nil in H.
  - intros [Hk' Hd]%NoDup_cons [[= -> ->] | Hin]%elem_of_cons.
    + by rewrite decide_True.
    + rewrite decide_False; [by apply IH |].
      intros ->. apply Hk'. apply list_elem_of_fmap. by exists (k', v).
Qed.

End Facts.

End DictFacts.

(* ===================================================================== *)
(** * Properties of the nested target *)
(* ===================================================================== *)

Module Stix1Facts.
Import Stix1 Stix1Spec.

(** ** Marking resolution *)

Section Handling.

Variable stix1_mapping : Mapping.

(** The first loop of [_set_handling] splits the tags in two, each part
    in the order of the tags. *)
Lemma sorted_tags_spec (tags acc1 acc2 : list string) :
  foldl (fun '(tlp_tags, simple_tags) tag =>
           if Py.startswith "tlp:" tag
           then (tlp_tags ++ [tag], simple_tags)
           else (tlp_tags, simple_tags ++ [tag]))
        (acc1, acc2) tags
  = (acc1 ++ filter is_tlp tags,
     acc2 ++ filter (fun tag => ~ is_tlp tag) tags).
Proof.
  revert acc1 acc2. induction tags as [| tag tags IH]; intros acc1 acc2.
  - by rewrite !app_nil_r.
  - cbn [foldl]. destruct (Py.startswith "tlp:" tag) eqn:E.
    + rewrite IH, filter_cons_True, filter_cons_False
        by (unfold is_tlp; congruence).
      by rewrite <- app_assoc.
    + rewrite IH, filter_cons_False, filter_cons_True
        by (unfold is_tlp; congruence).
      by rewrite <- app_assoc.
Qed.

(** The loop of [_set_color]: with every colour in the table, it ends
    with the largest rank met and the first colour that reached it. *)
Lemma _set_color_loop_spec (colors : list string) (n0 : Z)
  (cv0 : option string) :
  (forall c, c ∈ colors -> is_Some (rank stix1_mapping c)) ->
  exists n cv,
    fold_pure colors (n0, cv0) (fun '(tlp_color, color_value) color =>
      color_num <~ index color (TLP_order stix1_mapping) ;;
      if (tlp_color <? color_num)%Z then inr (color_num, Some color)
      else inr (tlp_color, color_value)) = inr (n, cv)
    /\ (n0 <= n)%Z
    /\ (forall c k, c ∈ colors -> rank stix1_mapping c = Some k ->
                    (k <= n)%Z)
    /\ ((n = n0 /\ cv = cv0) \/
        (exists c, cv = Some c /\ c ∈ colors
                   /\ rank stix1_mapping c = Some n /\ (n0 < n)%Z)).
Proof.
  revert n0 cv0. induction colors as [| color colors IH]; intros n0 cv0 Hall.
  - exists n0, cv0. cbn. split_and!; [done | lia | | by left].
    intros c k Hc. by apply elem_of_nil in Hc.
  - cbn [fold_pure]. unfold index at 1.
    destruct (Hall color) as [k Hk]; [by left |].
    unfold rank in Hk. rewrite Hk. cbn [bind_exn].
    destruct (Z.ltb_spec n0 k) as [Hlt | Hge].
    + destruct (IH k (Some color)) as (n & cv & Heq & Hle & Hmax & Hcv).
      { intros c Hc. apply Hall. by right. }
      exists n, cv. rewrite Heq. split_and!; [done | lia | |].
      * intros c k' [-> | Hc]%elem_of_cons Hr.
        -- unfold rank in Hr. rewrite Hk in Hr. injection Hr as <-. lia.
        -- by eapply Hmax.
      * right. destruct Hcv as [[-> ->] | (c & -> & Hc & Hr & Hn)].
        -- exists color. split_and!; [done | by left | done | done].
        -- exists c. split_and!; [done | by right | done | lia].
    + destruct (IH n0 cv0) as (n & cv & Heq & Hle & Hmax & Hcv).
      { intros c Hc. apply Hall. by right. }
      exists n, cv. rewrite Heq. split_and!; [done | done | |].
      * intros c k' [-> | Hc]%elem_of_cons Hr.
        -- unfold rank in Hr. rewrite Hk in Hr. injection Hr as <-. lia.
        -- by eapply Hmax.
      * destruct Hcv as [[-> ->] | (c & -> & Hc & Hr & Hn)];
          [by left | right].
        exists c. split_and!; [done | by right | done | done].
Qed.

(** With one colour of positive rank, [_set_color] returns a colour of
    the largest rank. *)
Lemma _set_color_spec (colors : list string) :
  colors <> [] ->
  (forall c, c ∈ colors ->
             exists k, rank stix1_mapping c = Some k /\ (0 < k)%Z) ->
  exists color top,
    _set_color stix1_mapping colors = inr color
    /\ color ∈ colors
    /\ rank stix1_mapping color = Some top
    /\ forall c k, c ∈ colors -> rank stix1_mapping c = Some k ->
                   (k <= top)%Z.
Proof.
  intros Hne Hall.
  destruct (_set_color_loop_spec colors 0 None)
    as (n & cv & Heq & _ & Hmax & Hcv).
  { intros c Hc. destruct (Hall c Hc) as (k & -> & _). by eexists. }
  unfold _set_color, _set_color_loop. rewrite Heq. cbn.
  destruct Hcv as [[-> ->] | (c & -> & Hc & Hr & Hn)].
  - destruct colors as [| c colors]; [done |].
    destruct (Hall c) as (k & Hk & Hpos); [by left |].
    assert (k <= 0)%Z by (apply (Hmax c); [by left | done]). lia.
  - by exists c, n.
Qed.

(** C7.  A tag list whose TLP tags all name a level of the vocabulary
    resolves into one marking specification holding at most one TLP
    structure, whose level has the highest rank among the TLP tags of
    the list, followed by exactly one statement structure per other tag,
    in the order of the tags. *)
Theorem handling_takes_highest_level (tags : list string) :
  tags <> [] ->
  (forall tag, tag ∈ tags -> is_tlp tag ->
     exists k, rank stix1_mapping (color_of tag) = Some k /\ (0 < k)%Z) ->
  exists tlp_marking,
    _set_handling stix1_mapping tags
    = inr {| markings :=
               [ {| marking_structures :=
                      tlp_marking
                      ++ (SimpleMarkingStructure
                            <$> filter (fun tag => ~ is_tlp tag) tags) |} ]
          |}
    /\ (length tlp_marking <= 1)%nat
    /\ match filter is_tlp tags with
       | [] => tlp_marking = []
       | tlp_tags =>
           exists color top,
             tlp_marking = [TLPMarkingStructure color]
             /\ color ∈ color_of <$> tlp_tags
             /\ rank stix1_mapping color = Some top
             /\ forall tag k,
                  tag ∈ tlp_tags ->
                  rank stix1_mapping (color_of tag) = Some k ->
                  (k <= top)%Z
       end.
Proof.
  intros _ Hall. unfold _set_handling.
  rewrite sorted_tags_spec. cbn [app].
  destruct (filter is_tlp tags) as [| tag tlp_tags] eqn:Htlp.
  - exists []. cbn. split_and!; [done | lia | done].
  - destruct (_set_color_spec (_fetch_colors (tag :: tlp_tags)))
      as (color & top & Hcolor & Hin & Hrank & Hmax); [done | |].
    { intros c (t & -> & Ht)%list_elem_of_fmap.
      apply Hall; rewrite <- Htlp in Ht;
        by apply list_elem_of_filter in Ht as [? ?]. }
    exists [TLPMarkingStructure color]. rewrite Hcolor. cbn [bind_exn].
    split_and!; [done | cbn; lia |].
    exists color, top. split_and!; [done | done | done |].
    intros t k Ht Hk. eapply Hmax; [| done].
    apply list_elem_of_fmap. by exists t.
Qed.

End Handling.

(** The example of the specification: green, amber and a statement give
    the amber structure and one statement structure. *)
Example handling_of_green_amber_statement :
  _set_handling sample_mapping ["tlp:green"; "tlp:amber"; "custom-stmt"]
  = inr {| markings :=
             [ {| marking_structures :=
                    [TLPMarkingStructure "AMBER";
                     SimpleMarkingStructure "custom-stmt"] |} ] |}.
Proof. reflexivity. Qed.

(** C7 at the tags of that example. *)
Lemma handling_takes_highest_level_witness :
  exists tlp_marking,
    _set_handling sample_mapping ["tlp:green"; "tlp:amber"; "custom-stmt"]
    = inr {| markings :=
               [ {| marking_structures :=
                      tlp_marking
                      ++ (SimpleMarkingStructure
                            <$> filter (fun tag => ~ is_tlp tag)
                                  ["tlp:green"; "tlp:amber"; "custom-stmt"])
                 |} ] |}
    /\ (length tlp_marking <= 1)%nat
    /\ match filter is_tlp ["tlp:green"; "tlp:amber"; "custom-stmt"] with
       | [] => tlp_marking = []
       | tlp_tags =>
           exists color top,
             tlp_marking = [TLPMarkingStructure color]
             /\ color ∈ color_of <$> tlp_tags
             /\ rank sample_mapping color = Some top
             /\ forall tag k,
                  tag ∈ tlp_tags ->
                  rank sample_mapping (color_of tag) = Some k ->
                  (k <= top)%Z
       end.
Proof.
  apply (handling_takes_highest_level sample_mapping
           ["tlp:green"; "tlp:amber"; "custom-stmt"]).
  - discriminate.
  - intros tag Htag Htlp.
    apply elem_of_cons in Htag as [-> | Htag];
      [exists 2%Z; by vm_compute |].
    apply elem_of_cons in Htag as [-> | Htag];
      [exists 3%Z; by vm_compute |].
    apply elem_of_cons in Htag as [-> | Htag]; [by vm_compute in Htlp |].
    by apply elem_of_nil in Htag.
Defined.

(** ** Composite objects *)

Section Objects.

Variable stix1_mapping : Mapping.
Lemma _fetch_ids_flags_spec (attributes : list MISPAttribute) :
  _fetch_ids_flags attributes = true
  <-> exists attribute, attribute ∈ attributes /\ a_to_ids attribute = true.
Proof.
  induction attributes as [| attribute attributes IH]; cbn.
  - split; [done | intros (a & Ha & _)]. by apply elem_of_nil in Ha.
  - destruct (a_to_ids attribute) eqn:E.
    + split; [intros _ | done]. exists attribute. split; [by left | done].
    + rewrite IH. split; intros (a & Ha & Hids).
      * exists a. split; [by right | done].
      * apply elem_of_cons in Ha as [-> | Ha]; [congruence |].
        by exists a.
Qed.

(** C10.  For an object that reaches the choice of its wrapping (it is
    not the imported file, which the loop skips, and its producer
    returned an observable), the flag that chooses is true exactly when
    one member attribute has [to_ids] set; the indicator wrapping is
    taken when it is true, and when it is false the observable is added
    to the related observables of the incident, with the meta-category
    of the object as relationship. *)
Theorem object_detection_flag (misp_object : MISPObject)
  (s s1 : Parser) (observable : Observable) :
  o_name misp_object <> "original-imported-file" ->
  getattr_object
    (_fetch_objects_mapping_function stix1_mapping (o_name misp_object))
    misp_object s = (s1, inr observable) ->
  let to_ids := _fetch_ids_flags (o_attributes misp_object) in
  (to_ids = true
   <-> exists attribute,
         attribute ∈ o_attributes misp_object
         /\ a_to_ids attribute = true)
  /\ (to_ids = true ->
      resolve_object stix1_mapping misp_object s
      = _handle_misp_object_with_context stix1_mapping misp_object
          observable s1)
  /\ (to_ids = false ->
      resolve_object stix1_mapping misp_object s
      = (set_incident
           (set_inc_related_observables
              (inc_related_observables (incident s1)
               ++ [ {| ro_observable := observable;
                       ro_relationship := o_meta_category misp_object |} ])
              (incident s1)) s1,
         inr tt)).
Proof.
  intros Hname Hproducer to_ids. split; [apply _fetch_ids_flags_spec |].
  unfold resolve_object. rewrite bool_decide_false by done.
  rewrite bind_eq, Hproducer. fold to_ids.
  split; intros ->; reflexivity.
Qed.

End Objects.

(** C10 on an object without a detection flag and without a mapping, which
    goes through the custom producer. *)
Lemma object_detection_flag_witness :
  let misp_object :=
    sample_object "5ac47782-e1b8-40b6-96b4-02510a00020f" "unknown-object"
      [sample_attribute "91ae0a21-c7ae-4c7f-b84b-b84a7ce53d1f" "text"
         "value" false [] []] in
  let s := __init__ "MISP" "CIRCL" in
  exists s1 observable,
    resolve_object sample_mapping misp_object s
    = (set_incident
         (set_inc_related_observables
            (inc_related_observables (incident s1)
             ++ [ {| ro_observable := observable;
                     ro_relationship := Some "network" |} ])
            (incident s1)) s1,
       inr tt).
Proof.
  intros misp_object s.
  destruct (getattr_object
              (_fetch_objects_mapping_function sample_mapping
                 (o_name misp_object)) misp_object s)
    as [s1 [e | observable]] eqn:Hproducer; [by vm_compute in Hproducer |].
  exists s1, observable.
  apply (object_detection_flag sample_mapping misp_object s s1 observable).
  - by vm_compute.
  - exact Hproducer.
  - reflexivity.
Defined.

(** ** The loop over the attributes *)

Section Attributes.

Variable stix1_mapping : Mapping.
Variable lib : Library.

(** No handler touches the error list. *)
Lemma convert_attribute_keeps_errors (attribute : MISPAttribute) :
  preserves (unchanged errors)
    (convert_attribute stix1_mapping lib attribute).
Proof.
  unfold convert_attribute.
  destruct (Dict.get _ _) as [method |]; [destruct method |];
    preserves_tac close_field.
Qed.



End Attributes.

(** ** Failure of one attribute *)

Section Isolation.

Variable stix1_mapping : Mapping.
Variable lib : Library.


End Isolation.



(** The loop over the objects has no such boundary: the [try] around its
    body is commented out, so the exception of one object ends the
    conversion of the event, and the object after it is never reached. *)
Lemma failing_object_ends_the_conversion :
  let failing :=
    sample_object "3c1d2f5e-8a7b-4c6d-9e0f-1a2b3c4d5e6f" "unknown-object"
      [sample_attribute "91ae0a21-c7ae-4c7f-b84b-b84a7ce53d1f" "text"
         "value" true []
         [sample_galaxy "mitre-attack-pattern"
            [sample_cluster "dcaa092b-7de9-4a21-977f-7fcb77e89c48"
               "Spearphishing Link"]]] in
  let following :=
    sample_object "5ac47782-e1b8-40b6-96b4-02510a00020f" "unknown-object"
      [sample_attribute "a1b2c3d4-0000-4000-8000-000000000001" "text"
         "value" false [] []] in
  let event :=
    sample_event "5e1f4d3a-0b34-4b1e-9d3f-1c2b3a4d5e6f" [] [] []
      [failing; following] in
  let '(s, r) :=
    parse_misp_event sample_mapping sample_library event "1.1.1"
      (__init__ "MISP" "CIRCL") in
  r = inl (Py.UnboundLocalError "galaxy")
  /\ errors s = []
  /\ inc_related_observables (incident s) = []
  /\ pkg_incidents (stix_package s) = [].
Proof. vm_compute. done. Qed.

(** ** Tags and galaxies of an attribute *)

Section TagsAndGalaxies.

Variable stix1_mapping : Mapping.

Ltac close_core :=
  first [ reflexivity | assumption
        | unfold indicator_core in *; cbn in *; congruence ].

(** A galaxy method adds relationships to the indicator and changes
    nothing else of it. *)
Lemma call_attribute_galaxy_keeps_core (to_call : GalaxyMethod)
  (galaxy : Galaxy) (indicator : Indicator) :
  returns (call_attribute_galaxy to_call galaxy indicator)
    (fun indicator' => indicator_core indicator' = indicator_core indicator).
Proof. destruct to_call; returns_tac close_core. Qed.

(** So does the resolution of all the tags and galaxies. *)
Lemma tags_and_galaxies_keep_core (attribute : MISPAttribute)
  (indicator : Indicator) :
  returns (_handle_attribute_tags_and_galaxies stix1_mapping attribute
             indicator)
    (fun locals => indicator_core locals.2 = indicator_core indicator).
Proof.
  unfold _handle_attribute_tags_and_galaxies.
  destruct (a_Galaxy attribute) as [| galaxy galaxies];
    [by apply returns_ret |].
  eapply returns_bind
    with (P' := fun locals =>
                  indicator_core locals.2 = indicator_core indicator).
  - apply returns_fold_each; [done |].
    intros [tag_names indicator'] g Hcore.
    destruct (Dict.get _ _) as [to_call |].
    + eapply returns_bind; [apply call_attribute_galaxy_keeps_core |].
      intros indicator'' Hcore'. apply returns_ret. cbn in *. congruence.
    + returns_tac close_core.
  - intros [tag_names indicator'] Hcore. by apply returns_ret.
Qed.

Lemma tags_and_galaxies_keep_incident (attribute : MISPAttribute)
  (indicator : Indicator) :
  preserves (unchanged incident)
    (_handle_attribute_tags_and_galaxies stix1_mapping attribute
       indicator).
Proof. preserves_tac close_field. Qed.

Lemma tags_and_galaxies_keep_errors (attribute : MISPAttribute)
  (indicator : Indicator) :
  preserves (unchanged errors)
    (_handle_attribute_tags_and_galaxies stix1_mapping attribute
       indicator).
Proof. preserves_tac close_field. Qed.

Lemma set_handling_if_tags_keeps_core (tags : list string)
  (indicator indicator' : Indicator) :
  set_handling_if_tags stix1_mapping tags indicator = inr indicator' ->
  indicator_core indicator' = indicator_core indicator.
Proof.
  unfold set_handling_if_tags. destruct tags as [| tag tags].
  - by intros [= <-].
  - destruct (_set_handling _ _) as [e | handling]; [done |].
    by intros [= <-].
Qed.

(** What [_handle_attribute] does when it returns: it adds the
    observable to the incident, bare or inside an indicator carrying
    the identifier of the attribute, and leaves the rest of the
    incident as it was. *)
Lemma _handle_attribute_returns (attribute : MISPAttribute)
  (observable : Observable) (s s' : Parser) :
  _handle_attribute stix1_mapping attribute observable s = (s', inr tt) ->
  if a_to_ids attribute
  then exists indicator,
      incident s'
      = set_inc_related_indicators
          (inc_related_indicators (incident s)
           ++ [ {| ri_indicator := indicator;
                   ri_relationship := Some (a_category attribute) |} ])
          (incident s)
      /\ ind_id indicator
         = namespace s +:+ ":Indicator-" +:+ a_uuid attribute
      /\ ind_observables indicator = [observable]
  else s' = set_incident
              (set_inc_related_observables
                 (inc_related_observables (incident s)
                  ++ [ {| ro_observable := observable;
                          ro_relationship :=
                            Some (a_category attribute) |} ])
                 (incident s)) s.
Proof.
  unfold _handle_attribute. destruct (a_to_ids attribute).
  - intros H. cbn in H.
    apply bind_inv in H as [(e & _ & [=]) | (s1 & [tags ind] & H1 & H2)].
    pose proof (tags_and_galaxies_keep_core _ _ _ _ _ H1) as Hcore.
    pose proof (tags_and_galaxies_keep_incident _ _ _ _ _ H1) as Hinc.
    cbn in Hcore, H2.
    destruct (set_handling_if_tags _ _ _) as [e | ind'] eqn:H3; [done |].
    injection H2 as <-. apply set_handling_if_tags_keeps_core in H3.
    rename H3 into H2. exists ind'.
    rewrite Hcore in H2. unfold unchanged in Hinc.
    split_and!.
    + cbn. by rewrite Hinc.
    + by apply (f_equal ind_id) in H2.
    + by apply (f_equal ind_observables) in H2.
  - by intros [= <-].
Qed.

End TagsAndGalaxies.

(** ** Attribute types without a mapping *)

Section Fallback.

Variable stix1_mapping : Mapping.
Variable lib : Library.


End Fallback.



(** ** The registry of behaviour descriptors *)

#[local] Instance ttps_grow_preorder : PreOrder ttps_grow.
Proof.
  split; [by intros s uuid ttp H | intros s1 s2 s3 H1 H2 uuid ttp H; eauto].
Qed.

#[local] Instance ttps_keys_grow_preorder : PreOrder ttps_keys_grow.
Proof.
  split; [by intros s uuid H | intros s1 s2 s3 H1 H2 uuid H; eauto].
Qed.


Section Registry.



End Registry.

(** ** Descriptors across events *)

Section CrossEvent.

Variable stix1_mapping : Mapping.
Variable lib : Library.






End CrossEvent.



(** ** One descriptor for a cluster cited twice *)

#[local] Instance ttps_keys_distinct_preorder : PreOrder ttps_keys_distinct.
Proof.
  split; [by intros s H | intros s1 s2 s3 H1 H2 H]. apply H2, H1, H.
Qed.



Section Dedup.

Variable stix1_mapping : Mapping.











End Dedup.



(** ** Failures inside the loops *)

Section Loops.

Variable stix1_mapping : Mapping.
Variable lib : Library.

Lemma unpack2_fails (l : list string) :
  length l <> 2 -> exists message, Py.unpack2 l = inl (Py.ValueError message).
Proof. destruct l as [| a [| b [| c l]]]; cbn; eauto. done. Qed.

(** A composite value that does not split in two at its bar: the handler
    raises before it has touched the parser, and the loop over the
    attributes records the error and nothing else. *)
Theorem composite_value_without_separator (s : Parser)
  (attribute : MISPAttribute) (method : AttributeMethod) :
  Dict.get (a_type attribute) (attribute_types_mapping stix1_mapping)
  = Some method ->
  splits_value method ->
  length (Py.split "|" (a_value attribute)) <> 2 ->
  resolve_attribute stix1_mapping lib attribute s
  = (set_errors (errors s ++ [attribute_error_message attribute]) s,
     inr tt).
Proof.
  intros Hmethod Hsplits [message Hunpack]%unpack2_fails.
  unfold resolve_attribute, try_except, convert_attribute.
  rewrite Hmethod.
  assert (getattr_attribute stix1_mapping lib method attribute s
          = (s, inl (Py.ValueError message))) as ->; [| done].
  unfold splits_value in Hsplits.
  repeat (apply elem_of_cons in Hsplits as [-> | Hsplits]);
    [.. | by apply elem_of_nil in Hsplits]; cbn [getattr_attribute];
    unfold _parse_domain_ip_attribute, _parse_hash_composite_attribute,
      _parse_hostname_port_attribute, _parse_ip_port_attribute,
      _parse_malware_sample, _parse_hash_composite_attribute,
      _parse_regkey_value_attribute, _create_socket_address_object;
    try destruct (a_data attribute);
    rewrite bind_eq; unfold lift; by rewrite Hunpack.
Qed.

(** One turn of the loop over the attributes keeps the error list or adds
    the message of its attribute. *)
Lemma resolve_attribute_errors (attribute : MISPAttribute) (s : Parser) :
  exists s',
    resolve_attribute stix1_mapping lib attribute s = (s', inr tt)
    /\ (errors s' = errors s
        \/ errors s' = errors s ++ [attribute_error_message attribute]).
Proof.
  unfold resolve_attribute, try_except.
  destruct (convert_attribute _ _ _ s) as [s1 [e | []]] eqn:Hconvert.
  - eexists. split; [reflexivity |]. right. cbn.
    by rewrite (convert_attribute_keeps_errors _ _ _ _ _ _ Hconvert).
  - exists s1. split; [done |]. left.
    by apply (convert_attribute_keeps_errors _ _ _ _ _ _ Hconvert).
Qed.

(** The loop over the attributes never raises, keeps the errors recorded
    before it, and adds one message for each attribute of a sublist of
    the attributes, in their order. *)
Theorem _resolve_attributes_appends_errors (s : Parser) :
  exists s' failed,
    _resolve_attributes stix1_mapping lib s = (s', inr tt)
    /\ failed `sublist_of` e_attributes (misp_event s)
    /\ errors s' = errors s ++ (attribute_error_message <$> failed).
Proof.
  unfold _resolve_attributes. rewrite bind_eq. cbn [get_state].
  generalize (e_attributes (misp_event s)) as attributes.
  intros attributes. revert s.
  induction attributes as [| attribute attributes IH]; intros s.
  - exists s, []. by rewrite app_nil_r.
  - cbn [for_each]. rewrite bind_eq.
    destruct (resolve_attribute_errors attribute s) as (s1 & -> & Herrors).
    destruct (IH s1) as (s' & failed & -> & Hsub & Herrors').
    destruct Herrors as [Hsame | Hadded].
    + exists s', failed. split_and!; [done | by apply sublist_cons |].
      by rewrite Herrors', Hsame.
    + exists s', (attribute :: failed).
      split_and!; [done | by apply sublist_skip |].
      by rewrite Herrors', Hadded, <- app_assoc.
Qed.

(** The loop over the objects has no boundary of this kind: the [try]
    around its body is commented out.  The exception of one object
    leaves the loop in the state where it was raised, and the objects
    after it are not converted. *)
Theorem failing_object_stops_the_loop (s s1 s2 : Parser)
  (before after : list MISPObject) (failing : MISPObject) (e : Py.exn) :
  e_objects (misp_event s) = before ++ failing :: after ->
  for_each before (resolve_object stix1_mapping) s = (s1, inr tt) ->
  resolve_object stix1_mapping failing s1 = (s2, inl e) ->
  _resolve_objects stix1_mapping s = (s2, inl e).
Proof.
  intros Hobjects Hbefore Hfailing. unfold _resolve_objects.
  rewrite bind_eq. cbn [get_state]. rewrite Hobjects, for_each_app, Hbefore.
  cbn [for_each]. by rewrite bind_eq, Hfailing.
Qed.

(** The objects named [original-imported-file] are passed over: the loop
    does what it does on the other objects of the event. *)
Theorem imported_file_objects_are_skipped (objects : list MISPObject)
  (s : Parser) :
  for_each objects (resolve_object stix1_mapping) s
  = for_each
      (filter (fun misp_object =>
                 o_name misp_object <> "original-imported-file") objects)
      (resolve_object stix1_mapping) s.
Proof.
  revert s. induction objects as [| misp_object objects IH]; intros s;
    [done |].
  destruct (decide (o_name misp_object = "original-imported-file"))
    as [Hname | Hname].
  - rewrite filter_cons_False by (intros H; by apply H).
    cbn [for_each]. rewrite bind_eq. unfold resolve_object at 1.
    rewrite bool_decide_eq_true_2 by done. apply IH.
  - rewrite filter_cons_True by done. cbn [for_each]. rewrite !bind_eq.
    destruct (resolve_object _ _ s) as [s1 [e | []]]; [done | apply IH].
Qed.

End Loops.

(** ** What one attribute adds to the incident *)

Section Items.

Variable stix1_mapping : Mapping.
Variable lib : Library.

Lemma _handle_attribute_adds (attribute : MISPAttribute)
  (observable : Observable) (s : Parser) :
  observable_id observable
  ∈ [namespace s +:+ ":Observable-" +:+ a_uuid attribute;
     namespace s +:+ ":ObservableComposition-" +:+ a_uuid attribute] ->
  wp (_handle_attribute stix1_mapping attribute observable)
    (fun _ s' => adds_one_item attribute s s') (fun _ _ => True) s.
Proof.
  intros Hid. unfold wp.
  destruct (_handle_attribute _ _ _ s) as [s' [e | []]] eqn:Hrun; [done |].
  apply _handle_attribute_returns in Hrun.
  destruct (a_to_ids attribute).
  - destruct Hrun as (indicator & Hincident & Hind & _).
    right. right. exists indicator.
    unfold related_observables, related_indicators. rewrite Hincident.
    by destruct (incident s).
  - right. left. exists observable. by rewrite Hrun.
Qed.

Lemma observe_adds (attribute : MISPAttribute) (stix_object : Val)
  (feature : string) (title : option string) (s : Parser) :
  wp (observe stix1_mapping attribute stix_object feature title)
    (fun _ s' => adds_one_item attribute s s') (fun _ _ => True) s.
Proof.
  unfold observe. apply wp_bind, wp_get_state.
  apply _handle_attribute_adds. destruct title; by left.
Qed.

Lemma _parse_test_mechanism_adds (attribute : MISPAttribute)
  (test_mechanism : Val) (s : Parser) :
  wp (_parse_test_mechanism stix1_mapping attribute test_mechanism)
    (fun _ s' => adds_one_item attribute s s') (fun _ _ => True) s.
Proof.
  unfold wp.
  destruct (_parse_test_mechanism _ _ _ s) as [s' [e | []]] eqn:Hrun;
    [done |].
  unfold _parse_test_mechanism in Hrun. rewrite bind_eq in Hrun.
  cbn [get_state] in Hrun.
  apply bind_inv in Hrun
    as [(e & _ & [=]) | (s1 & [tags indicator] & Htags & Hrun)].
  pose proof (tags_and_galaxies_keep_core _ _ _ _ _ _ Htags) as Hcore.
  pose proof (tags_and_galaxies_keep_incident _ _ _ _ _ _ Htags) as Hinc.
  cbn in Hrun, Hcore.
  destruct (set_handling_if_tags _ _ _) as [e | indicator'] eqn:Hhandling;
    [done |].
  apply set_handling_if_tags_keeps_core in Hhandling.
  injection Hrun as <-. right. right. eexists.
  unfold related_observables, related_indicators, unchanged in *. cbn.
  rewrite Hinc. split_and!; [by destruct (incident s) | done |].
  cbn. transitivity (ind_id (indicator_core indicator')); [done |].
  by rewrite Hhandling, Hcore.
Qed.

(** One step of a proof that a handler adds at most one item. *)
Ltac adds_step :=
  lazymatch goal with
  | |- wp (observe _ _ _ _ _) _ _ _ => apply observe_adds
  | |- wp (_parse_test_mechanism _ _ _) _ _ _ =>
      apply _parse_test_mechanism_adds
  | |- wp (_handle_attribute _ _ _) _ _ _ =>
      apply _handle_attribute_adds; by right; left
  | |- wp (bind _ _) _ _ _ => apply wp_bind
  | |- wp get_state _ _ _ => apply wp_get_state
  | |- wp (modify _) _ _ _ => apply wp_modify
  | |- wp (ret _) _ _ _ => apply wp_ret
  | |- wp (raise _) _ _ _ => by apply wp_raise
  | |- wp (lift ?x) _ _ _ => apply wp_lift; destruct x; [done |]
  | |- wp (match ?x with _ => _ end) _ _ _ => destruct x
  | |- wp (let (_, _) := ?x in _) _ _ _ => destruct x
  | |- wp (for_each (_ :: _) _) _ _ _ => cbn [for_each]
  | |- wp (for_each [] _) _ _ _ => cbn [for_each]
  | |- wp ?m _ _ _ => let h := head_of m in unfold h
  end.

(** Whatever its type, an attribute whose conversion completes has added
    at most one item to the incident: an observable when it has no
    detection flag, an indicator when it has one, identified by the UUID
    of the attribute; the handlers of victims, assets, journal entries
    and vulnerabilities add neither. *)
Theorem attribute_adds_at_most_one_item (method : AttributeMethod)
  (attribute : MISPAttribute) (s s' : Parser) :
  getattr_attribute stix1_mapping lib method attribute s = (s', inr tt) ->
  adds_one_item attribute s s'.
Proof.
  intros Hrun.
  assert (wp (getattr_attribute stix1_mapping lib method attribute)
            (fun _ s' => adds_one_item attribute s s') (fun _ _ => True) s)
    as Hwp.
  { destruct method; cbn [getattr_attribute]; repeat adds_step;
      left; unfold related_indicators, related_observables; cbn;
      repeat case_match; done. }
  exact (wp_run _ _ _ _ _ _ Hwp Hrun).
Qed.

End Items.

(** ** Tags that galaxies account for *)

Section GalaxyTags.

Variable stix1_mapping : Mapping.

Lemma filter_none_excluded (tags : list string) :
  filter (fun name => name ∉ ([] : list string)) tags = tags.
Proof.
  induction tags as [| tag tags IH]; [done |].
  rewrite filter_cons_True by apply not_elem_of_nil. by rewrite IH.
Qed.

Lemma galaxy_tag_names_cons (galaxy : Galaxy) (galaxies : list Galaxy) :
  galaxy_tag_names stix1_mapping (galaxy :: galaxies)
  = (if Dict.mem (g_type galaxy) (galaxy_types_mapping stix1_mapping)
     then _quick_fetch_tag_names galaxy else [])
    ++ galaxy_tag_names stix1_mapping galaxies.
Proof. reflexivity. Qed.

(** The tags [_handle_attribute_tags_and_galaxies] returns for marking
    resolution are the tags of the attribute without the tag names of
    the clusters of its galaxies of a mapped type: a cluster that became
    a relationship is not marked as a statement too. *)
Theorem attribute_tags_exclude_galaxy_names (attribute : MISPAttribute)
  (indicator indicator' : Indicator) (tags : list string)
  (s s' : Parser) :
  _handle_attribute_tags_and_galaxies stix1_mapping attribute indicator s
  = (s', inr (tags, indicator')) ->
  tags
  = filter (fun name =>
              name ∉ galaxy_tag_names stix1_mapping (a_Galaxy attribute))
      (a_tags attribute).
Proof.
  unfold _handle_attribute_tags_and_galaxies.
  destruct (a_Galaxy attribute) as [| galaxy galaxies] eqn:Hgalaxies.
  - intros [= _ <- _]. by rewrite filter_none_excluded.
  - rewrite <- Hgalaxies. clear Hgalaxies. intros Hrun.
    apply bind_inv in Hrun
      as [(e & _ & [=]) | (s1 & [tag_names ind1] & Hloop & [= _ <- _])].
    enough (tag_names
            = [] ++ galaxy_tag_names stix1_mapping (a_Galaxy attribute))
      as -> by done.
    revert Hloop. generalize (@nil string) as tag_names0.
    generalize indicator as indicator0. revert s.
    induction (a_Galaxy attribute) as [| g gs IH];
      intros s indicator0 tag_names0 Hloop.
    + injection Hloop as _ <- _. by rewrite app_nil_r.
    + cbn [fold_each] in Hloop.
      apply bind_inv in Hloop
        as [(e & _ & [=]) | (s2 & [tag_names2 ind2] & Hturn & Hrest)].
      apply IH in Hrest as ->. rewrite galaxy_tag_names_cons.
      unfold Dict.mem.
      destruct (Dict.get (g_type g) _) as [to_call |].
      * apply bind_inv in Hturn
          as [(e & _ & [=]) | (s3 & ind3 & _ & [= _ <- _])].
        by rewrite app_assoc.
      * apply bind_inv in Hturn
          as [(e & _ & [=]) | (s3 & [] & _ & [= _ <- _])].
        done.
Qed.

Lemma event_galaxies_loop (galaxies : list Galaxy) :
  forall (tag_names0 tag_names : list string) (s s' : Parser),
    fold_each galaxies tag_names0 (fun tag_names galaxy =>
      let galaxy_type := g_type galaxy in
      match Dict.get galaxy_type (galaxy_types_mapping stix1_mapping) with
      | Some to_call =>
          call_event_galaxy to_call galaxy ;;
          ret (tag_names ++ _quick_fetch_tag_names galaxy)
      | None =>
          add_warning (galaxy_type +:+ " galaxy in event not mapped.") ;;
          ret tag_names
      end) s = (s', inr tag_names) ->
    tag_names = tag_names0 ++ galaxy_tag_names stix1_mapping galaxies.
Proof.
  induction galaxies as [| g gs IH]; intros tag_names0 tag_names s s' Hloop.
  - injection Hloop as _ <-. by rewrite app_nil_r.
  - cbn [fold_each] in Hloop.
    apply bind_inv in Hloop
      as [(e & _ & [=]) | (s2 & tag_names2 & Hturn & Hrest)].
    apply IH in Hrest as ->. rewrite galaxy_tag_names_cons.
    unfold Dict.mem. cbn in Hturn.
    destruct (Dict.get (g_type g) _) as [to_call |].
    + apply bind_inv in Hturn
        as [(e & _ & [=]) | (s3 & [] & _ & [= _ <-])].
      by rewrite app_assoc.
    + apply bind_inv in Hturn
        as [(e & _ & [=]) | (s3 & [] & _ & [= _ <-])].
      done.
Qed.

(** The same at the level of the event. *)
Theorem event_tags_exclude_galaxy_names (tags : list string)
  (s s' : Parser) :
  _handle_tags_and_galaxies stix1_mapping s = (s', inr tags) ->
  tags
  = filter (fun name =>
              name ∉ galaxy_tag_names stix1_mapping
                       (e_Galaxy (misp_event s)))
      (e_tags (misp_event s)).
Proof.
  unfold _handle_tags_and_galaxies. rewrite bind_eq. cbn [get_state].
  destruct (e_Galaxy (misp_event s)) as [| galaxy galaxies].
  - intros [= _ <-]. by rewrite filter_none_excluded.
  - intros Hrun.
    apply bind_inv in Hrun
      as [(e & _ & [=]) | (s1 & tag_names & Hloop & [= _ <-])].
    by apply event_galaxies_loop in Hloop as ->.
Qed.



End GalaxyTags.

(** ** Mitigation descriptors and contextual relationships *)

Section Context.

Variable stix1_mapping : Mapping.

Lemma course_of_action_loop (galaxy : Galaxy) (clusters : list Cluster) :
  forall (indicator indicator' : Indicator) (s s' : Parser),
    fold_each clusters indicator (fun indicator cluster =>
      let cluster_uuid := c_uuid cluster in
      self <- get_state ;;
      match Dict.get cluster_uuid (courses_of_action self) with
      | Some registered =>
          let related_coa :=
            _create_related_coa (coa_id registered) (g_name galaxy) None in
          ret (set_ind_suggested_coas
                 (ind_suggested_coas indicator ++ [related_coa]) indicator)
      | None =>
          course_of_action <-
            lift (_create_course_of_action_from_galaxy self cluster) ;;
          let related_coa :=
            _create_related_coa (coa_id course_of_action) (g_name galaxy)
              None in
          let indicator :=
            set_ind_suggested_coas
              (ind_suggested_coas indicator ++ [related_coa]) indicator in
          modify (fun self =>
            set_courses_of_action
              (Dict.set cluster_uuid course_of_action
                 (courses_of_action self)) self) ;;
          ret indicator
      end) s = (s', inr indicator') ->
    courses_of_action_grow s s'
    /\ ind_suggested_coas indicator ⊆ ind_suggested_coas indicator'
    /\ length (ind_suggested_coas indicator')
       = length (ind_suggested_coas indicator) + length clusters
    /\ forall cluster,
         cluster ∈ clusters ->
         exists course_of_action,
           Dict.get (c_uuid cluster) (courses_of_action s')
           = Some course_of_action
           /\ _create_related_coa (coa_id course_of_action)
                (g_name galaxy) None
              ∈ ind_suggested_coas indicator'.
Proof.
  induction clusters as [| cluster clusters IH];
    intros indicator indicator' s s' Hrun.
  - injection Hrun as <- <-. split_and!; [by intros ? ? | done | cbn; lia |].
    intros c Hc. by apply elem_of_nil in Hc.
  - cbn [fold_each] in Hrun.
    apply bind_inv in Hrun
      as [(e & _ & [=]) | (s1 & indicator1 & Hturn & Hrest)].
    apply IH in Hrest as (Hgrow & Hincl & Hlength & Hclusters).
    rewrite bind_eq in Hturn. cbn [get_state] in Hturn.
    assert (courses_of_action_grow s s1
            /\ exists course_of_action,
                 Dict.get (c_uuid cluster) (courses_of_action s1)
                 = Some course_of_action
                 /\ ind_suggested_coas indicator1
                    = ind_suggested_coas indicator
                      ++ [_create_related_coa (coa_id course_of_action)
                            (g_name galaxy) None])
      as (Hgrow1 & coa & Hcoa & Hsuggested).
    { destruct (Dict.get (c_uuid cluster) (courses_of_action s))
        as [registered |] eqn:Hregistered.
      - injection Hturn as <- <-. split; [by intros ? ? |].
        exists registered. split; [done |]. by destruct indicator.
      - rewrite bind_eq in Hturn. unfold lift in Hturn.
        destruct (_create_course_of_action_from_galaxy s cluster)
          as [e | created]; [done |].
        injection Hturn as <- <-. split.
        + intros uuid c Hc. cbn. rewrite DictFacts.get_set.
          destruct (decide (c_uuid cluster = uuid)) as [<- | Hne];
            [congruence | done].
        + exists created. cbn. rewrite DictFacts.get_set_eq.
          split; [done |]. by destruct indicator. }
    split_and!.
    + intros uuid c Hc. by apply Hgrow, Hgrow1.
    + intros r Hr. apply Hincl. rewrite Hsuggested.
      apply elem_of_app. by left.
    + rewrite Hlength, Hsuggested, length_app. cbn. lia.
    + intros c [-> | Hc]%elem_of_cons; [| by apply Hclusters].
      exists coa. split; [by apply Hgrow |]. apply Hincl.
      rewrite Hsuggested. apply elem_of_app. right. by left.
Qed.

(** A mitigation galaxy of an attribute, when its resolution completes:
    every descriptor registered before is still registered as it was,
    every cluster of the galaxy has a descriptor under its UUID, and the
    indicator has gained one relationship per cluster, each to the
    identifier of the descriptor registered for it. *)
Theorem course_of_action_is_registered_once (galaxy : Galaxy)
  (indicator indicator' : Indicator) (s s' : Parser) :
  _parse_course_of_action_attribute_galaxy galaxy indicator s
  = (s', inr indicator') ->
  courses_of_action_grow s s'
  /\ length (ind_suggested_coas indicator')
     = length (ind_suggested_coas indicator)
       + length (g_GalaxyCluster galaxy)
  /\ forall cluster,
       cluster ∈ g_GalaxyCluster galaxy ->
       exists course_of_action,
         Dict.get (c_uuid cluster) (courses_of_action s')
         = Some course_of_action
         /\ _create_related_coa (coa_id course_of_action) (g_name galaxy)
              None
            ∈ ind_suggested_coas indicator'.
Proof.
  intros Hrun. apply course_of_action_loop in Hrun as (? & _ & ? & ?).
  done.
Qed.

Lemma threat_actors_grow_trans (s1 s2 s3 : Parser) :
  threat_actors_grow s1 s2 -> threat_actors_grow s2 s3 ->
  threat_actors_grow s1 s3.
Proof. intros [? ?] [? ?]. split; eauto. Qed.

(** One turn of the loop of [_parse_threat_actor_galaxy]. *)
Lemma threat_actor_turn (galaxy : Galaxy) (cluster : Cluster)
  (s s' : Parser) :
  (self <- get_state ;;
   if Dict.mem (c_uuid cluster) (ctx_threat_actor self) then ret tt
   else
     match Dict.get (c_uuid cluster) (threat_actors self) with
     | Some registered =>
         let related_threat_actor :=
           _create_related_threat_actor (ta_id registered)
             (g_name galaxy) None in
         modify (fun self =>
           set_ctx_threat_actor
             (Dict.set (c_uuid cluster) related_threat_actor
                (ctx_threat_actor self)) self)
     | None =>
         threat_actor <-
           lift (_create_threat_actor_from_galaxy self cluster) ;;
         let related_threat_actor :=
           _create_related_threat_actor (ta_id threat_actor)
             (g_name galaxy) None in
         modify (fun self =>
           set_ctx_threat_actor
             (Dict.set (c_uuid cluster) related_threat_actor
                (ctx_threat_actor self)) self) ;;
         modify (fun self =>
           set_threat_actors
             (Dict.set (c_uuid cluster) threat_actor (threat_actors self))
             self)
     end) s = (s', inr tt) ->
  threat_actors_grow s s'
  /\ (forall uuid,
        uuid <> c_uuid cluster ->
        Dict.get uuid (ctx_threat_actor s')
        = Dict.get uuid (ctx_threat_actor s))
  /\ exists related,
       Dict.get (c_uuid cluster) (ctx_threat_actor s') = Some related
       /\ (Dict.get (c_uuid cluster) (ctx_threat_actor s) = None ->
           exists threat_actor,
             Dict.get (c_uuid cluster) (threat_actors s')
             = Some threat_actor
             /\ related
                = _create_related_threat_actor (ta_id threat_actor)
                    (g_name galaxy) None).
Proof.
  rewrite bind_eq. cbn [get_state]. unfold Dict.mem.
  destruct (Dict.get (c_uuid cluster) (ctx_threat_actor s))
    as [related |] eqn:Hcontext.
  - intros [= <-]. split_and!; [by split | done |]. by exists related.
  - destruct (Dict.get (c_uuid cluster) (threat_actors s))
      as [registered |] eqn:Hregistered.
    + intros [= <-]. cbn. split_and!.
      * split; [done |]. intros uuid related Hrelated. cbn.
        rewrite DictFacts.get_set.
        destruct (decide (c_uuid cluster = uuid)) as [<- | Hne];
          [congruence | done].
      * intros uuid Hne. by rewrite DictFacts.get_set_ne.
      * eexists. rewrite DictFacts.get_set_eq. split; [done |].
        intros _. by exists registered.
    + rewrite bind_eq. unfold lift.
      destruct (_create_threat_actor_from_galaxy s cluster)
        as [e | created]; [done |].
      intros [= <-]. cbn. split_and!.
      * split; intros uuid x Hx; cbn; rewrite DictFacts.get_set;
          (destruct (decide (c_uuid cluster = uuid)) as [<- | Hne];
           [congruence | done]).
      * intros uuid Hne. by rewrite DictFacts.get_set_ne.
      * eexists. rewrite !DictFacts.get_set_eq. split; [done |].
        intros _. by exists created.
Qed.

Lemma threat_actor_loop (galaxy : Galaxy) (clusters : list Cluster) :
  forall s s' : Parser,
    for_each clusters (fun cluster =>
      let cluster_uuid := c_uuid cluster in
      self <- get_state ;;
      if Dict.mem cluster_uuid (ctx_threat_actor self) then ret tt
      else
        match Dict.get cluster_uuid (threat_actors self) with
        | Some registered =>
            let related_threat_actor :=
              _create_related_threat_actor (ta_id registered)
                (g_name galaxy) None in
            modify (fun self =>
              set_ctx_threat_actor
                (Dict.set cluster_uuid related_threat_actor
                   (ctx_threat_actor self)) self)
        | None =>
            threat_actor <-
              lift (_create_threat_actor_from_galaxy self cluster) ;;
            let related_threat_actor :=
              _create_related_threat_actor (ta_id threat_actor)
                (g_name galaxy) None in
            modify (fun self =>
              set_ctx_threat_actor
                (Dict.set cluster_uuid related_threat_actor
                   (ctx_threat_actor self)) self) ;;
            modify (fun self =>
              set_threat_actors
                (Dict.set cluster_uuid threat_actor (threat_actors self))
                self)
        end) s = (s', inr tt) ->
    threat_actors_grow s s'
    /\ forall cluster,
         cluster ∈ clusters ->
         exists related,
           Dict.get (c_uuid cluster) (ctx_threat_actor s') = Some related
           /\ (Dict.get (c_uuid cluster) (ctx_threat_actor s) = None ->
               exists threat_actor,
                 Dict.get (c_uuid cluster) (threat_actors s')
                 = Some threat_actor
                 /\ related
                    = _create_related_threat_actor (ta_id threat_actor)
                        (g_name galaxy) None).
Proof.
  induction clusters as [| cluster clusters IH]; intros s s' Hrun.
  - injection Hrun as <-. split; [by split |].
    intros c Hc. by apply elem_of_nil in Hc.
  - cbn [for_each] in Hrun.
    apply bind_inv in Hrun as [(e & _ & [=]) | (s1 & [] & Hturn & Hrest)].
    apply threat_actor_turn in Hturn
      as (Hgrow1 & Hother & related & Hrelated & Hnew).
    apply IH in Hrest as (Hgrow & Hclusters).
    split; [by eapply threat_actors_grow_trans |].
    assert (exists related',
               Dict.get (c_uuid cluster) (ctx_threat_actor s')
               = Some related'
               /\ (Dict.get (c_uuid cluster) (ctx_threat_actor s) = None ->
                   exists threat_actor,
                     Dict.get (c_uuid cluster) (threat_actors s')
                     = Some threat_actor
                     /\ related'
                        = _create_related_threat_actor (ta_id threat_actor)
                            (g_name galaxy) None)) as Hfirst.
    { exists related. split; [by apply Hgrow |].
      intros Hfresh. destruct (Hnew Hfresh) as (ta & Hta & ->).
      exists ta. split; [by apply Hgrow | done]. }
    intros c [-> | Hc]%elem_of_cons; [done |].
    destruct (decide (c_uuid c = c_uuid cluster)) as [Heq | Hne].
    + by rewrite Heq.
    + destruct (Hclusters c Hc) as (r & Hr & Hnew').
      exists r. split; [done |]. rewrite <- (Hother _ Hne). exact Hnew'.
Qed.

(** An actor galaxy of the event, when its resolution completes: the
    registered actors and the relationships the event already had stay
    as they were, and every cluster of the galaxy has a relationship;
    one made here refers to the identifier of the actor registered
    under the UUID of the cluster. *)
Theorem threat_actor_is_registered_once (galaxy : Galaxy) (s s' : Parser) :
  _parse_threat_actor_galaxy galaxy s = (s', inr tt) ->
  threat_actors_grow s s'
  /\ forall cluster,
       cluster ∈ g_GalaxyCluster galaxy ->
       exists related,
         Dict.get (c_uuid cluster) (ctx_threat_actor s') = Some related
         /\ (Dict.get (c_uuid cluster) (ctx_threat_actor s) = None ->
             exists threat_actor,
               Dict.get (c_uuid cluster) (threat_actors s')
               = Some threat_actor
               /\ related
                  = _create_related_threat_actor (ta_id threat_actor)
                      (g_name galaxy) None).
Proof. apply threat_actor_loop. Qed.

(** [_handle_related_ttps] keeps the relationship the event already has
    for a UUID, and takes the one offered for any other UUID. *)
Theorem first_relationship_is_kept (related_ttps : Dict.t RelatedTTP)
  (s : Parser) :
  exists s',
    _handle_related_ttps related_ttps s = (s', inr tt)
    /\ forall uuid,
         Dict.get uuid (ctx_ttp s')
         = match Dict.get uuid (ctx_ttp s) with
           | Some related_ttp => Some related_ttp
           | None => Dict.get uuid related_ttps
           end.
Proof.
  unfold _handle_related_ttps. revert s.
  induction related_ttps as [| [uuid0 related0] related_ttps IH]; intros s.
  - exists s. split; [done |]. intros uuid. by destruct (Dict.get _ _).
  - cbn [for_each]. rewrite bind_eq. unfold modify at 1.
    match goal with
    | |- context [for_each _ _ ?s1] =>
        destruct (IH s1) as (s' & -> & Hget)
    end.
    exists s'. split; [done |]. intros uuid. rewrite Hget.
    unfold Dict.mem. cbn [Dict.get].
    destruct (Dict.get uuid0 (ctx_ttp s)) as [kept |] eqn:Hkept.
    + destruct (Dict.get uuid (ctx_ttp s)) as [r |] eqn:Huuid; [done |].
      destruct (decide (uuid = uuid0)) as [-> | Hne]; [congruence | done].
    + cbn. rewrite DictFacts.get_set.
      destruct (decide (uuid0 = uuid)) as [<- | Hne].
      * rewrite Hkept. by rewrite decide_True.
      * destruct (Dict.get uuid (ctx_ttp s)); [done |].
        by rewrite decide_False by congruence.
Qed.

(** A vulnerability attribute becomes a behaviour descriptor, with or
    without the detection flag: the descriptor is registered under the
    UUID of the attribute (in place of one registered before), the event
    keeps the relationship it had for that UUID or gets one to the new
    descriptor, and the incident gets no indicator and no observable. *)
Theorem vulnerability_attribute_registers_descriptor
  (attribute : MISPAttribute) (s s' : Parser) :
  _parse_vulnerability_attribute stix1_mapping attribute s = (s', inr tt) ->
  exists ttp,
    ttps s' = Dict.set (a_uuid attribute) ttp (ttps s)
    /\ ttp_id ttp = namespace s +:+ ":TTP-" +:+ a_uuid attribute
    /\ incident s' = incident s
    /\ Dict.get (a_uuid attribute) (ctx_ttp s')
       = Some (default
                 (_create_related_ttp (ttp_id ttp) (a_type attribute) None)
                 (Dict.get (a_uuid attribute) (ctx_ttp s))).
Proof.
  unfold _parse_vulnerability_attribute. rewrite bind_eq.
  cbn [get_state]. rewrite bind_eq. unfold lift at 1.
  destruct (_create_ttp stix1_mapping s attribute) as [e | ttp] eqn:Http;
    [done |].
  assert (ttp_id ttp = namespace s +:+ ":TTP-" +:+ a_uuid attribute)
    as Hid.
  { unfold _create_ttp in Http.
    destruct (a_tags attribute); cbn in Http;
      [| destruct (_set_handling _ _); cbn in Http];
      by first [discriminate Http | injection Http as <-]. }
  intros Hrun.
  apply bind_inv in Hrun as [(e & _ & [=]) | (s1 & [] & Hrelated & Hrun)].
  unfold _handle_related_ttps in Hrelated. cbn in Hrelated.
  injection Hrelated as <-. injection Hrun as <-. eexists.
  unfold Dict.mem.
  destruct (Dict.get (a_uuid attribute) (ctx_ttp s)) as [kept |] eqn:Hkept;
    cbn; (split_and!; [reflexivity | by destruct ttp | done |]).
  - done.
  - rewrite DictFacts.get_set_eq. by destruct ttp.
Qed.

End Context.

(** ** Member attributes of an object *)

Section ObjectAttributes.

Lemma values_of_cons (relation : string) (attribute : MISPAttribute)
  (attributes : list MISPAttribute) :
  values_of relation (attribute :: attributes)
  = if decide (a_object_relation attribute = relation)
    then a_value attribute :: values_of relation attributes
    else values_of relation attributes.
Proof.
  unfold values_of. destruct (decide _) as [Heq | Hne].
  - by rewrite filter_cons_True.
  - by rewrite filter_cons_False.
Qed.

Lemma _extract_multiple_loop (relation : string)
  (attributes : list MISPAttribute) :
  forall attributes_dict : Dict.t (list string),
    Dict.get relation
      (foldl (fun attributes_dict attribute =>
                let relation := a_object_relation attribute in
                Dict.set relation
                  (default [] (Dict.get relation attributes_dict)
                   ++ [a_value attribute])
                  attributes_dict)
             attributes_dict attributes)
    = match values_of relation attributes with
      | [] => Dict.get relation attributes_dict
      | values =>
          Some (default [] (Dict.get relation attributes_dict) ++ values)
      end.
Proof.
  induction attributes as [| attribute attributes IH];
    intros attributes_dict; [done |].
  cbn [foldl]. rewrite IH, values_of_cons, DictFacts.get_set.
  destruct (decide (a_object_relation attribute = relation))
    as [-> | Hne].
  - destruct (values_of relation attributes); cbn; [done |].
    by rewrite <- app_assoc.
  - done.
Qed.

(** Looking a relation up in the dictionary of
    [_extract_multiple_object_attributes] gives the values of all the
    member attributes with that relation, in their order, and nothing
    for a relation no member attribute has. *)
Theorem _extract_multiple_object_attributes_get (relation : string)
  (attributes : list MISPAttribute) :
  Dict.get relation (_extract_multiple_object_attributes attributes)
  = match values_of relation attributes with
    | [] => None
    | values => Some values
    end.
Proof.
  unfold _extract_multiple_object_attributes.
  rewrite _extract_multiple_loop. by destruct (values_of _ _).
Qed.

Lemma _extract_loop (relation : string) (attributes : list MISPAttribute) :
  forall attributes_dict : Dict.t string,
    Dict.get relation
      (foldl (fun attributes_dict attribute =>
                Dict.set (a_object_relation attribute) (a_value attribute)
                  attributes_dict)
             attributes_dict attributes)
    = match last (values_of relation attributes) with
      | Some value => Some value
      | None => Dict.get relation attributes_dict
      end.
Proof.
  induction attributes as [| attribute attributes IH];
    intros attributes_dict; [done |].
  cbn [foldl]. rewrite IH, values_of_cons, DictFacts.get_set.
  destruct (decide (a_object_relation attribute = relation))
    as [Heq | Hne]; [| done].
  rewrite last_cons. by destruct (last _).
Qed.

(** The dictionary of [_extract_object_attributes] holds one value per
    relation: that of the last member attribute with the relation. *)
Theorem _extract_object_attributes_get (relation : string)
  (attributes : list MISPAttribute) :
  Dict.get relation (_extract_object_attributes attributes)
  = last (values_of relation attributes).
Proof.
  unfold _extract_object_attributes. rewrite _extract_loop.
  by destruct (last _).
Qed.

(** An [asn] object without a member attribute of relation [asn]: the
    conversion raises the [KeyError] of [attributes.pop('asn')] and has
    changed nothing. *)
Theorem asn_object_without_asn (misp_object : MISPObject) (s : Parser) :
  values_of "asn" (o_attributes misp_object) = [] ->
  _parse_asn_object misp_object s = (s, inl (Py.KeyError "asn")).
Proof.
  intros Hasn. unfold _parse_asn_object. rewrite bind_eq.
  unfold lift, index, _extract_multiple_object_attributes.
  by rewrite _extract_multiple_loop, Hasn.
Qed.


End ObjectAttributes.

(** ** The package of an event and the log of the instance *)

#[local] Instance log_grows_preorder : PreOrder log_grows.
Proof.
  split; [by intros s | intros s1 s2 s3 [? ?] [? ?]].
  split; [by etransitivity | set_solver].
Qed.

Section Package.

Variable stix1_mapping : Mapping.
Variable lib : Library.

Ltac close_log :=
  unfold log_grows; cbn; repeat case_match; cbn;
  (split; [first [reflexivity | by apply prefix_app_r] | set_solver]).

Lemma _generate_stix_objects_keeps_log :
  preserves log_grows (_generate_stix_objects stix1_mapping lib).
Proof.
  unfold _generate_stix_objects, _resolve_attributes, resolve_attribute,
    convert_attribute.
  repeat first
    [ progress preserves_step close_log
    | match goal with
      | |- preserves _ (getattr_attribute _ _ ?method _) =>
          destruct method
      end ].
Qed.

(** Converting an event never drops what the instance has logged: the
    errors recorded before the call are the head of the error list after
    it, and every earlier warning is still in the set, whether the call
    returns or raises. *)
Theorem parse_misp_event_keeps_the_log (event : MISPEvent)
  (version : string) (s : Parser) :
  log_grows s (parse_misp_event stix1_mapping lib event version s).1.
Proof.
  destruct (parse_misp_event _ _ _ _ s) as [s' r] eqn:Hrun. cbn.
  revert s s' r Hrun. change (preserves log_grows
    (parse_misp_event stix1_mapping lib event version)).
  unfold parse_misp_event.
  repeat first
    [ apply _generate_stix_objects_keeps_log
    | apply (preserves_modify log_grows _); intros ?; close_log
    | apply (preserves_bind log_grows _ _); [| intros ?] ].
Qed.

Lemma _generate_stix_objects_keeps_frame :
  preserves (unchanged event_frame)
    (_generate_stix_objects stix1_mapping lib).
Proof.
  unfold _generate_stix_objects, _resolve_attributes, resolve_attribute,
    convert_attribute.
  repeat first
    [ progress preserves_step close_field
    | match goal with
      | |- preserves _ (getattr_attribute _ _ ?method _) =>
          destruct method
      end ].
Qed.

(** The package of an event whose conversion completes: it is
    identified by the organisation name of the instance and the UUID of
    the event, carries the requested version and a header naming the
    namespace, and holds exactly one incident, that of the event, which
    is identified in the same way and titled after the event. *)
Theorem package_of_an_event (event : MISPEvent) (version : string)
  (s s' : Parser) :
  parse_misp_event stix1_mapping lib event version s = (s', inr tt) ->
  pkg_id (stix_package s')
  = orgname s +:+ ":STIXPackage-" +:+ e_uuid event
  /\ pkg_version (stix_package s') = version
  /\ pkg_incidents (stix_package s') = [incident s']
  /\ inc_id (incident s') = orgname s +:+ ":Incident-" +:+ e_uuid event
  /\ inc_title (incident s') = e_info event
  /\ header_title <$> pkg_stix_header (stix_package s')
     = Some ("Export from " +:+ namespace s +:+ " MISP").
Proof.
  unfold parse_misp_event. intros H.
  apply bind_inv in H as [(e & [=] & _) | (s1 & [] & [= <-] & H)].
  apply bind_inv in H as [(e & [=] & _) | (s2 & [] & [= <-] & H)].
  apply bind_inv in H as [(e & [=] & _) | (s3 & [] & [= <-] & H)].
  apply bind_inv in H as [(e & _ & [=]) | (s4 & [] & Hgenerate & H)].
  pose proof (_generate_stix_objects_keeps_frame _ _ _ Hgenerate)
    as Hframe.
  unfold unchanged, event_frame in Hframe. cbn in Hframe.
  injection Hframe as Hnamespace Horgname Hevent Hpackage Hid Htitle.
  injection H as <-. cbn. rewrite Hpackage, Hnamespace. cbn.
  split_and!; [done | done | done | | | done];
    by destruct (ctx_threat_actor s4).
Qed.

End Package.

(** ** The properties above on concrete events *)

Lemma composite_value_without_separator_witness :
  let attribute :=
    sample_attribute "91ae0a21-c7ae-4c7f-b84b-b84a7ce53d1f" "domain|ip"
      "circl.lu" false [] [] in
  let s := __init__ "MISP" "CIRCL" in
  resolve_attribute composite_mapping sample_library attribute s
  = (set_errors (errors s ++ [attribute_error_message attribute]) s,
     inr tt).
Proof.
  intros attribute s.
  apply (composite_value_without_separator composite_mapping
           sample_library s attribute AM_domain_ip_attribute).
  - reflexivity.
  - unfold splits_value. by left.
  - vm_compute. lia.
Defined.

Lemma failing_object_stops_the_loop_witness :
  let failing :=
    sample_object "3c1d2f5e-8a7b-4c6d-9e0f-1a2b3c4d5e6f" "credential" [] in
  let following :=
    sample_object "5ac47782-e1b8-40b6-96b4-02510a00020f" "unknown-object"
      [] in
  let event :=
    sample_event "5e1f4d3a-0b34-4b1e-9d3f-1c2b3a4d5e6f" [] [] []
      [failing; following] in
  let s := set_misp_event event (__init__ "MISP" "CIRCL") in
  _resolve_objects sample_mapping s
  = (s, inl (Py.AttributeError "_create_account_object")).
Proof.
  intros failing following event s.
  apply (failing_object_stops_the_loop sample_mapping s s s [] [following]
           failing); reflexivity.
Defined.

Lemma attribute_adds_at_most_one_item_witness :
  let attribute :=
    sample_attribute "91ae0a21-c7ae-4c7f-b84b-b84a7ce53d1f" "domain"
      "circl.lu" true ["tlp:green"] [] in
  let s := __init__ "MISP" "CIRCL" in
  adds_one_item attribute s
    (getattr_attribute sample_mapping sample_library AM_domain_attribute
       attribute s).1.
Proof.
  intros attribute s.
  apply (attribute_adds_at_most_one_item sample_mapping sample_library
           AM_domain_attribute attribute s).
  vm_compute. reflexivity.
Defined.

Lemma attribute_tags_exclude_galaxy_names_witness :
  let galaxy :=
    sample_galaxy "mitre-attack-pattern"
      [sample_cluster "dcaa092b-7de9-4a21-977f-7fcb77e89c48"
         "Spearphishing Link"] in
  let attribute :=
    sample_attribute "91ae0a21-c7ae-4c7f-b84b-b84a7ce53d1f" "domain"
      "circl.lu" true
      ["tlp:green";
       "misp-galaxy:mitre-attack-pattern=" +:+ Py.dquote
       +:+ "Spearphishing Link" +:+ Py.dquote]
      [galaxy] in
  let s := __init__ "MISP" "CIRCL" in
  let indicator := _create_indicator_from_attribute sample_mapping s
                     attribute in
  ["tlp:green"]
  = filter (fun name =>
              name ∉ galaxy_tag_names sample_mapping (a_Galaxy attribute))
      (a_tags attribute).
Proof.
  intros galaxy attribute s indicator.
  eapply (attribute_tags_exclude_galaxy_names sample_mapping attribute
            indicator _ ["tlp:green"] s).
  vm_compute. reflexivity.
Defined.

Lemma event_tags_exclude_galaxy_names_witness :
  let galaxy :=
    sample_galaxy "mitre-attack-pattern"
      [sample_cluster "dcaa092b-7de9-4a21-977f-7fcb77e89c48"
         "Spearphishing Link"] in
  let event :=
    sample_event "5e1f4d3a-0b34-4b1e-9d3f-1c2b3a4d5e6f"
      ["misp-galaxy:mitre-attack-pattern=" +:+ Py.dquote
       +:+ "Spearphishing Link" +:+ Py.dquote;
       "tlp:amber"]
      [galaxy] [] [] in
  let s := set_misp_event event (__init__ "MISP" "CIRCL") in
  ["tlp:amber"]
  = filter (fun name =>
              name ∉ galaxy_tag_names sample_mapping
                       (e_Galaxy (misp_event s)))
      (e_tags (misp_event s)).
Proof.
  intros galaxy event s.
  eapply (event_tags_exclude_galaxy_names sample_mapping ["tlp:amber"] s).
  vm_compute. reflexivity.
Defined.


Lemma course_of_action_is_registered_once_witness :
  let cluster :=
    sample_cluster "2497ac92-e751-4391-82c6-1b86e34d0294"
      "Automated Exfiltration Mitigation" in
  let galaxy :=
    sample_galaxy "mitre-course-of-action" [cluster; cluster] in
  let attribute :=
    sample_attribute "91ae0a21-c7ae-4c7f-b84b-b84a7ce53d1f" "domain"
      "circl.lu" true [] [galaxy] in
  let s := __init__ "MISP" "CIRCL" in
  let indicator :=
    _create_indicator_from_attribute sample_mapping s attribute in
  let run := _parse_course_of_action_attribute_galaxy galaxy indicator s in
  let indicator' :=
    default indicator
      (match run.2 with inr i => Some i | inl _ => None end) in
  courses_of_action_grow s run.1
  /\ length (ind_suggested_coas indicator')
     = length (ind_suggested_coas indicator)
       + length (g_GalaxyCluster galaxy)
  /\ Dict.keys (courses_of_action run.1)
     = ["2497ac92-e751-4391-82c6-1b86e34d0294"].
Proof.
  intros cluster galaxy attribute s indicator run indicator'.
  destruct (course_of_action_is_registered_once galaxy indicator
              indicator' s run.1)
    as (Hgrow & Hlength & _); [vm_compute; reflexivity |].
  split_and!; [exact Hgrow | exact Hlength | reflexivity].
Defined.

Lemma vulnerability_attribute_registers_descriptor_witness :
  let attribute :=
    sample_attribute "5f9d4a3b-7c2e-4e1d-8b6a-0c1d2e3f4a5b" "vulnerability"
      "CVE-2020-1472" true [] [] in
  let s := __init__ "MISP" "CIRCL" in
  let s' := (_parse_vulnerability_attribute sample_mapping attribute s).1 in
  exists ttp,
    ttps s' = Dict.set (a_uuid attribute) ttp (ttps s)
    /\ ttp_id ttp = namespace s +:+ ":TTP-" +:+ a_uuid attribute
    /\ incident s' = incident s
    /\ Dict.get (a_uuid attribute) (ctx_ttp s')
       = Some (default
                 (_create_related_ttp (ttp_id ttp) (a_type attribute) None)
                 (Dict.get (a_uuid attribute) (ctx_ttp s))).
Proof.
  intros attribute s s'.
  apply (vulnerability_attribute_registers_descriptor sample_mapping
           attribute s s').
  vm_compute. reflexivity.
Defined.

Lemma asn_object_without_asn_witness :
  let misp_object :=
    sample_object "3c1d2f5e-8a7b-4c6d-9e0f-1a2b3c4d5e6f" "asn"
      [sample_attribute "91ae0a21-c7ae-4c7f-b84b-b84a7ce53d1f" "text"
         "CIRCL network" false [] []] in
  let s := __init__ "MISP" "CIRCL" in
  _parse_asn_object misp_object s = (s, inl (Py.KeyError "asn")).
Proof.
  intros misp_object s.
  apply (asn_object_without_asn misp_object s). reflexivity.
Defined.


Lemma package_of_an_event_witness :
  let event :=
    sample_event "5e1f4d3a-0b34-4b1e-9d3f-1c2b3a4d5e6f" ["tlp:green"] []
      [sample_attribute "91ae0a21-c7ae-4c7f-b84b-b84a7ce53d1f" "domain"
         "circl.lu" true [] []] [] in
  let s := __init__ "MISP" "CIRCL" in
  let s' := (parse_misp_event sample_mapping sample_library event "1.1.1"
               s).1 in
  pkg_id (stix_package s')
  = orgname s +:+ ":STIXPackage-" +:+ e_uuid event
  /\ pkg_version (stix_package s') = "1.1.1"
  /\ pkg_incidents (stix_package s') = [incident s']
  /\ inc_id (incident s') = orgname s +:+ ":Incident-" +:+ e_uuid event
  /\ inc_title (incident s') = e_info event
  /\ header_title <$> pkg_stix_header (stix_package s')
     = Some ("Export from " +:+ namespace s +:+ " MISP").
Proof.
  intros event s s'.
  apply (package_of_an_event sample_mapping sample_library event "1.1.1"
           s s').
  vm_compute. reflexivity.
Defined.

Lemma threat_actor_is_registered_once_witness :
  let cluster :=
    sample_cluster "7cdff317-a673-4474-84ec-4f1754947823" "APT 29" in
  let galaxy := sample_galaxy "threat-actor" [cluster; cluster] in
  let s := __init__ "MISP" "CIRCL" in
  let s' := (_parse_threat_actor_galaxy galaxy s).1 in
  threat_actors_grow s s'
  /\ forall cluster,
       cluster ∈ g_GalaxyCluster galaxy ->
       exists related,
         Dict.get (c_uuid cluster) (ctx_threat_actor s') = Some related
         /\ (Dict.get (c_uuid cluster) (ctx_threat_actor s) = None ->
             exists threat_actor,
               Dict.get (c_uuid cluster) (threat_actors s')
               = Some threat_actor
               /\ related
                  = _create_related_threat_actor (ta_id threat_actor)
                      (g_name galaxy) None).
Proof.
  intros cluster galaxy s s'.
  apply (threat_actor_is_registered_once galaxy s s').
  vm_compute. reflexivity.
Defined.

End Stix1Facts.

(* ===================================================================== *)
(** * Properties of the flat target *)
(* ===================================================================== *)

Module Stix2Facts.
Import Stix2 Stix2Spec.

(** ** Marking resolution *)

Section Markings.

Variable env : Collaborators.



End Markings.


(** ** The output sequence *)

#[local] Instance extends_output_preorder : PreOrder extends_output.
Proof.
  split.
  - intros s. exists []. by rewrite !app_nil_r.
  - intros s1 s2 s3 (l1 & Ho1 & Hr1) (l2 & Ho2 & Hr2). exists (l1 ++ l2).
    rewrite Ho2, Ho1, Hr2, Hr1, !fmap_app, !app_assoc. done.
Qed.

Section Output.

Variable env : Collaborators.









End Output.

(** ** Order of the flat sequence and identity of the organisation *)



Section Sequence.

Variable env : Collaborators.



End Sequence.





(** ** Identifiers of the output *)

Section Identifiers.

Variable env : Collaborators.


End Identifiers.




(** ** Values and patterns *)

Lemma substring_all (s : string) :
  String.substring 0 (String.length s) s = s.
Proof. induction s as [| c s IH]; [done |]. cbn. by rewrite IH. Qed.

(** [_parse_AS_value] removes the prefix of an autonomous system handle:
    the number written after [AS] is what it returns. *)
Theorem _parse_AS_value_strips_prefix (number : string) :
  _parse_AS_value ("AS" +:+ number) = number.
Proof.
  change ("AS" +:+ number) with (String "A" (String "S" number)).
  unfold _parse_AS_value, Py.startswith.
  replace (String.prefix "AS" (String "A" (String "S" number))) with true
    by (by destruct number).
  cbn. rewrite ?Nat.sub_0_r. apply substring_all.
Qed.

Lemma contains_char_cons (c c' : ascii) (s : string) :
  Py.contains (String c EmptyString) (String c' s)
  = if Ascii.eqb c c' then true
    else Py.contains (String c EmptyString) s.
Proof.
  cbn. destruct (ascii_dec c c') as [-> | Hne].
  - rewrite Ascii.eqb_refl. by destruct s.
  - apply Ascii.eqb_neq in Hne. by rewrite Hne.
Qed.

Lemma contains_char_app (c : ascii) (s1 s2 : string) :
  Py.contains (String c EmptyString) (s1 +:+ s2)
  = Py.contains (String c EmptyString) s1
    || Py.contains (String c EmptyString) s2.
Proof.
  induction s1 as [| c1 s1 IH]; [done |].
  change (String c1 s1 +:+ s2) with (String c1 (s1 +:+ s2)).
  rewrite !contains_char_cons, IH. by destruct (Ascii.eqb c c1).
Qed.

Lemma replace_removes (old : ascii) (new s : string) :
  Py.contains (String old EmptyString) new = false ->
  Py.contains (String old EmptyString) (Py.replace old new s) = false.
Proof.
  intros Hnew. induction s as [| c s IH]; [done |]. cbn [Py.replace].
  destruct (Ascii.eqb c old) eqn:Hc.
  - by rewrite contains_char_app, Hnew, IH.
  - rewrite contains_char_cons, Ascii.eqb_sym, Hc. exact IH.
Qed.

Lemma replace_keeps_absent (c old : ascii) (new s : string) :
  Py.contains (String c EmptyString) new = false ->
  Py.contains (String c EmptyString) s = false ->
  Py.contains (String c EmptyString) (Py.replace old new s) = false.
Proof.
  intros Hnew. induction s as [| c' s IH]; [done |].
  rewrite contains_char_cons. destruct (Ascii.eqb c c') eqn:Hc; [done |].
  intros Hs. cbn [Py.replace]. destruct (Ascii.eqb c' old).
  - rewrite contains_char_app, Hnew. by apply IH.
  - rewrite contains_char_cons, Hc. by apply IH.
Qed.

(** A value prepared for a pattern holds no apostrophe and no double
    quote, whatever the value was. *)
Theorem pattern_value_has_no_quote (attribute_value : string) :
  Py.contains "'" (_handle_value_for_pattern attribute_value) = false
  /\ Py.contains Py.dquote (_handle_value_for_pattern attribute_value)
     = false.
Proof.
  unfold _handle_value_for_pattern. split.
  - apply replace_keeps_absent; [done |]. by apply replace_removes.
  - by apply replace_removes.
Qed.

(** ** Failures and the cache of markings *)

Section Failures.

Variable env : Collaborators.


Lemma flat_convert_attribute_keeps_errors (attribute : MISPAttribute) :
  preserves (unchanged _errors) (convert_attribute env attribute).
Proof. preserves_tac close_field. Qed.

Lemma flat_resolve_attribute_errors (attribute : MISPAttribute)
  (s : Parser) :
  exists s',
    resolve_attribute env attribute s = (s', inr tt)
    /\ (_errors s' = _errors s
        \/ _errors s' = _errors s ++ [error_message attribute]).
Proof.
  unfold resolve_attribute, try_except.
  destruct (convert_attribute _ _ s) as [s1 [e | []]] eqn:Hconvert.
  - eexists. split; [reflexivity |]. right. cbn.
    by rewrite (flat_convert_attribute_keeps_errors _ _ _ _ Hconvert).
  - exists s1. split; [done |]. left.
    by apply (flat_convert_attribute_keeps_errors _ _ _ _ Hconvert).
Qed.

(** The loop over the attributes of the flat target never raises either:
    it keeps the errors recorded before it and adds one message for
    each attribute of a sublist of the attributes, in their order. *)
Theorem flat_attribute_loop_appends_errors (s : Parser) :
  exists s' failed,
    _resolve_attributes env s = (s', inr tt)
    /\ failed `sublist_of` e_attributes (_misp_event s)
    /\ _errors s' = _errors s ++ (error_message <$> failed).
Proof.
  unfold _resolve_attributes. rewrite bind_eq. cbn [get_state].
  generalize (e_attributes (_misp_event s)) as attributes.
  intros attributes. revert s.
  induction attributes as [| attribute attributes IH]; intros s.
  - exists s, []. by rewrite app_nil_r.
  - cbn [for_each]. rewrite bind_eq.
    destruct (flat_resolve_attribute_errors attribute s)
      as (s1 & -> & Herrors).
    destruct (IH s1) as (s' & failed & -> & Hsub & Herrors').
    destruct Herrors as [Hsame | Hadded].
    + exists s', failed. split_and!; [done | by apply sublist_cons |].
      by rewrite Herrors', Hsame.
    + exists s', (attribute :: failed).
      split_and!; [done | by apply sublist_skip |].
      by rewrite Herrors', Hadded, <- app_assoc.
Qed.


(** An event without [Orgc]: [_set_identity] raises the [KeyError] of
    the lookup, nothing catches it, and the conversion ends with an
    empty output and the error list as it was. *)
Theorem event_without_orgc_raises (event : MISPEvent) (ids : list string)
  (include_bundle : bool) (s : Parser) :
  e_orgc event = None ->
  exists s',
    parse_misp_event env event ids include_bundle s
    = (s', inl (Py.KeyError "Orgc"))
    /\ _objects s' = [] /\ _object_refs s' = []
    /\ _errors s' = _errors s.
Proof.
  intros Horgc. unfold parse_misp_event. rewrite bind_eq.
  unfold modify at 1. rewrite bind_eq.
  unfold _set_identity. rewrite bind_eq. cbn [get_state].
  cbn [_misp_event set__object_refs set__objects set__report_id
         set__include_bundle set__ids set__misp_event].
  rewrite Horgc. by eexists.
Qed.

End Failures.




Lemma event_without_orgc_raises_witness :
  let env := sample_collaborators (fun _ => "0") in
  let event :=
    {| e_uuid := "5e1f4d3a-0b34-4b1e-9d3f-1c2b3a4d5e6f";
       e_info := "Event under test"; e_date := "2020-11-04";
       e_timestamp := "1604448000"; e_published := false;
       e_publish_timestamp := "0"; e_threat_level_id := None;
       e_id := None; e_analysis := None; e_orgc := None; e_org := None;
       e_tags := []; e_Galaxy := []; e_attributes := [];
       e_objects := [] |} in
  let s := __init__ v2_1 in
  exists s',
    parse_misp_event env event [] true s = (s', inl (Py.KeyError "Orgc"))
    /\ _objects s' = [] /\ _object_refs s' = []
    /\ _errors s' = _errors s.
Proof.
  intros env event s.
  apply (event_without_orgc_raises env event [] true s). reflexivity.
Defined.

End Stix2Facts.
